(** * UHT Framework: installation and synchronisation orchestrator

    A shallow embedding of the orchestrator core of the UHT toolkit
    ([uht.py], [lib/os_utils.py], [lib/tool_manager.py],
    [lib/update_checker.py]) and the properties its specification states
    about it.

    Conventions of the embedding.
    - A Python [str] is the [string] of its UTF-8 encoding, so that
      equality, concatenation, substring search and replacement are
      those of the bytes, and whitespace is recognised by the encodings
      of the whitespace code points; [None]/JSON [null] in an optional
      field is [None]; truthiness of an optional string is [truthy].
    - A [dict] whose iteration order is observed is an insertion-ordered
      association list ([PyDict]); a JSON object that is only looked up
      by key is a [gmap string _]; a Python [set] is a [gset string].
    - The host (filesystem, search path, external processes, network) is
      an abstract [World] with the operations of class [Host]; code that
      talks to the host is written in the state monad [M] over [Sys],
      which also records every process spawned and every line printed by
      the update checker.
    - Colouring, the log file, screen clearing and the "Press Enter"
      prompts are presentation and are left out; the console lines of
      the update-check flow are kept because the specification speaks
      about what that flow reports.
    - Exceptions the sources catch become return values. Of the ones
      they do not catch, the model has those of [Exn], as the [Raised]
      outcome: the failure of [mkdir], of listing a path that is not a
      directory, of reading [/etc/os-release] in [get_os_type], and the
      [AttributeError] of a handler that names a missing attribute.
      The host operations of class [Host] are otherwise total: an
      exception out of a process call or a path test is outside the
      model. *)

From stdpp Require Import gmap strings list.
From Stdlib Require Import String Ascii.

Open Scope string_scope.

(** ** Python string primitives used by the sources *)

Module PyStr.

(** [needle in hay] on strings: some suffix of [hay] starts with
    [needle]. *)
Fixpoint contains (needle hay : string) : bool :=
  String.prefix needle hay ||
  match hay with
  | EmptyString => false
  | String _ rest => contains needle rest
  end.

(** The string with the given bytes. *)
Definition of_bytes (l : list nat) : string :=
  fold_right (fun n s => String (ascii_of_nat n) s) EmptyString l.

(** The UTF-8 encodings of the code points [str.strip()] removes:
    U+0009 to U+000D, U+001C to U+0020, U+0085, U+00A0, U+1680, U+2000
    to U+200A, U+2028, U+2029, U+202F, U+205F and U+3000. *)
Definition whitespace : list string :=
  map of_bytes
    ([[9]; [10]; [11]; [12]; [13]; [28]; [29]; [30]; [31]; [32];
      [194; 133]; [194; 160]; [225; 154; 128]]
     ++ map (fun n => [226; 128; n]) (seq 128 11)
     ++ [[226; 128; 168]; [226; 128; 169]; [226; 128; 175];
         [226; 129; 159]; [227; 128; 128]])%list.

(** The number of bytes of the whitespace code point [s] starts with,
    [0] when it starts with none. *)
Definition space_len (s : string) : nat :=
  match List.find (fun e => String.prefix e s) whitespace with
  | Some e => String.length e
  | None => 0
  end.

(** [s.lstrip()]; [skip] counts the bytes of a recognised code point
    that are still to be dropped. *)
Fixpoint lstrip_go (skip : nat) (s : string) : string :=
  match s with
  | EmptyString => EmptyString
  | String _ rest =>
      match skip with
      | S k => lstrip_go k rest
      | O =>
          match space_len s with
          | O => s
          | S k => lstrip_go k rest
          end
      end
  end.

Definition lstrip (s : string) : string := lstrip_go 0 s.

(** Every code point of [s] is whitespace. *)
Definition all_space (s : string) : bool := String.eqb (lstrip s) EmptyString.

(** [s.rstrip()]: a byte is kept unless everything from it on is
    whitespace. *)
Fixpoint rstrip (s : string) : string :=
  match s with
  | EmptyString => EmptyString
  | String c rest => if all_space s then EmptyString else String c (rstrip rest)
  end.

Definition strip (s : string) : string := rstrip (lstrip s).

(** [' '.join(l)] *)
Definition join_spaces (l : list string) : string := String.concat " " l.

(** [s.rfind('.')], [None] for Python's [-1]. *)
Fixpoint rfind_dot (s : string) : option nat :=
  match s with
  | EmptyString => None
  | String c rest =>
      match rfind_dot rest with
      | Some i => Some (S i)
      | None => if Ascii.eqb c "."%char then Some 0 else None
      end
  end.

(** [s.replace(old, new)] for a non-empty [old]: leftmost,
    non-overlapping occurrences.  [skip] counts the characters of a
    matched occurrence that are still to be dropped. *)
Fixpoint replace_go (old new : string) (skip : nat) (s : string) : string :=
  match s with
  | EmptyString => EmptyString
  | String c rest =>
      match skip with
      | S k => replace_go old new k rest
      | O =>
          if String.prefix old s
          then new +:+ replace_go old new (Nat.pred (String.length old)) rest
          else String c (replace_go old new 0 rest)
      end
  end.

Definition replace (old new s : string) : string := replace_go old new 0 s.

End PyStr.

(** Truthiness of an optional string: neither [None] nor [""]. *)
Definition truthy (o : option string) : bool :=
  match o with
  | Some s => negb (String.eqb s "")
  | None => false
  end.

(** ** [lib/os_utils.py]: environment detector *)

(** The host signals [get_os_type] inspects. [os_release] is [None] when
    [/etc/os-release] does not exist and its text when it does. *)
Record HostSignals := {
  android_root_set : bool;       (* 'ANDROID_ROOT' in os.environ *)
  termux_files_is_dir : bool;    (* Path('/data/data/com.termux/files').is_dir() *)
  platform_system : string;      (* platform.system() *)
  os_release : option string     (* /etc/os-release *)
}.

(** The result of [get_os_type()] on a host whose distro file, when it
    exists, is read without error; [get_os_type_run] below is the
    function with the read that can raise. *)
Definition get_os_type (h : HostSignals) : string :=
  let system := platform_system h in
  if android_root_set h || termux_files_is_dir h then "termux"
  else if String.eqb system "Linux" then
    match os_release h with
    | Some content =>
        if PyStr.contains "ID=debian" content
           || PyStr.contains "ID_LIKE=debian" content
           || PyStr.contains "ID=ubuntu" content
        then "debian_based_linux"
        else if PyStr.contains "ID=arch" content
                || PyStr.contains "ID_LIKE=arch" content
        then "arch_based_linux"
        else "linux"
    | None => "linux"
    end
  else if String.eqb system "Windows" then "windows"
  else if String.eqb system "Darwin" then "macos"
  else "unsupported".

(** ** Data model: tool definitions and catalogs ([config/tools.json]) *)

(** [run_command] is either a plain string or a per-OS mapping. *)
Inductive RunCommand :=
  | RunFixed (cmd : string)
  | RunPerOS (by_os : gmap string string).

(** One tool-definition object. Keys read with [tool_data[...]] are
    plain fields ([None] standing for JSON [null]); keys read with
    [.get] or tested with [in] are optional, [None] standing for an
    absent key. *)
Record Tool := {
  name : string;
  github_url : option string;
  install_path : option string;
  dependencies : option (gmap string (list string));
  post_install_commands : option (list string);
  run_command : RunCommand;
  os_compat : option (list string);
  skip_if_os_not_supported : option bool;
  description : option string
}.

(** Category name to the tools of the category, in file order. *)
Definition Catalog := list (string * list Tool).

(** ** Insertion-ordered dictionaries with string keys *)

Module PyDict.

(** [d[k] = v]: an existing key keeps its position. *)
Fixpoint set {V} (k : string) (v : V) (d : list (string * V)) : list (string * V) :=
  match d with
  | [] => [(k, v)]
  | (k', v') :: rest =>
      if String.eqb k' k then (k', v) :: rest else (k', v') :: set k v rest
  end.

(** [d.get(k)] *)
Fixpoint get {V} (k : string) (d : list (string * V)) : option V :=
  match d with
  | [] => None
  | (k', v') :: rest => if String.eqb k' k then Some v' else get k rest
  end.

(** [k in d] *)
Definition mem {V} (k : string) (d : list (string * V)) : bool :=
  match get k d with Some _ => true | None => false end.

End PyDict.

(** [x in l] for a list of strings. *)
Definition str_in (x : string) (l : list string) : bool :=
  existsb (String.eqb x) l.

(** ** The host *)

(** What a directory entry is after following links. *)
Inductive EntryKind := IsDir | IsFile | IsOther.

(** What a path refers to, when it exists. *)
Inductive Node :=
  | Dir (entries : list (string * EntryKind))
  | File
  | Special.

(** Outcome of [requests.get(url, timeout=...)]. *)
Inductive HttpResult :=
  | HttpResponse (status : nat) (text : string)
  | HttpTimeout
  | HttpConnectionError
  | HttpRequestException (msg : string).

(** Outcome of [json5.loads]: the parsed value, or the [ValueError] it
    raises on a malformed text. *)
Inductive ParseResult :=
  | Parsed (data : Catalog)
  | ParseValueError (msg : string).

(** Outcome of [subprocess.run(argv, check=True, capture_output=True)]:
    exit status 0 with the captured stdout, [CalledProcessError] with
    the captured stderr, or [FileNotFoundError] for a missing binary. *)
Inductive ProcResult :=
  | ProcOk (stdout : string)
  | ProcFailed (stderr : string)
  | ProcNotFound.

(** Processes spawned and requests sent, in order. *)
Inductive Event :=
  | EvShell (cmd_str : string) (cwd : option string)
      (* subprocess.run(cmd_str, shell=True, cwd=cwd) *)
  | EvArgv (argv : list string)
      (* subprocess.run(argv) *)
  | EvHttpGet (url : string) (timeout : nat).

(** Exceptions that no handler of the sources catches. *)
Inductive Exn :=
  | OSError | NotADirectoryError
  | PermissionError | IsADirectoryError | UnicodeDecodeError
  | AttributeError.

Inductive Res (A : Type) :=
  | Ok (a : A)
  | Raised (e : Exn).
Arguments Ok {A} a.
Arguments Raised {A} e.

(** *** [get_os_type] with the read of the distro file *)

(** What [get_os_type] meets at [/etc/os-release]: the file does not
    exist, or [open] and [read] give its text, or one of them raises
    (the path is a directory, the file may not be read, its bytes are
    not text in the default encoding). The read is not guarded. *)
Inductive OsRelease :=
  | OsReleaseAbsent
  | OsReleaseText (content : string)
  | OsReleaseUnreadable (e : Exn).

Record HostProbe := {
  probe_android_root : bool;     (* 'ANDROID_ROOT' in os.environ *)
  probe_termux_dir : bool;       (* Path('/data/data/com.termux/files').is_dir() *)
  probe_system : string;         (* platform.system() *)
  probe_os_release : OsRelease   (* /etc/os-release *)
}.

(** [get_os_type()] on a host as probed. [get_os_type] above is its
    result on the hosts whose distro file, if any, can be read. *)
Definition get_os_type_run (p : HostProbe) : Res string :=
  let system := probe_system p in
  if probe_android_root p || probe_termux_dir p then Ok "termux"
  else if String.eqb system "Linux" then
    match probe_os_release p with
    | OsReleaseText content =>
        if PyStr.contains "ID=debian" content
           || PyStr.contains "ID_LIKE=debian" content
           || PyStr.contains "ID=ubuntu" content
        then Ok "debian_based_linux"
        else if PyStr.contains "ID=arch" content
                || PyStr.contains "ID_LIKE=arch" content
        then Ok "arch_based_linux"
        else Ok "linux"
    | OsReleaseAbsent => Ok "linux"
    | OsReleaseUnreadable e => Raised e
    end
  else if String.eqb system "Windows" then Ok "windows"
  else if String.eqb system "Darwin" then Ok "macos"
  else Ok "unsupported".

(** The probe of a host whose signals were read without error. *)
Definition probe_of_signals (h : HostSignals) : HostProbe :=
  {| probe_android_root := android_root_set h;
     probe_termux_dir := termux_files_is_dir h;
     probe_system := platform_system h;
     probe_os_release := match os_release h with
                         | Some content => OsReleaseText content
                         | None => OsReleaseAbsent
                         end |}.

(** [token in text], stated without the search: [text] is [token]
    between two strings. *)
Definition occurs (token text : string) : Prop :=
  ∃ before behind, text = before +:+ token +:+ behind.

(** A blank string, stated without the stripping: a sequence of
    whitespace code points, possibly none. *)
Definition blank (s : string) : Prop :=
  ∃ l, Forall (λ e, e ∈ PyStr.whitespace) l ∧ s = fold_right String.append "" l.

Class Host (World : Type) := {
  host_signals : World → HostSignals;
  (* pathlib *)
  fs_node : string → World → option Node;
  mkdir_parents : string → World → option World;   (* None: OSError *)
  path_str : string → string;                      (* str(Path(s)) *)
  path_parent : string → string;                   (* Path(s).parent *)
  path_join : string → string → string;            (* Path(a) / b *)
  (* subprocess *)
  spawn_shell : string → option string → World → bool * World;
  spawn_argv : list string → World → ProcResult * World;
  (* requests, json5 *)
  http_get : string → nat → World → HttpResult * World;
  http_error_str : nat → string → string;          (* str(HTTPError) *)
  json5_loads : string → ParseResult
}.

(** A command is passed either as one shell string or as an argument
    list. *)
Inductive Command :=
  | CmdStr (s : string)
  | CmdList (l : list string).

Record Sys (World : Type) := {
  world : World;
  procs : list Event;
  console : list string
}.
Arguments world {World} s.
Arguments procs {World} s.
Arguments console {World} s.

Definition M (World A : Type) : Type := Sys World → Res A * Sys World.

Definition ret {World A} (a : A) : M World A := fun s => (Ok a, s).

Definition raise {World A} (e : Exn) : M World A := fun s => (Raised e, s).

Definition bind {World A B} (m : M World A) (k : A → M World B) : M World B :=
  fun s =>
    match m s with
    | (Ok a, s') => k a s'
    | (Raised e, s') => (Raised e, s')
    end.

Declare Scope host_scope.
Delimit Scope host_scope with host.
Notation "x <- m ;; k" := (bind m (fun x => k))
  (at level 100, m at next level, right associativity) : host_scope.
Notation "m ;;; k" := (bind m (fun _ => k))
  (at level 100, right associativity) : host_scope.
Open Scope host_scope.

Section Orchestrator.
Context {World : Type} {HW : Host World}.

(** *** Primitive actions *)

Definition get_world : M World World := fun s => (Ok (world s), s).

Definition emit (ev : Event) (w : World) (s : Sys World) : Sys World :=
  {| world := w; procs := procs s ++ [ev]; console := console s |}.

(** [subprocess.run(cmd_str, shell=True, check=True, cwd=cwd)]; [true]
    when the process exits with status 0. *)
Definition shell (cmd_str : string) (cwd : option string) : M World bool :=
  fun s => let '(b, w) := spawn_shell cmd_str cwd (world s) in
           (Ok b, emit (EvShell cmd_str cwd) w s).

(** [subprocess.run(argv, check=True, capture_output=True)] *)
Definition run_argv (argv : list string) : M World ProcResult :=
  fun s => let '(r, w) := spawn_argv argv (world s) in
           (Ok r, emit (EvArgv argv) w s).

Definition requests_get (url : string) (timeout : nat) : M World HttpResult :=
  fun s => let '(r, w) := http_get url timeout (world s) in
           (Ok r, emit (EvHttpGet url timeout) w s).

Definition print (text : string) : M World unit :=
  fun s => (Ok tt, {| world := world s; procs := procs s;
                      console := console s ++ [text] |}).

Definition path_exists (p : string) (w : World) : bool :=
  match fs_node p w with Some _ => true | None => false end.

Definition path_is_dir (p : string) (w : World) : bool :=
  match fs_node p w with Some (Dir _) => true | _ => false end.

Definition exists_ (p : string) : M World bool :=
  fun s => (Ok (path_exists p (world s)), s).

Definition is_dir (p : string) : M World bool :=
  fun s => (Ok (path_is_dir p (world s)), s).

(** [Path(p).mkdir(parents=True, exist_ok=True)] *)
Definition mkdir (p : string) : M World unit :=
  fun s => match mkdir_parents p (world s) with
           | Some w => (Ok tt, {| world := w; procs := procs s; console := console s |})
           | None => (Raised OSError, s)
           end.

(** *** [lib/os_utils.py] *)

(** Every exception of the process call is caught and turned into
    [False]. *)
Definition run_command_in_os_utils (command : Command) (cwd : option string)
  : M World bool :=
  let cmd_str := match command with
                 | CmdStr s => s
                 | CmdList l => PyStr.join_spaces l
                 end in
  shell cmd_str cwd.

Definition check_command_exists (command_name : string) : M World bool :=
  r <- run_argv ["which"; command_name] ;;
  ret (match r with ProcOk _ => true | _ => false end).

Definition special_commands : list string :=
  ["python"; "python3"; "pip"; "pip3"; "go"; "java"; "perl"; "ruby"; "bash";
   "powershell"].

(** The presence check at the head of [install_system_package]. *)
Definition package_present (package_name : string) : M World bool :=
  if str_in package_name special_commands then
    e <- check_command_exists package_name ;;
    if e then ret true
    else if String.eqb package_name "java" then
      j <- check_command_exists "java" ;;
      if j then ret true else check_command_exists "javac"
    else ret false
  else check_command_exists package_name.

(** The OS dispatch of [install_system_package]: [Some (update_cmd,
    install_cmd)], or [None] where the source returns [False] at once. *)
Definition package_manager_commands (package_name os_type : string)
  : M World (option (list string * list string)) :=
  if String.eqb os_type "termux" then
    ret (Some (["pkg"; "update"; "-y"], ["pkg"; "install"; "-y"; package_name]))
  else if String.eqb os_type "debian_based_linux" then
    ret (Some (["sudo"; "apt"; "update"; "-y"],
               ["sudo"; "apt"; "install"; "-y"; package_name]))
  else if String.eqb os_type "arch_based_linux" then
    ret (Some (["sudo"; "pacman"; "-Sy"; "--noconfirm"],
               ["sudo"; "pacman"; "-S"; "--noconfirm"; package_name]))
  else if String.eqb os_type "windows" then
    choco <- check_command_exists "choco" ;;
    if choco then ret (Some ([], ["choco"; "install"; "-y"; package_name]))
    else
      winget <- check_command_exists "winget" ;;
      if winget
      then ret (Some ([], ["winget"; "install"; "-e"; "--id"; package_name]))
      else ret None
  else if String.eqb os_type "macos" then
    brew <- check_command_exists "brew" ;;
    if brew
    then ret (Some (["brew"; "update"], ["brew"; "install"; package_name]))
    else ret None
  else ret None.

Definition nonempty {A} (l : list A) : bool :=
  match l with [] => false | _ :: _ => true end.

Definition install_system_package (package_name os_type : string) : M World bool :=
  if String.eqb (PyStr.strip package_name) "" then ret true
  else
    present <- package_present package_name ;;
    if present then ret true
    else
      cmds <- package_manager_commands package_name os_type ;;
      match cmds with
      | None => ret false
      | Some (update_cmd, install_cmd) =>
          (if nonempty update_cmd
           then run_command_in_os_utils (CmdList update_cmd) None ;;; ret tt
           else ret tt) ;;;
          if nonempty install_cmd
          then run_command_in_os_utils (CmdList install_cmd) None
          else ret false
      end.

Definition install_python_requirements (tool_path : string) : M World bool :=
  let req_file := path_join tool_path "requirements.txt" in
  present <- exists_ req_file ;;
  if present then
    pip3 <- check_command_exists "pip3" ;;
    pip_cmd_base <-
      (if pip3 then ret (Some ["pip3"])
       else
         pip <- check_command_exists "pip" ;;
         if pip then ret (Some ["pip"]) else ret None) ;;
    match pip_cmd_base with
    | None => ret false
    | Some base =>
        run_command_in_os_utils
          (CmdList (base ++ ["install"; "-r"; path_str req_file])) None
    end
  else ret false.

(** *** [lib/tool_manager.py] *)

(** [PurePath.suffix] of a final path component: the part from the last
    dot on, unless that dot is the first or the last character. *)
Definition suffix (item_name : string) : string :=
  match PyStr.rfind_dot item_name with
  | Some i =>
      if Nat.ltb 0 i && Nat.ltb i (String.length item_name - 1)
      then String.substring i (String.length item_name - i) item_name
      else ""
  | None => ""
  end.

(** The body of the loop over [Path(tools_dir).iterdir()]. *)
Definition scan_item (installed_names : gset string) (item : string * EntryKind)
  : gset string :=
  match item.2 with
  | IsDir => installed_names ∪ {[ item.1 ]}
  | IsFile =>
      if String.eqb (suffix item.1) ".txt"
      then installed_names ∪ {[ item.1 ]}
      else installed_names
  | IsOther => installed_names
  end.

(** [iterdir] raises when the path exists and is not a directory. *)
Definition get_installed_tools_names (tools_dir : string) : M World (gset string) :=
  w <- get_world ;;
  match fs_node tools_dir w with
  | None => ret ∅
  | Some (Dir entries) => ret (foldl scan_item ∅ entries)
  | Some _ => raise NotADirectoryError
  end.

(** The loop over the resolved dependency list. *)
Fixpoint install_dependencies (os_type : string) (system_dependencies : list string)
  : M World bool :=
  match system_dependencies with
  | [] => ret true
  | dep :: rest =>
      ok <- install_system_package dep os_type ;;
      if ok then install_dependencies os_type rest else ret false
  end.

(** "Check and Install System Dependencies": [false] stands for the
    [return False] inside the loop. *)
Definition check_system_dependencies (tool_data : Tool) (os_type : string)
  : M World bool :=
  match dependencies tool_data with
  | Some deps =>
      let system_dependencies :=
        default (default [] (deps !! "default")) (deps !! os_type) in
      install_dependencies os_type system_dependencies
  | None => ret true
  end.

Definition git_pull_cmd (tool_full_path : string) : Command :=
  CmdList ["git"; "-C"; path_str tool_full_path; "pull"].

Definition git_clone_cmd (repo_url tool_full_path : string) : Command :=
  CmdList ["git"; "clone"; repo_url; path_str tool_full_path].

(** "Handle GitHub Cloning/Updating": [false] stands for the two
    [return False] of the section. *)
Definition handle_cloning_updating (tool_data : Tool) : M World bool :=
  match github_url tool_data, install_path tool_data with
  | Some repo_url, Some install_path_str =>
      if truthy (Some repo_url) && truthy (Some install_path_str) then
        mkdir (path_parent install_path_str) ;;;
        present <- exists_ install_path_str ;;
        if present
        then run_command_in_os_utils (git_pull_cmd install_path_str) None
        else run_command_in_os_utils (git_clone_cmd repo_url install_path_str) None
      else ret true
  | _, _ => ret true
  end.

(** The loop over [post_install_commands]. *)
Fixpoint run_post_install (tool_full_path : string) (cmds : list string)
  : M World bool :=
  match cmds with
  | [] => ret true
  | cmd :: rest =>
      let formatted_cmd :=
        PyStr.replace "{{install_path}}" (path_str tool_full_path) cmd in
      ok <- run_command_in_os_utils (CmdStr formatted_cmd)
                                    (Some (path_str tool_full_path)) ;;
      if ok then run_post_install tool_full_path rest else ret false
  end.

(** "Run Post-Installation Commands" *)
Definition run_post_installation_commands (tool_data : Tool) : M World bool :=
  match post_install_commands tool_data with
  | Some (c :: cs) =>
      match install_path tool_data with
      | Some install_path_str =>
          if truthy (Some install_path_str) then
            present <- exists_ install_path_str ;;
            if present then run_post_install install_path_str (c :: cs)
            else ret true
          else ret true
      | None => ret true
      end
  | _ => ret true
  end.

(** "Special handling for Python requirements": the result of
    [install_python_requirements] only selects the message printed. *)
Definition handle_python_requirements (tool_data : Tool) : M World unit :=
  match install_path tool_data with
  | Some install_path_str =>
      if truthy (Some install_path_str) then
        present <- exists_ install_path_str ;;
        if present
        then install_python_requirements install_path_str ;;; ret tt
        else ret tt
      else ret tt
  | None => ret tt
  end.

Definition install_tool (tool_data : Tool) (os_type : string) : M World bool :=
  deps_ok <- check_system_dependencies tool_data os_type ;;
  if negb deps_ok then ret false
  else
    fetched <- handle_cloning_updating tool_data ;;
    if negb fetched then ret false
    else
      post_ok <- run_post_installation_commands tool_data ;;
      if negb post_ok then ret false
      else
        handle_python_requirements tool_data ;;;
        ret true.

(** [run_command_raw.get(current_os_type, run_command_raw.get('default'))]
    for a mapping, the string itself otherwise. *)
Definition resolve_run_command (run_command_raw : RunCommand)
    (current_os_type : string) : option string :=
  match run_command_raw with
  | RunPerOS d =>
      match d !! current_os_type with
      | Some c => Some c
      | None => d !! "default"
      end
  | RunFixed c => Some c
  end.

(** [get_os_type()] is called on the signals of the host; a host whose
    distro file cannot be read, where that call raises, has no
    [HostSignals] and is outside this model of [run_tool]. *)
Definition run_tool (tool_data : Tool) : M World bool :=
  let run_command_raw := run_command tool_data in
  w <- get_world ;;
  let current_os_type := get_os_type (host_signals w) in
  match resolve_run_command run_command_raw current_os_type with
  | None => ret false
  | Some cmd =>
      match install_path tool_data with
      | Some install_path_str =>
          if truthy (Some install_path_str) then
            present <- exists_ install_path_str ;;
            if negb present then ret false
            else run_command_in_os_utils (CmdStr cmd)
                                         (Some (path_str install_path_str))
          else ret true
      | None => ret true
      end
  end.

(** *** [lib/update_checker.py] *)

Definition nl : string := String (ascii_of_nat 10) EmptyString.

(** [requests.get(remote_url, timeout=15)], [raise_for_status()] and
    [json5.loads]. The failures of the request are caught, reported and
    turned into [None]. For the [ValueError] of [json5.loads] the
    clauses for the request exceptions do not match, and the last
    clause, [except json5.JSON5Error], names an attribute the [json5]
    module does not have: evaluating it raises [AttributeError], which
    leaves the function. *)
Definition get_remote_tools_data (remote_url : string) : M World (option Catalog) :=
  if String.eqb remote_url "" then
    print "[ERROR] Remote tools.json URL is not configured in settings.json." ;;;
    ret None
  else
    print (nl +:+ "[*] Fetching latest tool definitions from " +:+ remote_url +:+ "...") ;;;
    response <- requests_get remote_url 15 ;;
    match response with
    | HttpTimeout =>
        print "[ERROR] Request timed out while fetching remote tool data. Check your internet connection." ;;;
        ret None
    | HttpConnectionError =>
        print "[ERROR] Connection error while fetching remote tool data. Check your internet connection." ;;;
        ret None
    | HttpRequestException e =>
        print ("[ERROR] Could not fetch remote tool data: " +:+ e) ;;;
        ret None
    | HttpResponse status text =>
        if Nat.leb 400 status && Nat.ltb status 600 then
          print ("[ERROR] Could not fetch remote tool data: "
                 +:+ http_error_str status remote_url) ;;;
          ret None
        else
          match json5_loads text with
          | Parsed data => ret (Some data)
          | ParseValueError e => raise AttributeError
          end
    end.

(** The two nested loops that flatten a catalog into a dict keyed by
    tool name. *)
Definition flatten_tools (tools_data : Catalog) : list (string * Tool) :=
  foldl (fun flat category_tools =>
           foldl (fun flat tool => PyDict.set (name tool) tool flat)
                 flat category_tools.2)
        [] tools_data.

(** The condition under which a remote entry is appended to
    [new_tools]. *)
Definition is_new_tool (local_flat_tools : list (string * Tool))
    (installed_tools_names : gset string) (item : string * Tool) : bool :=
  truthy (github_url item.2) && truthy (install_path item.2)
  && negb (bool_decide (item.1 ∈ installed_tools_names))
  && negb (PyDict.mem item.1 local_flat_tools).

(** "Check for new tools" *)
Definition find_new_tools (local_flat_tools remote_flat_tools : list (string * Tool))
    (installed_tools_names : gset string) : list Tool :=
  foldl (fun new_tools item =>
           if is_new_tool local_flat_tools installed_tools_names item
           then (new_tools ++ [item.2])%list else new_tools)
        [] remote_flat_tools.

(** The body of the loop "Check for updates to installed tools". *)
Definition check_tool_update (local_flat_tools : list (string * Tool))
    (tools_to_update : list Tool) (tool_name : string) : M World (list Tool) :=
  match PyDict.get tool_name local_flat_tools with
  | Some local_tool_data =>
      match install_path local_tool_data, github_url local_tool_data with
      | Some tool_path_str, Some repo_url =>
          if truthy (Some tool_path_str) && truthy (Some repo_url) then
            d <- is_dir tool_path_str ;;
            g <- is_dir (path_join tool_path_str ".git") ;;
            if d && g then
              let git := ["git"; "-C"; path_str tool_path_str] in
              let git_error :=
                "[WARNING] Could not check update for " +:+ tool_name
                +:+ " (Git error). See logs." in
              let unexpected :=
                "[WARNING] Unexpected error checking update for " +:+ tool_name
                +:+ ". See logs." in
              fetched <- run_argv (git ++ ["fetch"; "--all"])%list ;;
              match fetched with
              | ProcOk _ =>
                  result <- run_argv (git ++ ["status"; "-uno"])%list ;;
                  match result with
                  | ProcOk stdout =>
                      if PyStr.contains "Your branch is behind" stdout
                         || PyStr.contains "have diverged" stdout
                      then ret (tools_to_update ++ [local_tool_data])%list
                      else ret tools_to_update
                  | ProcFailed _ => print git_error ;;; ret tools_to_update
                  | ProcNotFound => print unexpected ;;; ret tools_to_update
                  end
              | ProcFailed _ => print git_error ;;; ret tools_to_update
              | ProcNotFound => print unexpected ;;; ret tools_to_update
              end
            else ret tools_to_update
          else ret tools_to_update
      | _, _ => ret tools_to_update
      end
  | None => ret tools_to_update
  end.

Fixpoint scan_updates (local_flat_tools : list (string * Tool))
    (names : list string) (tools_to_update : list Tool) : M World (list Tool) :=
  match names with
  | [] => ret tools_to_update
  | tool_name :: rest =>
      acc <- check_tool_update local_flat_tools tools_to_update tool_name ;;
      scan_updates local_flat_tools rest acc
  end.

(** The set [installed_tools_names] is visited in the order of
    [elements]; Python leaves the order of a set unspecified. *)
Definition check_for_tool_updates_and_new_tools (local_tools_data
    remote_tools_data : Catalog) (installed_tools_names : gset string)
  : M World (list Tool * list Tool) :=
  if negb (nonempty remote_tools_data) then
    print "[WARNING] Remote tool data not available for update check." ;;;
    ret ([], [])
  else
    let remote_flat_tools := flatten_tools remote_tools_data in
    let local_flat_tools := flatten_tools local_tools_data in
    let new_tools :=
      find_new_tools local_flat_tools remote_flat_tools installed_tools_names in
    print (nl +:+ "[*] Checking for updates to installed tools (this might take a moment)...") ;;;
    tools_to_update <-
      scan_updates local_flat_tools (elements installed_tools_names) [] ;;
    ret (new_tools, tools_to_update).

Fixpoint print_each (lines : list string) : M World unit :=
  match lines with
  | [] => ret tt
  | l :: rest => print l ;;; print_each rest
  end.

Definition display_update_status (new_tools tools_to_update : list Tool)
  : M World unit :=
  print (nl +:+ "--- Update Status ---") ;;;
  (if nonempty new_tools then
     print (nl +:+ "New Tools Available:") ;;;
     print_each (map (fun tool =>
       "- " +:+ name tool +:+ " ("
       +:+ default "No description" (description tool) +:+ ")") new_tools)
   else print (nl +:+ "No new tools found.")) ;;;
  (if nonempty tools_to_update then
     print (nl +:+ "Tools with Available Updates:") ;;;
     print_each (map (fun tool => "- " +:+ name tool) tools_to_update)
   else print (nl +:+ "All installed tools are up-to-date.")) ;;;
  print (nl +:+ "--- End of Status ---").

(** *** [uht.py] *)

(** The compatibility decision made for each tool of the selected
    category in [main]. *)
Definition is_compatible (OS_TYPE : string) (tool : Tool) : bool :=
  let os_compat_list := default [] (os_compat tool) in
  let skip_if_not_supported := default false (skip_if_os_not_supported tool) in
  if str_in OS_TYPE os_compat_list then true
  else if str_in "any" os_compat_list then true
  else if negb (nonempty os_compat_list) && negb skip_if_not_supported then true
  else false.

(** The filtering loop of [main]; the result is the list handed to
    [display_tool_menu] and indexed by the user's choice. *)
Fixpoint final_compatible_tools (OS_TYPE : string) (category_tools : list Tool)
  : list Tool :=
  match category_tools with
  | [] => []
  | tool :: rest =>
      let skip_if_not_supported := default false (skip_if_os_not_supported tool) in
      let compatible := is_compatible OS_TYPE tool in
      if skip_if_not_supported && negb compatible
      then final_compatible_tools OS_TYPE rest            (* continue *)
      else if compatible
           then tool :: final_compatible_tools OS_TYPE rest
           else final_compatible_tools OS_TYPE rest
  end.

(** The menu branch "Check for Updates / New Tools" of [main]. *)
Definition check_updates_choice (REMOTE_TOOLS_JSON_URL TOOLS_DIR : string)
    (TOOLS_DATA : Catalog) : M World unit :=
  remote_data <- get_remote_tools_data REMOTE_TOOLS_JSON_URL ;;
  match remote_data with
  | Some (c :: cs) =>
      installed_names <- get_installed_tools_names TOOLS_DIR ;;
      r <- check_for_tool_updates_and_new_tools TOOLS_DATA (c :: cs) installed_names ;;
      display_update_status r.1 r.2
  | _ =>
      print (nl +:+ "[ERROR] Could not perform update check. See logs for details.")
  end.

(** *** Notions used to state the properties *)

(** When an entry of the installation root counts as installed. *)
Definition counts_as_installed (item : string * EntryKind) : Prop :=
  item.2 = IsDir ∨ (item.2 = IsFile ∧ suffix item.1 = ".txt").

(** One step of the flattening loops. *)
Definition flatten_step (flat : list (string * Tool)) (tool : Tool) :=
  PyDict.set (name tool) tool flat.

(** The failures of a request, each with the console line the source
    prints for it: a timeout, a connection failure, and any other
    request failure (an HTTP error status included). *)
Inductive fetch_fails (remote_url : string) : HttpResult → string → Prop :=
  | fails_timeout :
      fetch_fails remote_url HttpTimeout
        "[ERROR] Request timed out while fetching remote tool data. Check your internet connection."
  | fails_connection :
      fetch_fails remote_url HttpConnectionError
        "[ERROR] Connection error while fetching remote tool data. Check your internet connection."
  | fails_request e :
      fetch_fails remote_url (HttpRequestException e)
        ("[ERROR] Could not fetch remote tool data: " +:+ e)
  | fails_status status text :
      400 ≤ status < 600 →
      fetch_fails remote_url (HttpResponse status text)
        ("[ERROR] Could not fetch remote tool data: "
         +:+ http_error_str status remote_url).

End Orchestrator.

(** ** The OS families of the specification *)

(** The seven OS families of the specification and the key the code
    uses for each. *)
Inductive OSFamily :=
  | Termux | DebianBased | ArchBased | Windows | MacOS | GenericLinux | Unsupported.

Definition os_key (f : OSFamily) : string :=
  match f with
  | Termux => "termux"
  | DebianBased => "debian_based_linux"
  | ArchBased => "arch_based_linux"
  | Windows => "windows"
  | MacOS => "macos"
  | GenericLinux => "linux"
  | Unsupported => "unsupported"
  end.

(** ** A simulated host, for running the model on concrete inputs *)

Record SimWorld := {
  sim_signals : HostSignals;
  sim_fs : list (string * Node);     (* the paths that exist *)
  sim_on_path : list string;         (* commands [which] resolves *)
  sim_failing : list string;         (* shell command lines that exit non-zero *)
  sim_http : HttpResult              (* what the remote endpoint answers *)
}.

(** The text before the last [/] of a path, if it has one. *)
Fixpoint cut_last (p : string) : option string :=
  match p with
  | EmptyString => None
  | String c rest =>
      match cut_last rest with
      | Some d => Some (String c d)
      | None => if Ascii.eqb c "/"%char then Some EmptyString else None
      end
  end.

(** POSIX [Path(p).parent] for a path without a trailing slash. *)
Definition posix_parent (p : string) : string :=
  match cut_last p with
  | Some EmptyString => "/"
  | Some d => d
  | None => "."
  end.

Definition sim_mkdir (p : string) (w : SimWorld) : option SimWorld :=
  match PyDict.get p (sim_fs w) with
  | Some (Dir _) => Some w
  | Some _ => None
  | None =>
      Some {| sim_signals := sim_signals w;
              sim_fs := PyDict.set p (Dir []) (sim_fs w);
              sim_on_path := sim_on_path w;
              sim_failing := sim_failing w;
              sim_http := sim_http w |}
  end.

Definition sim_argv (argv : list string) (w : SimWorld) : ProcResult :=
  match argv with
  | [which; command_name] =>
      if String.eqb which "which" then
        if str_in command_name (sim_on_path w)
        then ProcOk ("/usr/bin/" +:+ command_name)
        else ProcFailed ""
      else ProcOk ""
  | _ => ProcOk ""
  end.

Definition sim_host (parse : string → ParseResult) : Host SimWorld := {|
  host_signals := sim_signals;
  fs_node p w := PyDict.get p (sim_fs w);
  mkdir_parents := sim_mkdir;
  path_str p := p;
  path_parent := posix_parent;
  path_join a b := a +:+ "/" +:+ b;
  spawn_shell cmd_str cwd w := (negb (str_in cmd_str (sim_failing w)), w);
  spawn_argv argv w := (sim_argv argv w, w);
  http_get url timeout w := (sim_http w, w);
  http_error_str status url := "HTTP error for url: " +:+ url;
  json5_loads := parse
|}.

Definition start {World} (w : World) : Sys World :=
  {| world := w; procs := []; console := [] |}.

Definition linux_signals : HostSignals :=
  {| android_root_set := false; termux_files_is_dir := false;
     platform_system := "Linux"; os_release := None |}.


(** ** Concrete tools, catalogs and hosts *)

Definition parse_garbled (text : string) : ParseResult :=
  ParseValueError "unexpected end of input".

Definition sim : Host SimWorld := sim_host parse_garbled.

Definition nmap_skip : Tool :=
  {| name := "nmap"; github_url := None; install_path := None;
     dependencies := None; post_install_commands := None;
     run_command := RunFixed "nmap";
     os_compat := Some ["debian_based_linux"];
     skip_if_os_not_supported := Some true; description := None |}.

Definition nmap_noskip : Tool :=
  {| name := "nmap"; github_url := None; install_path := None;
     dependencies := None; post_install_commands := None;
     run_command := RunFixed "nmap";
     os_compat := Some ["debian_based_linux"];
     skip_if_os_not_supported := Some false; description := None |}.

Definition sqlmap : Tool :=
  {| name := "sqlmap"; github_url := Some "https://example/sqlmap";
     install_path := Some "tools/sqlmap";
     dependencies := Some {[ "default" := ["python3"] ]};
     post_install_commands := None;
     run_command := RunPerOS {[ "windows" := "python sqlmap.py" ]};
     os_compat := None; skip_if_os_not_supported := None;
     description := None |}.

Definition manual_resource : Tool :=
  {| name := "exploit-db"; github_url := None; install_path := None;
     dependencies := None; post_install_commands := None;
     run_command := RunFixed "https://www.exploit-db.com";
     os_compat := Some ["any"]; skip_if_os_not_supported := None;
     description := Some "Exploit archive" |}.

Definition new_scanner : Tool :=
  {| name := "X"; github_url := Some "https://example/X";
     install_path := Some "tools/X";
     dependencies := None; post_install_commands := None;
     run_command := RunFixed "./x"; os_compat := None;
     skip_if_os_not_supported := None; description := None |}.

Definition local_catalog : Catalog := [("Web", [sqlmap])].

Definition remote_catalog : Catalog :=
  [("Web", [sqlmap; new_scanner]); ("Resources", [manual_resource])].

Definition tools_entries : list (string * EntryKind) :=
  [("sqlmap", IsDir); ("rockyou.txt", IsFile); ("notes.md", IsFile);
   (".txt", IsFile); ("lock", IsOther)].

(** A Linux host on which [tools/sqlmap] is already cloned and carries a
    [requirements.txt], on which installing those requirements fails,
    and whose remote endpoint times out. *)
Definition host_installed : SimWorld :=
  {| sim_signals := linux_signals;
     sim_fs := [("tools", Dir tools_entries);
                ("tools/sqlmap", Dir [("requirements.txt", IsFile)]);
                ("tools/sqlmap/requirements.txt", File)];
     sim_on_path := ["python3"; "pip3"; "git"];
     sim_failing := ["pip3 install -r tools/sqlmap/requirements.txt"];
     sim_http := HttpTimeout |}.

(** A host with nothing installed, whose remote endpoint answers with a
    body that does not parse. *)
Definition host_fresh : SimWorld :=
  {| sim_signals := linux_signals;
     sim_fs := [];
     sim_on_path := ["python3"; "git"];
     sim_failing := [];
     sim_http := HttpResponse 200 "{" |}.

(** ** [lib/menu_handler.py]: the tool menu *)

(** The three status labels of [display_tool_menu]. *)
Inductive MenuStatus := NotInstalled | Installed | ExternalManual.

(** The status computed for one tool. The module imports only [os] and
    [colored]: the name [Path] is unbound in it, so evaluating
    [Path(tool['install_path'])], which happens exactly when
    [tool['install_path']] is truthy, raises [NameError] ([None]). *)
Definition menu_status (tool : Tool) : option MenuStatus :=
  if truthy (install_path tool) then None
  else if negb (truthy (github_url tool)) && negb (truthy (install_path tool))
       then Some ExternalManual
       else Some NotInstalled.

(** The loop over [enumerate(tools_list)]: the rows printed, and whether
    the loop ran to its end. *)
Fixpoint menu_rows (i : nat) (tools_list : list Tool)
  : list (nat * string * MenuStatus) * bool :=
  match tools_list with
  | [] => ([], true)
  | tool :: rest =>
      match menu_status tool with
      | None => ([], false)
      | Some status =>
          let '(rows, finished) := menu_rows (S i) rest in
          ((i + 1, name tool, status) :: rows, finished)
      end
  end.

Inductive MenuOutcome :=
  | MenuNone                       (* empty list: message, Enter, return None *)
  | MenuChoice (rows : list (nat * string * MenuStatus)) (choice : string)
  | MenuNameError (rows : list (nat * string * MenuStatus)).

(** [typed] is the line read by [input], [None] for a
    [KeyboardInterrupt]. *)
Definition display_tool_menu (tools_list : list Tool) (typed : option string)
  : MenuOutcome :=
  match tools_list with
  | [] => MenuNone
  | _ :: _ =>
      let '(rows, finished) := menu_rows 0 tools_list in
      if finished
      then MenuChoice rows (match typed with
                            | Some line => PyStr.strip line
                            | None => "0"
                            end)
      else MenuNameError rows
  end.

(** ** Further notions used to state properties *)

Definition proc_ok (r : ProcResult) : bool :=
  match r with ProcOk _ => true | _ => false end.

(** The OS types for which [install_system_package] selects a package
    manager. *)
Definition auto_install_os_types : list string :=
  ["termux"; "debian_based_linux"; "arch_based_linux"; "windows"; "macos"].

(** The install command line of each package manager, by OS type, and
    the package-list update that may precede it. *)
Definition install_commands (package_name : string) : list (string * string) :=
  [("termux", "pkg install -y " +:+ package_name);
   ("debian_based_linux", "sudo apt install -y " +:+ package_name);
   ("arch_based_linux", "sudo pacman -S --noconfirm " +:+ package_name);
   ("windows", "choco install -y " +:+ package_name);
   ("windows", "winget install -e --id " +:+ package_name);
   ("macos", "brew install " +:+ package_name)].

Definition update_commands : list (string * string) :=
  [("termux", "pkg update -y");
   ("debian_based_linux", "sudo apt update -y");
   ("arch_based_linux", "sudo pacman -Sy --noconfirm");
   ("macos", "brew update")].

(** A search-path lookup. *)
Definition is_which (ev : Event) : Prop := ∃ n, ev = EvArgv ["which"; n].

Section Outcomes.
Context {World : Type} {HW : Host World}.

(** The state [s] after the events [evs], in world [w]. *)
Definition after (s : Sys World) (w : World) (evs : list Event) : Sys World :=
  {| world := w; procs := procs s ++ evs; console := console s |}.

(** The outcome of running one shell command in world [w], the events
    [before] having been recorded since [s]: its exit status is the
    result. *)
Definition shell_outcome (cmd_str : string) (cwd : option string) (w : World)
    (s : Sys World) (before : list Event) : Res bool * Sys World :=
  (Ok (spawn_shell cmd_str cwd w).1,
   after s (spawn_shell cmd_str cwd w).2 (before ++ [EvShell cmd_str cwd])).

(** The two version-control commands of the update scan, run in the
    install directory of the tool [t]. *)
Definition git_query_of (t : Tool) (ev : Event) : Prop :=
  ∃ p, install_path t = Some p
       ∧ (ev = EvArgv ["git"; "-C"; path_str p; "fetch"; "--all"]
          ∨ ev = EvArgv ["git"; "-C"; path_str p; "status"; "-uno"]).

(** The event of one post-install command. *)
Definition post_install_event (tool_full_path cmd : string) : Event :=
  EvShell (PyStr.replace "{{install_path}}" (path_str tool_full_path) cmd)
          (Some (path_str tool_full_path)).

End Outcomes.

(** ** More concrete tools and hosts *)

Definition nikto : Tool :=
  {| name := "nikto"; github_url := Some "https://example/nikto";
     install_path := Some "tools/nikto";
     dependencies := Some {[ "default" := ["perl"];
                             "debian_based_linux" := ["perl"; "libnet-ssleay-perl"] ]};
     post_install_commands :=
       Some ["chmod +x {{install_path}}/nikto.pl"; "make"; "make install"];
     run_command := RunFixed "perl nikto.pl -h";
     os_compat := Some ["any"]; skip_if_os_not_supported := None;
     description := None |}.

(** A host with an empty search path and no files, on which refreshing
    the apt package list fails. *)
Definition host_bare : SimWorld :=
  {| sim_signals := linux_signals;
     sim_fs := [];
     sim_on_path := [];
     sim_failing := ["sudo apt update -y"];
     sim_http := HttpConnectionError |}.

(** A host that has Chocolatey and Homebrew and nothing else. *)
Definition host_choco_brew : SimWorld :=
  {| sim_signals := linux_signals;
     sim_fs := [];
     sim_on_path := ["choco"; "brew"];
     sim_failing := [];
     sim_http := HttpConnectionError |}.

(** A host on which [tools/nikto] is cloned, only [pip] (not [pip3]) and
    [perl] are on the search path, and [make] and the installation of
    one package fail; the installation root of a second configuration,
    [tools.lock], is a regular file. *)
Definition host_nikto : SimWorld :=
  {| sim_signals := linux_signals;
     sim_fs := [("tools", Dir [("nikto", IsDir)]);
                ("tools/nikto", Dir [("requirements.txt", IsFile)]);
                ("tools/nikto/requirements.txt", File);
                ("tools.lock", File)];
     sim_on_path := ["perl"; "pip"];
     sim_failing := ["make"; "sudo apt install -y libnet-ssleay-perl"];
     sim_http := HttpResponse 200 "{Web: []}" |}.

Definition parse_remote (text : string) : ParseResult := Parsed remote_catalog.

(** The simulated host with a parser that accepts every body. *)
Definition sim_ok : Host SimWorld := sim_host parse_remote.

(** A Linux host with an Ubuntu distro file, one with an Arch-like
    distro file, and one whose distro file may not be read. *)
Definition probe_ubuntu : HostProbe :=
  {| probe_android_root := false; probe_termux_dir := false;
     probe_system := "Linux";
     probe_os_release :=
       OsReleaseText ("NAME=Ubuntu" +:+ nl +:+ "ID=ubuntu" +:+ nl
                      +:+ "ID_LIKE=debian" +:+ nl) |}.

Definition probe_arch : HostProbe :=
  {| probe_android_root := false; probe_termux_dir := false;
     probe_system := "Linux";
     probe_os_release :=
       OsReleaseText ("NAME=Manjaro" +:+ nl +:+ "ID=manjaro" +:+ nl
                      +:+ "ID_LIKE=arch" +:+ nl) |}.

Definition probe_unreadable : HostProbe :=
  {| probe_android_root := false; probe_termux_dir := false;
     probe_system := "Linux";
     probe_os_release := OsReleaseUnreadable PermissionError |}.

(** The name made of one no-break space, U+00A0. *)
Definition nbsp : string := PyStr.of_bytes [194; 160].

(** A tool whose install path lies under a regular file. *)
Definition locked_tool : Tool :=
  {| name := "locked"; github_url := Some "https://example/locked";
     install_path := Some "tools.lock/locked";
     dependencies := None; post_install_commands := None;
     run_command := RunFixed "./locked"; os_compat := None;
     skip_if_os_not_supported := None; description := None |}.

(** A second definition of the tool named [X], from another source. *)
Definition new_scanner_mirror : Tool :=
  {| name := "X"; github_url := Some "https://mirror.example/X";
     install_path := Some "tools/X";
     dependencies := None; post_install_commands := None;
     run_command := RunFixed "./x"; os_compat := None;
     skip_if_os_not_supported := None; description := None |}.

Definition remote_duplicates : Catalog :=
  [("Web", [new_scanner; sqlmap]); ("Mirrors", [new_scanner_mirror])].

(** A simulated host whose working copies are behind their upstream:
    [git status] answers accordingly, every other process succeeds
    silently and [which] consults the search path. *)
Definition sim_argv_behind (argv : list string) (w : SimWorld) : ProcResult :=
  match argv with
  | ["git"; "-C"; _; "status"; "-uno"] =>
      ProcOk "Your branch is behind 'origin/main' by 2 commits."
  | _ => sim_argv argv w
  end.

Definition sim_behind : Host SimWorld := {|
  host_signals := sim_signals;
  fs_node p w := PyDict.get p (sim_fs w);
  mkdir_parents := sim_mkdir;
  path_str p := p;
  path_parent := posix_parent;
  path_join a b := a +:+ "/" +:+ b;
  spawn_shell cmd_str cwd w := (negb (str_in cmd_str (sim_failing w)), w);
  spawn_argv argv w := (sim_argv_behind argv w, w);
  http_get url timeout w := (sim_http w, w);
  http_error_str status url := "HTTP error for url: " +:+ url;
  json5_loads := parse_remote
|}.

(** A host on which [tools/sqlmap] is a version-controlled working
    copy. *)
Definition host_repo : SimWorld :=
  {| sim_signals := linux_signals;
     sim_fs := [("tools", Dir [("sqlmap", IsDir)]);
                ("tools/sqlmap", Dir [(".git", IsDir)]);
                ("tools/sqlmap/.git", Dir [])];
     sim_on_path := ["git"];
     sim_failing := [];
     sim_http := HttpResponse 200 "{}" |}.

(** A tool without compatibility list that asks to be skipped. *)
Definition universal_hidden : Tool :=
  {| name := "hidden"; github_url := None; install_path := None;
     dependencies := None; post_install_commands := None;
     run_command := RunFixed "hidden"; os_compat := Some [];
     skip_if_os_not_supported := Some true; description := None |}.

(** * Properties *)

(** ** Python string primitives *)

Lemma app_empty_l (b : string) : "" +:+ b = b.
Proof. reflexivity. Qed.

Lemma app_String (c : ascii) (a b : string) :
  String c a +:+ b = String c (a +:+ b).
Proof. reflexivity. Qed.

(** [String.prefix] holds exactly of the strings that start with the
    candidate. *)
Lemma prefix_iff (e s : string) :
  String.prefix e s = true ↔ ∃ r, s = e +:+ r.
Proof.
  revert s. induction e as [|x e IH]; intros s.
  - split; [intros _; by exists s|]. by destruct s.
  - destruct s as [|y s]; simpl.
    + split; [discriminate|]. intros [r Hr]. rewrite app_String in Hr.
      discriminate.
    + destruct (ascii_dec x y) as [->|Hne].
      * rewrite IH. split; intros [r Hr]; exists r.
        -- rewrite app_String. by f_equal.
        -- rewrite app_String in Hr. by injection Hr.
      * split; [discriminate|]. intros [r Hr]. rewrite app_String in Hr.
        injection Hr as Hxy _. by symmetry in Hxy.
Qed.

(** The substring test finds exactly the occurrences. *)
Lemma contains_iff (needle hay : string) :
  PyStr.contains needle hay = true ↔ occurs needle hay.
Proof.
  unfold occurs. induction hay as [|c hay IH]; cbn [PyStr.contains].
  - rewrite orb_false_r, prefix_iff. split.
    + intros [r Hr]. by exists "", r.
    + intros (a & b & Hab). destruct a as [|x a]; [by exists b|].
      rewrite app_String in Hab. discriminate.
  - rewrite orb_true_iff, IH, prefix_iff. split.
    + intros [[r Hr]|(a & b & Hab)].
      * by exists "", r.
      * exists (String c a), b. rewrite app_String. by f_equal.
    + intros (a & b & Hab). destruct a as [|x a].
      * left. by exists b.
      * right. rewrite app_String in Hab. injection Hab as _ Hab. by exists a, b.
Qed.

(** What [lstrip] returns starts with no whitespace: stripping it again
    changes nothing. *)
Lemma lstrip_go_fixed (skip : nat) (s : string) :
  PyStr.lstrip_go 0 (PyStr.lstrip_go skip s) = PyStr.lstrip_go skip s.
Proof.
  revert skip. induction s as [|c rest IH]; intros skip; [reflexivity|].
  cbn [PyStr.lstrip_go]. destruct skip as [|k]; [|apply IH].
  destruct (PyStr.space_len (String c rest)) as [|k] eqn:E; [|apply IH].
  cbn [PyStr.lstrip_go]. by rewrite E.
Qed.

Lemma rstrip_empty (s : string) : PyStr.rstrip s = "" ↔ PyStr.all_space s = true.
Proof.
  destruct s as [|c rest]; [done|]. cbn [PyStr.rstrip].
  destruct (PyStr.all_space (String c rest)); [done|]. split; discriminate.
Qed.

(** [strip] gives the empty string exactly for the strings made of
    whitespace only. *)
Lemma strip_blank (s : string) : PyStr.strip s = "" ↔ PyStr.all_space s = true.
Proof.
  unfold PyStr.strip. rewrite rstrip_empty. unfold PyStr.all_space, PyStr.lstrip.
  by rewrite lstrip_go_fixed.
Qed.

Lemma rfind_dot_app (a b : string) :
  PyStr.rfind_dot (a +:+ b)
  = match PyStr.rfind_dot b with
    | Some i => Some (String.length a + i)
    | None => PyStr.rfind_dot a
    end.
Proof.
  induction a as [|c a IH]; rewrite ?app_empty_l, ?app_String; simpl.
  - by destruct (PyStr.rfind_dot b).
  - rewrite IH. by destruct (PyStr.rfind_dot b).
Qed.

Lemma rfind_dot_lt (s : string) i :
  PyStr.rfind_dot s = Some i → i < String.length s.
Proof.
  revert i. induction s as [|c s IH]; simpl; intros i; [discriminate|].
  destruct (PyStr.rfind_dot s) as [j|].
  - intros [= <-]. specialize (IH j eq_refl). lia.
  - destruct (Ascii.eqb c "."); [|discriminate]. intros [= <-]. lia.
Qed.

Lemma substring_skip (a b : string) :
  String.substring (String.length a) (String.length b) (a +:+ b) = b.
Proof.
  induction a as [|c a IH]; rewrite ?app_empty_l, ?app_String; simpl;
    [|exact IH].
  induction b as [|c b IH]; simpl; [reflexivity|]. by rewrite IH.
Qed.

Lemma substring_all (s : string) : String.substring 0 (String.length s) s = s.
Proof. induction s as [|c s IH]; simpl; [reflexivity|by rewrite IH]. Qed.

Lemma substring_split (s : string) (i : nat) :
  (i ≤ String.length s)%nat →
  s = String.substring 0 i s +:+ String.substring i (String.length s - i) s
  ∧ String.length (String.substring 0 i s) = i.
Proof.
  revert i. induction s as [|c s IH]; intros i Hi.
  - simpl in Hi. assert (i = 0) as -> by lia. done.
  - destruct i as [|i].
    + rewrite Nat.sub_0_r, substring_all. done.
    + simpl in Hi. destruct (IH i ltac:(lia)) as [H1 H2].
      simpl. rewrite app_String, H2. split; [|done]. f_equal. exact H1.
Qed.

Lemma length_app (a b : string) :
  String.length (a +:+ b) = String.length a + String.length b.
Proof.
  induction a as [|c a IH]; rewrite ?app_empty_l, ?app_String; simpl;
    [done|by rewrite IH].
Qed.

(** [suffix] is [.txt] exactly for a name that ends in [.txt] after a
    non-empty stem. *)
Lemma suffix_txt_iff (item_name : string) :
  suffix item_name = ".txt" ↔
  ∃ stem, stem ≠ "" ∧ item_name = stem +:+ ".txt".
Proof.
  unfold suffix. split.
  - destruct (PyStr.rfind_dot item_name) as [i|] eqn:E; [|discriminate].
    destruct (Nat.ltb 0 i && Nat.ltb i (String.length item_name - 1)) eqn:C;
      [|discriminate].
    apply andb_true_iff in C as [C1 C2]. apply Nat.ltb_lt in C1.
    intros Hs. pose proof (rfind_dot_lt _ _ E) as Hlt.
    destruct (substring_split item_name i ltac:(lia)) as [Hsplit Hlen].
    rewrite Hs in Hsplit. eexists. split; [|exact Hsplit].
    intros Hz. rewrite Hz in Hlen. simpl in Hlen. lia.
  - intros (stem & Hne & ->).
    rewrite rfind_dot_app. simpl PyStr.rfind_dot. rewrite length_app. simpl String.length.
    assert (0 < String.length stem) by (destruct stem; simpl; [done|lia]).
    replace (Nat.ltb 0 (String.length stem + 0)) with true
      by (symmetry; apply Nat.ltb_lt; lia).
    replace (Nat.ltb (String.length stem + 0) (String.length stem + 4 - 1)) with true
      by (symmetry; apply Nat.ltb_lt; lia).
    simpl andb. cbv iota.
    replace (String.length stem + 4 - (String.length stem + 0)) with (String.length ".txt")
      by (simpl; lia).
    rewrite Nat.add_0_r. apply substring_skip.
Qed.

(** *** Blank strings *)

Lemma app_inv_head_str (a b c : string) : a +:+ b = a +:+ c → b = c.
Proof.
  induction a as [|x a IH]; rewrite ?app_empty_l, ?app_String; [done|].
  intros [= H]. by apply IH.
Qed.

Lemma lstrip_go_skip (a r : string) :
  PyStr.lstrip_go (String.length a) (a +:+ r) = PyStr.lstrip_go 0 r
  ∨ a = "" .
Proof.
  induction a as [|x a IH]; [by right|]. left.
  rewrite app_String. cbn [String.length PyStr.lstrip_go].
  destruct IH as [IH| ->]; [exact IH|]. by rewrite app_empty_l.
Qed.

Lemma space_len_found (s : string) (k : nat) :
  PyStr.space_len s = S k →
  ∃ e r, e ∈ PyStr.whitespace ∧ s = e +:+ r ∧ String.length e = S k.
Proof.
  unfold PyStr.space_len.
  destruct (List.find _ _) as [e|] eqn:F; [|discriminate].
  intros Hlen. apply List.find_some in F as [Hin Hpre].
  apply prefix_iff in Hpre as [r ->]. exists e, r.
  split; [by apply list_elem_of_In|done].
Qed.

(** One step of [lstrip]: a recognised code point is dropped whole. *)
Lemma lstrip_step (s : string) (k : nat) :
  PyStr.space_len s = S k →
  ∃ e r, e ∈ PyStr.whitespace ∧ e ≠ "" ∧ s = e +:+ r
         ∧ PyStr.lstrip s = PyStr.lstrip r.
Proof.
  intros E. destruct (space_len_found s k E) as (e & r & Hin & -> & Hlen).
  exists e, r. split; [exact Hin|]. split; [by intros ->|].
  split; [reflexivity|].
  destruct e as [|c e']; [discriminate|]. injection Hlen as Hlen.
  unfold PyStr.lstrip. rewrite app_String in E |- *.
  cbn [PyStr.lstrip_go]. rewrite E, <- Hlen.
  destruct (lstrip_go_skip e' r) as [H| ->]; [exact H|].
  by rewrite app_empty_l.
Qed.

Lemma prefix_comparable (a b s : string) :
  String.prefix a s = true → String.prefix b s = true →
  String.prefix a b = true ∨ String.prefix b a = true.
Proof.
  revert b s. induction a as [|x a IH]; intros b s Ha Hb; [left; by destruct b|].
  destruct b as [|y b]; [by right|].
  apply prefix_iff in Ha as [r1 H1]. apply prefix_iff in Hb as [r2 H2].
  subst s. rewrite !app_String in H2. injection H2 as Hxy H2. subst y.
  destruct (IH b (a +:+ r1)) as [Hp|Hp].
  - apply prefix_iff. by exists r1.
  - apply prefix_iff. by exists r2.
  - left. apply prefix_iff in Hp as [r Hr]. apply prefix_iff. exists r.
    rewrite app_String. by f_equal.
  - right. apply prefix_iff in Hp as [r Hr]. apply prefix_iff. exists r.
    rewrite app_String. by f_equal.
Qed.

(** No whitespace encoding starts with another one, and none is
    empty. *)
Lemma whitespace_prefix_free (e e' : string) :
  e ∈ PyStr.whitespace → e' ∈ PyStr.whitespace →
  String.prefix e e' = true → e = e'.
Proof.
  assert (H : forallb (fun a => forallb (fun b =>
                implb (String.prefix a b) (String.eqb a b)) PyStr.whitespace)
              PyStr.whitespace = true) by (vm_compute; reflexivity).
  intros He He' Hp. apply list_elem_of_In in He, He'.
  rewrite forallb_forall in H. specialize (H e He).
  rewrite forallb_forall in H. specialize (H e' He').
  rewrite Hp in H. by apply String.eqb_eq.
Qed.

Lemma whitespace_nonempty (e : string) : e ∈ PyStr.whitespace → e ≠ "".
Proof.
  assert (H : forallb (fun a => negb (String.eqb a "")) PyStr.whitespace = true)
    by (vm_compute; reflexivity).
  intros He ->. apply list_elem_of_In in He.
  rewrite forallb_forall in H. by specialize (H "" He).
Qed.

Lemma lstrip_whitespace (e r : string) :
  e ∈ PyStr.whitespace → PyStr.lstrip (e +:+ r) = PyStr.lstrip r.
Proof.
  intros He.
  assert (Hpre : String.prefix e (e +:+ r) = true)
    by (apply prefix_iff; by exists r).
  destruct (PyStr.space_len (e +:+ r)) as [|k] eqn:E.
  - exfalso. unfold PyStr.space_len in E.
    destruct (List.find _ _) as [e'|] eqn:F.
    + apply List.find_some in F as [Hin _]. apply list_elem_of_In in Hin.
      apply whitespace_nonempty in Hin. by destruct e'.
    + apply list_elem_of_In in He.
      pose proof (List.find_none _ _ F e He) as Hno. cbv beta in Hno. congruence.
  - destruct (lstrip_step _ _ E) as (e' & r' & Hin' & _ & Heq & ->).
    assert (Hpre' : String.prefix e' (e +:+ r) = true)
      by (apply prefix_iff; by exists r').
    assert (e = e') as <-.
    { destruct (prefix_comparable e e' _ Hpre Hpre') as [Hp|Hp].
      - by apply whitespace_prefix_free.
      - symmetry. by apply whitespace_prefix_free. }
    by apply app_inv_head_str in Heq as <-.
Qed.

(** [all_space], and so an empty result of [strip], describes exactly
    the blank strings. *)
Lemma all_space_blank (s : string) : PyStr.all_space s = true ↔ blank s.
Proof.
  split.
  - remember (String.length s) as n eqn:Hn. revert s Hn.
    induction n as [n IH] using lt_wf_ind. intros s Hn Hall.
    destruct s as [|c rest]; [by exists []|].
    unfold PyStr.all_space in Hall. apply String.eqb_eq in Hall.
    destruct (PyStr.space_len (String c rest)) as [|k] eqn:E.
    { unfold PyStr.lstrip in Hall. cbn [PyStr.lstrip_go] in Hall.
      rewrite E in Hall. discriminate. }
    destruct (lstrip_step _ _ E) as (e & r & Hin & Hne & Heq & Hl).
    rewrite Hl in Hall.
    assert (Hlt : (String.length r < n)%nat).
    { rewrite Hn, Heq, length_app. destruct e; [done|]. simpl. lia. }
    destruct (IH _ Hlt r eq_refl) as (l & Hl' & ->).
    { unfold PyStr.all_space. by rewrite Hall. }
    exists (e :: l). split; [by constructor|]. by rewrite Heq.
  - intros (l & Hl & ->). unfold PyStr.all_space.
    induction Hl as [|e l He Hl IH]; [reflexivity|].
    cbn [fold_right]. by rewrite lstrip_whitespace.
Qed.

Lemma strip_blank_iff (s : string) : PyStr.strip s = "" ↔ blank s.
Proof. by rewrite strip_blank, all_space_blank. Qed.

Example strip_examples :
  PyStr.strip "  a b  " = "a b" ∧ PyStr.strip "   " = "" ∧ PyStr.strip "" = ""
  ∧ PyStr.strip nbsp = ""
  ∧ PyStr.strip (PyStr.of_bytes [9; 227; 128; 128; 97; 226; 128; 137; 10]) = "a"
  ∧ PyStr.strip (PyStr.of_bytes [195; 160]) = PyStr.of_bytes [195; 160]
  ∧ PyStr.strip (PyStr.of_bytes [226; 128; 139]) = PyStr.of_bytes [226; 128; 139].
Proof. repeat split. Qed.

Example suffix_examples :
  map suffix ["a.txt"; ".txt"; "a.b.txt"; "a.txt."; "txt"; "a.md"]
  = [".txt"; ""; ".txt"; ""; ""; ".md"].
Proof. reflexivity. Qed.

Example replace_example :
  PyStr.replace "{{install_path}}" "/opt/x" "cd {{install_path}} && make {{install_path}"
  = "cd /opt/x && make {{install_path}".
Proof. reflexivity. Qed.

(** ** Environment detector *)

Example get_os_type_ubuntu :
  get_os_type {| android_root_set := false; termux_files_is_dir := false;
                 platform_system := "Linux";
                 os_release := Some "NAME=Ubuntu ID=ubuntu ID_LIKE=debian" |}
  = "debian_based_linux".
Proof. reflexivity. Qed.

Example get_os_type_termux_first :
  get_os_type {| android_root_set := true; termux_files_is_dir := false;
                 platform_system := "Windows"; os_release := None |} = "termux".
Proof. reflexivity. Qed.

Example get_os_type_unmatched_distro :
  get_os_type {| android_root_set := false; termux_files_is_dir := false;
                 platform_system := "Linux";
                 os_release := Some "ID=fedora" |} = "linux".
Proof. reflexivity. Qed.

Lemma os_key_inj (f g : OSFamily) : os_key f = os_key g → f = g.
Proof. destruct f, g; simpl; intros H; try reflexivity; discriminate H. Qed.

Lemma get_os_type_run_readable (h : HostSignals) :
  get_os_type_run (probe_of_signals h) = Ok (get_os_type h).
Proof.
  unfold get_os_type_run, get_os_type, probe_of_signals. cbn.
  destruct (android_root_set h || termux_files_is_dir h); [reflexivity|].
  destruct (String.eqb (platform_system h) "Linux").
  - destruct (os_release h) as [content|]; [|reflexivity].
    destruct (_ || _ || _); [reflexivity|]. by destruct (_ || _).
  - destruct (String.eqb (platform_system h) "Windows"); [reflexivity|].
    by destruct (String.eqb (platform_system h) "Darwin").
Qed.

Lemma os_key_unique (r : string) (f : OSFamily) :
  r = os_key f → ∃ f', r = os_key f' ∧ ∀ g, r = os_key g → g = f'.
Proof.
  intros ->. exists f. split; [reflexivity|]. intros g Hg. symmetry.
  by apply os_key_inj.
Qed.

(** C5, as amended. [get_os_type] inspects the host in a fixed
    priority order and, whenever it returns, returns the key of exactly
    one of the seven OS families: ["termux"] when the termux marker is
    present; else on a Linux kernel ["debian_based_linux"] when the
    distro file contains one of the debian tokens,
    ["arch_based_linux"] when it contains none of them and one of the
    arch tokens, and ["linux"] when it contains neither or does not
    exist; else ["windows"] or ["macos"] by platform name, and
    ["unsupported"] otherwise. It does not always return: on a Linux
    host without termux marker whose distro file exists and cannot be
    read, the exception of the read leaves the function. *)
Theorem get_os_type_run_priority (p : HostProbe) :
  let marker := probe_android_root p || probe_termux_dir p in
  let debian c :=
    occurs "ID=debian" c ∨ occurs "ID_LIKE=debian" c ∨ occurs "ID=ubuntu" c in
  let arch c := occurs "ID=arch" c ∨ occurs "ID_LIKE=arch" c in
  (marker = true → get_os_type_run p = Ok "termux") ∧
  (marker = false → probe_system p = "Linux" →
     (probe_os_release p = OsReleaseAbsent → get_os_type_run p = Ok "linux") ∧
     (∀ c, probe_os_release p = OsReleaseText c →
        (debian c → get_os_type_run p = Ok "debian_based_linux") ∧
        (¬ debian c → arch c → get_os_type_run p = Ok "arch_based_linux") ∧
        (¬ debian c → ¬ arch c → get_os_type_run p = Ok "linux")) ∧
     (∀ e, probe_os_release p = OsReleaseUnreadable e →
        get_os_type_run p = Raised e)) ∧
  (marker = false → probe_system p ≠ "Linux" →
     (probe_system p = "Windows" → get_os_type_run p = Ok "windows") ∧
     (probe_system p = "Darwin" → get_os_type_run p = Ok "macos") ∧
     (probe_system p ≠ "Windows" → probe_system p ≠ "Darwin" →
        get_os_type_run p = Ok "unsupported")) ∧
  (∀ r, get_os_type_run p = Ok r →
        ∃ f, r = os_key f ∧ ∀ g, r = os_key g → g = f).
Proof.
  intros marker debian arch. unfold get_os_type_run. fold marker.
  split; [by intros ->|]. split; [|split].
  - intros -> ->. cbn [String.eqb Ascii.eqb Bool.eqb]. split; [by intros ->|].
    split; [|by intros e ->].
    intros c ->.
    assert (Hdeb : PyStr.contains "ID=debian" c
                   || PyStr.contains "ID_LIKE=debian" c
                   || PyStr.contains "ID=ubuntu" c = true ↔ debian c).
    { unfold debian. rewrite !orb_true_iff, !contains_iff. tauto. }
    assert (Harch : PyStr.contains "ID=arch" c
                    || PyStr.contains "ID_LIKE=arch" c = true ↔ arch c).
    { unfold arch. rewrite !orb_true_iff, !contains_iff. tauto. }
    destruct (PyStr.contains "ID=debian" c || PyStr.contains "ID_LIKE=debian" c
              || PyStr.contains "ID=ubuntu" c).
    { split; [done|]. split; intros Hn; exfalso; apply Hn; by apply Hdeb. }
    destruct (PyStr.contains "ID=arch" c || PyStr.contains "ID_LIKE=arch" c).
    { split; [|split; [done|]].
      - intros Hd. apply Hdeb in Hd. discriminate.
      - intros _ Hn. exfalso. apply Hn. by apply Harch. }
    split; [|split; [|done]].
    + intros Hd. apply Hdeb in Hd. discriminate.
    + intros _ Ha. apply Harch in Ha. discriminate.
  - intros -> Hlinux. apply String.eqb_neq in Hlinux. rewrite Hlinux.
    split; [by intros ->|]. split; [by intros ->|].
    intros Hw Hd. apply String.eqb_neq in Hw, Hd. by rewrite Hw, Hd.
  - intros r Hr.
    assert (Hfam : ∃ f, r = os_key f); [|destruct Hfam as [f Hf]; by eapply os_key_unique].
    destruct marker; [injection Hr as <-; by exists Termux|].
    destruct (String.eqb (probe_system p) "Linux").
    + destruct (probe_os_release p) as [|c|e];
        [injection Hr as <-; by exists GenericLinux| |discriminate].
      destruct (_ || _ || _); [injection Hr as <-; by exists DebianBased|].
      destruct (_ || _); injection Hr as <-;
        [by exists ArchBased|by exists GenericLinux].
    + destruct (String.eqb (probe_system p) "Windows");
        [injection Hr as <-; by exists Windows|].
      destruct (String.eqb (probe_system p) "Darwin"); injection Hr as <-;
        [by exists MacOS|by exists Unsupported].
Qed.

Lemma get_os_type_run_priority_witness :
  get_os_type_run probe_ubuntu = Ok "debian_based_linux" ∧
  get_os_type_run probe_arch = Ok "arch_based_linux" ∧
  get_os_type_run probe_unreadable = Raised PermissionError.
Proof.
  split; [|split].
  - pose proof (get_os_type_run_priority probe_ubuntu) as H. cbv zeta in H.
    destruct H as (_ & H & _ & _).
    destruct (H eq_refl eq_refl) as (_ & Hc & _).
    apply (Hc _ eq_refl). right; right. apply contains_iff. reflexivity.
  - pose proof (get_os_type_run_priority probe_arch) as H. cbv zeta in H.
    destruct H as (_ & H & _ & _).
    destruct (H eq_refl eq_refl) as (_ & Hc & _).
    apply (Hc _ eq_refl).
    + intros [Hd|[Hd|Hd]]; apply contains_iff in Hd; vm_compute in Hd;
        discriminate Hd.
    + right. apply contains_iff. reflexivity.
  - pose proof (get_os_type_run_priority probe_unreadable) as H.
    cbv zeta in H. destruct H as (_ & H & _ & _).
    destruct (H eq_refl eq_refl) as (_ & _ & He).
    apply He. reflexivity.
Defined.

(** The claim as stated fails: on a Linux host whose distro file may not
    be read, [get_os_type] raises instead of returning a family. *)
Lemma get_os_type_run_raises :
  get_os_type_run probe_unreadable = Raised PermissionError ∧
  ¬ (∃ r, get_os_type_run probe_unreadable = Ok r).
Proof. split; [reflexivity|]. intros [r Hr]. discriminate Hr. Qed.

(** ** Compatibility filter *)

Lemma str_in_elem_of (x : string) (l : list string) :
  str_in x l = true ↔ x ∈ l.
Proof.
  unfold str_in. rewrite existsb_exists. split.
  - intros (y & Hy & Heq). apply String.eqb_eq in Heq. subst y.
    by apply list_elem_of_In.
  - intros Hin. exists x. split; [by apply list_elem_of_In|apply String.eqb_refl].
Qed.

Lemma nonempty_false {A} (l : list A) : nonempty l = false ↔ l = [].
Proof. destruct l; simpl; split; congruence. Qed.

(** C3. The compatibility decision is a total boolean function of the
    tool and the OS family, and it is true exactly when the OS family is
    a member of [os_compat] or [os_compat] contains ["any"], or else
    when [os_compat] is empty and [skip_if_os_not_supported] is false;
    in every other case it is false. *)
Theorem is_compatible_precedence (OS_TYPE : string) (tool : Tool) :
  let os_compat_list := default [] (os_compat tool) in
  let skip := default false (skip_if_os_not_supported tool) in
  (is_compatible OS_TYPE tool = true ↔
     (OS_TYPE ∈ os_compat_list ∨ "any" ∈ os_compat_list)
     ∨ (os_compat_list = [] ∧ skip = false)) ∧
  (is_compatible OS_TYPE tool = false ↔
     (OS_TYPE ∉ os_compat_list) ∧ ("any" ∉ os_compat_list)
     ∧ (os_compat_list ≠ [] ∨ skip = true)).
Proof.
  intros os_compat_list skip. unfold is_compatible.
  fold os_compat_list. fold skip.
  pose proof (str_in_elem_of OS_TYPE os_compat_list) as Hos.
  pose proof (str_in_elem_of "any" os_compat_list) as Hany.
  pose proof (nonempty_false os_compat_list) as Hne.
  destruct (str_in OS_TYPE os_compat_list) eqn:E1.
  { split; [tauto|]. split; [discriminate|]. intros [H _]. tauto. }
  destruct (str_in "any" os_compat_list) eqn:E2.
  { split; [tauto|]. split; [discriminate|]. intros (_ & H & _). tauto. }
  assert (OS_TYPE ∉ os_compat_list) by (intros H; apply Hos in H; discriminate).
  assert ("any" ∉ os_compat_list) by (intros H'; apply Hany in H'; discriminate).
  destruct (nonempty os_compat_list) eqn:E3; destruct skip; simpl.
  - split; [split; [discriminate|]|split; [tauto|reflexivity]].
    intros [[?|?]|[H1 _]]; [tauto|tauto|]. apply Hne in H1. discriminate.
  - split; [split; [discriminate|]|split; [|reflexivity]].
    + intros [[?|?]|[H1 _]]; [tauto|tauto|]. apply Hne in H1. discriminate.
    + intros _. repeat split; try assumption. left. intros H1.
      apply Hne in H1. discriminate.
  - split; [split; [discriminate|]|split; [tauto|reflexivity]].
    intros [[?|?]|[_ H1]]; [tauto|tauto|discriminate].
  - split; [split; [intros _; right; split; [tauto|reflexivity]|reflexivity]|].
    split; [discriminate|]. intros (_ & _ & [H1|H1]); [|discriminate].
    exfalso. apply H1. tauto.
Qed.

Lemma is_compatible_precedence_witness :
  is_compatible "macos" nmap_skip = false ∧
  is_compatible "debian_based_linux" nmap_skip = true.
Proof.
  split.
  - apply (proj2 (is_compatible_precedence "macos" nmap_skip)).
    simpl. repeat split.
    + intros H. apply str_in_elem_of in H. discriminate H.
    + intros H. apply str_in_elem_of in H. discriminate H.
    + right. reflexivity.
  - apply (proj1 (is_compatible_precedence "debian_based_linux" nmap_skip)).
    left. left. apply str_in_elem_of. reflexivity.
Defined.

(** The four shapes of [os_compat] against both values of the flag. *)
Example is_compatible_table :
  let t compat skip :=
    {| name := "t"; github_url := None; install_path := None;
       dependencies := None; post_install_commands := None;
       run_command := RunFixed "t"; os_compat := compat;
       skip_if_os_not_supported := skip; description := None |} in
  map (fun c => (is_compatible "macos" (t c (Some false)),
                 is_compatible "macos" (t c (Some true))))
      [None; Some []; Some ["windows"; "macos"]; Some ["any"]; Some ["windows"]]
  = [(true, false); (true, false); (true, true); (true, true); (false, false)].
Proof. reflexivity. Qed.

Lemma final_compatible_tools_filter (OS_TYPE : string) (category_tools : list Tool) :
  final_compatible_tools OS_TYPE category_tools
  = List.filter (is_compatible OS_TYPE) category_tools.
Proof.
  induction category_tools as [|tool rest IH]; [reflexivity|].
  simpl. rewrite IH.
  destruct (is_compatible OS_TYPE tool);
    destruct (default false (skip_if_os_not_supported tool)); reflexivity.
Qed.

(** C4, as amended. The list of tools handed to the menu consists of
    exactly the tools of the category for which the compatibility
    decision is true, in catalog order. Hence a tool that is not
    compatible is left out of the listing whatever its
    [skip_if_os_not_supported] flag is: with the flag set it is skipped
    by the [continue], without it it is simply not appended. *)
Theorem final_compatible_tools_only_compatible (OS_TYPE : string)
    (category_tools : list Tool) :
  final_compatible_tools OS_TYPE category_tools
    = List.filter (is_compatible OS_TYPE) category_tools ∧
  ∀ tool : Tool,
    (tool ∈ final_compatible_tools OS_TYPE category_tools ↔
       tool ∈ category_tools ∧ is_compatible OS_TYPE tool = true) ∧
    (is_compatible OS_TYPE tool = false →
       tool ∉ final_compatible_tools OS_TYPE category_tools).
Proof.
  split; [apply final_compatible_tools_filter|].
  intros tool. rewrite final_compatible_tools_filter.
  assert (Hiff : tool ∈ List.filter (is_compatible OS_TYPE) category_tools ↔
                 tool ∈ category_tools ∧ is_compatible OS_TYPE tool = true).
  { rewrite !list_elem_of_In. apply filter_In. }
  split; [exact Hiff|].
  intros Hno Hin. apply Hiff in Hin. destruct Hin as [_ Hyes]. congruence.
Qed.

Lemma final_compatible_tools_only_compatible_witness :
  (nmap_skip ∉ final_compatible_tools "macos" [nmap_skip; nmap_noskip]) ∧
  (nmap_noskip ∉ final_compatible_tools "macos" [nmap_skip; nmap_noskip]).
Proof.
  split.
  - apply (proj2 (proj2 (final_compatible_tools_only_compatible
                           "macos" [nmap_skip; nmap_noskip]) nmap_skip)).
    reflexivity.
  - apply (proj2 (proj2 (final_compatible_tools_only_compatible
                           "macos" [nmap_skip; nmap_noskip]) nmap_noskip)).
    reflexivity.
Defined.

(** The claim as stated fails: a tool that is not compatible and has the
    flag unset is not shown either; the listing for it is empty. *)
Lemma ineligible_without_skip_is_hidden :
  default false (skip_if_os_not_supported nmap_noskip) = false ∧
  is_compatible "macos" nmap_noskip = false ∧
  final_compatible_tools "macos" [nmap_noskip] = [] ∧
  ¬ (∀ (OS_TYPE : string) (category_tools : list Tool) (tool : Tool),
       tool ∈ category_tools →
       is_compatible OS_TYPE tool = false →
       default false (skip_if_os_not_supported tool) = false →
       tool ∈ final_compatible_tools OS_TYPE category_tools).
Proof.
  split; [reflexivity|]. split; [reflexivity|]. split; [reflexivity|].
  intros H.
  specialize (H "macos" [nmap_noskip] nmap_noskip).
  assert (Hin : nmap_noskip ∈ final_compatible_tools "macos" [nmap_noskip]).
  { apply H; [apply list_elem_of_here|reflexivity|reflexivity]. }
  change (nmap_noskip ∈ @nil Tool) in Hin.
  by apply not_elem_of_nil in Hin.
Qed.

(** ** Reasoning in the host monad *)

Section HostProperties.
Context {World : Type} {HW : Host World}.

Lemma bind_ok {A B} (m : M World A) (k : A → M World B) s a s' :
  m s = (Ok a, s') → bind m k s = k a s'.
Proof. unfold bind. intros ->. reflexivity. Qed.

Lemma bind_raised {A B} (m : M World A) (k : A → M World B) s e s' :
  m s = (Raised e, s') → bind m k s = (Raised e, s').
Proof. unfold bind. intros ->. reflexivity. Qed.

Lemma bind_inv_ok {A B} (m : M World A) (k : A → M World B) s b s' :
  bind m k s = (Ok b, s') → ∃ a s1, m s = (Ok a, s1) ∧ k a s1 = (Ok b, s').
Proof.
  unfold bind. destruct (m s) as [[a|e] s1]; [eauto|discriminate].
Qed.

(** ** System dependency installer *)

Lemma check_command_exists_found command_name s out w :
  spawn_argv ["which"; command_name] (world s) = (ProcOk out, w) →
  check_command_exists command_name s
  = (Ok true, emit (EvArgv ["which"; command_name]) w s).
Proof.
  intros Hw. unfold check_command_exists, bind, run_argv, ret.
  rewrite Hw. reflexivity.
Qed.

Lemma package_present_found package_name s out w :
  spawn_argv ["which"; package_name] (world s) = (ProcOk out, w) →
  package_present package_name s
  = (Ok true, emit (EvArgv ["which"; package_name]) w s).
Proof.
  intros Hw. unfold package_present.
  destruct (str_in package_name special_commands).
  - erewrite bind_ok by (eapply check_command_exists_found; exact Hw).
    reflexivity.
  - eapply check_command_exists_found; exact Hw.
Qed.

(** C7. For every OS family, [install_system_package] on a blank
    package name (empty, or made of whitespace code points only) returns
    true and leaves the system state untouched: no process is spawned.
    For a package whose executable [which] resolves, it returns true
    having spawned that one [which] lookup and nothing else: no
    package-manager update or install command is run. *)
Theorem install_system_package_no_install (package_name os_type : string)
    (s : Sys World) :
  (blank package_name →
     install_system_package package_name os_type s = (Ok true, s)) ∧
  (¬ blank package_name →
     ∀ out w, spawn_argv ["which"; package_name] (world s) = (ProcOk out, w) →
       install_system_package package_name os_type s
       = (Ok true, {| world := w;
                      procs := procs s ++ [EvArgv ["which"; package_name]];
                      console := console s |})).
Proof.
  unfold install_system_package. rewrite <- strip_blank_iff. split.
  - intros ->. reflexivity.
  - intros Hne out w Hw.
    destruct (String.eqb (PyStr.strip package_name) "") eqn:E.
    { apply String.eqb_eq in E. contradiction. }
    erewrite bind_ok by (eapply package_present_found; exact Hw).
    reflexivity.
Qed.

(** ** Running a tool *)

(** C10. When [run_command] is a per-OS mapping that has neither the
    detected OS family nor ["default"] as a key, [run_tool] returns
    false and leaves the system state untouched: no command is
    executed. *)
Theorem run_tool_no_command (tool_data : Tool) (by_os : gmap string string)
    (s : Sys World) :
  run_command tool_data = RunPerOS by_os →
  by_os !! get_os_type (host_signals (world s)) = None →
  by_os !! "default" = None →
  run_tool tool_data s = (Ok false, s).
Proof.
  intros Hraw Hos Hdef. unfold run_tool, bind, get_world.
  rewrite Hraw. unfold resolve_run_command. rewrite Hos, Hdef. reflexivity.
Qed.

(** ** Installed-state scan *)

Lemma scan_item_elem_of (acc : gset string) (item : string * EntryKind) (n : string) :
  n ∈ scan_item acc item ↔ n ∈ acc ∨ (n = item.1 ∧ counts_as_installed item).
Proof.
  unfold scan_item, counts_as_installed. destruct item as [m k]; simpl.
  destruct k.
  - rewrite elem_of_union, elem_of_singleton. intuition congruence.
  - destruct (String.eqb (suffix m) ".txt") eqn:E.
    + apply String.eqb_eq in E.
      rewrite elem_of_union, elem_of_singleton. intuition congruence.
    + apply String.eqb_neq in E. intuition congruence.
  - intuition congruence.
Qed.

Lemma scan_elem_of (entries : list (string * EntryKind)) (acc : gset string)
    (n : string) :
  n ∈ foldl scan_item acc entries ↔
  n ∈ acc ∨ ∃ k, (n, k) ∈ entries ∧ counts_as_installed (n, k).
Proof.
  revert acc. induction entries as [|item rest IH]; intros acc; simpl.
  - split; [tauto|]. intros [?|(k & Hin & _)]; [assumption|].
    by apply not_elem_of_nil in Hin.
  - rewrite IH, scan_item_elem_of. split.
    + intros [[?|[-> Hc]]|(k & Hin & Hc)].
      * by left.
      * right. exists item.2. split; [|by destruct item].
        destruct item; apply list_elem_of_here.
      * right. exists k. split; [by apply list_elem_of_further|done].
    + intros [?|(k & Hin & Hc)]; [by left; left|].
      apply elem_of_cons in Hin as [<-|Hin].
      * left; right. done.
      * right. eauto.
Qed.

(** C9, as amended. [get_installed_tools_names] returns the empty
    set, without raising, when the installation root does not exist.
    When the root is a directory it returns exactly the names of its
    entries that are directories or are regular files whose name is a
    non-empty stem followed by [.txt]; a regular file with any other
    name, and any other kind of entry, is not counted. When the root
    exists and is not a directory, the scan raises
    [NotADirectoryError]. In each case the scan spawns no process and
    changes nothing. *)
Theorem get_installed_tools_names_scan (tools_dir : string) (s : Sys World) :
  (fs_node tools_dir (world s) = None →
     get_installed_tools_names tools_dir s = (Ok ∅, s)) ∧
  (∀ entries, fs_node tools_dir (world s) = Some (Dir entries) →
     ∃ names : gset string,
       get_installed_tools_names tools_dir s = (Ok names, s) ∧
       ∀ n, n ∈ names ↔
            ∃ k, (n, k) ∈ entries ∧
                 (k = IsDir ∨
                  (k = IsFile ∧ ∃ stem, stem ≠ "" ∧ n = stem +:+ ".txt"))) ∧
  (fs_node tools_dir (world s) = Some File
   ∨ fs_node tools_dir (world s) = Some Special →
     get_installed_tools_names tools_dir s = (Raised NotADirectoryError, s)).
Proof.
  unfold get_installed_tools_names, bind, get_world. split; [|split].
  - intros ->. reflexivity.
  - intros entries ->. eexists. split; [reflexivity|].
    intros n. rewrite scan_elem_of. unfold counts_as_installed; simpl.
    setoid_rewrite suffix_txt_iff.
    split; [|by right].
    intros [Hin|?]; [|done]. by apply not_elem_of_empty in Hin.
  - intros [->| ->]; reflexivity.
Qed.

(** ** Tool installer/updater *)

Lemma truthy_Some (x : string) : x ≠ "" → truthy (Some x) = true.
Proof.
  intros Hx. simpl. destruct (String.eqb x "") eqn:E; [|reflexivity].
  apply String.eqb_eq in E. contradiction.
Qed.

Lemma install_tool_deps_ok tool_data os_type s s1 :
  check_system_dependencies tool_data os_type s = (Ok true, s1) →
  install_tool tool_data os_type s
  = bind (handle_cloning_updating tool_data)
      (fun fetched =>
         if negb fetched then ret false
         else bind (run_post_installation_commands tool_data)
                (fun post_ok =>
                   if negb post_ok then ret false
                   else bind (handle_python_requirements tool_data)
                          (fun _ => ret true))) s1.
Proof. intros Hd. unfold install_tool. by rewrite (bind_ok _ _ _ _ _ Hd). Qed.

(** C6. Let the tool have both a source URL and an install path, let
    the dependency step have succeeded and the parent directory be
    ensured. If the install path exists, the fetch step of
    [install_tool] runs exactly one command, [git -C <path> pull], which
    is not a clone command; if it does not exist, exactly one command,
    [git clone <url> <path>]. In both cases a failure of that command
    makes [install_tool] return false at once, with nothing run after
    it. *)
Theorem install_tool_pull_or_clone (tool_data : Tool) (os_type : string)
    (repo_url install_path_str : string) (s s1 : Sys World) (w : World) :
  github_url tool_data = Some repo_url → repo_url ≠ "" →
  install_path tool_data = Some install_path_str → install_path_str ≠ "" →
  check_system_dependencies tool_data os_type s = (Ok true, s1) →
  mkdir_parents (path_parent install_path_str) (world s1) = Some w →
  let cmd_str :=
    if path_exists install_path_str w
    then PyStr.join_spaces ["git"; "-C"; path_str install_path_str; "pull"]
    else PyStr.join_spaces ["git"; "clone"; repo_url; path_str install_path_str] in
  let ok := (spawn_shell cmd_str None w).1 in
  let s2 := {| world := (spawn_shell cmd_str None w).2;
               procs := procs s1 ++ [EvShell cmd_str None];
               console := console s1 |} in
  handle_cloning_updating tool_data s1 = (Ok ok, s2) ∧
  (ok = false → install_tool tool_data os_type s = (Ok false, s2)) ∧
  (path_exists install_path_str w = true →
     ∀ url dest, cmd_str ≠ PyStr.join_spaces ["git"; "clone"; url; dest]).
Proof.
  intros Hurl Hu Hpath Hp Hdeps Hmk cmd_str ok s2.
  assert (Hfetch : handle_cloning_updating tool_data s1 = (Ok ok, s2)).
  { unfold handle_cloning_updating. rewrite Hurl, Hpath.
    rewrite (truthy_Some _ Hu), (truthy_Some _ Hp). cbn [andb].
    unfold bind, mkdir, exists_. rewrite Hmk. cbn [world].
    subst ok s2 cmd_str.
    destruct (path_exists install_path_str w);
      unfold run_command_in_os_utils, git_pull_cmd, git_clone_cmd, shell;
      cbn [world procs console];
      match goal with
      | |- context [spawn_shell ?c None w] =>
          destruct (spawn_shell c None w) as [b w']
      end; reflexivity. }
  split; [exact Hfetch|split].
  - intros Hfail. rewrite (install_tool_deps_ok _ _ _ _ Hdeps).
    rewrite (bind_ok _ _ _ _ _ Hfetch). rewrite Hfail. reflexivity.
  - intros Hex url dest. subst cmd_str. rewrite Hex.
    cbv [PyStr.join_spaces String.concat String.append]. discriminate.
Qed.

(** The requirements step always completes and always yields the unit
    value, whatever [install_python_requirements] returned. *)
Lemma handle_python_requirements_unit tool_data s :
  (handle_python_requirements tool_data s).1 = Ok tt.
Proof.
  unfold handle_python_requirements.
  destruct (install_path tool_data) as [p|]; [|reflexivity].
  destruct (truthy (Some p)); [|reflexivity].
  unfold bind at 1. unfold exists_.
  destruct (path_exists p (world s)); [|reflexivity].
  unfold bind.
  destruct (install_python_requirements p s) as [[b|e] s'] eqn:E; [reflexivity|].
  exfalso. revert E. unfold install_python_requirements, bind, exists_.
  destruct (path_exists _ _); [|discriminate].
  unfold check_command_exists, bind, run_argv, ret.
  destruct (spawn_argv ["which"; "pip3"] (world s)) as [[o| |] w1];
    cbn [world]; unfold run_command_in_os_utils, shell; cbn [world];
    repeat match goal with
      | |- context [spawn_argv ?a ?w] => destruct (spawn_argv a w) as [[?| |] ?]
      | |- context [spawn_shell ?c ?d ?w] => destruct (spawn_shell c d w)
      end; cbn; discriminate.
Qed.

(** C1, as amended. [install_tool] returns true exactly when the
    dependency step, the fetch step and the post-install step each
    returned true, one after the other; the requirements step that
    follows cannot change the result: whatever
    [install_python_requirements] returns, also when [requirements.txt]
    is present and the package installer fails, the operation still
    returns true. *)
Theorem install_tool_true_iff (tool_data : Tool) (os_type : string)
    (s s' : Sys World) :
  install_tool tool_data os_type s = (Ok true, s') ↔
  ∃ s1 s2 s3,
    check_system_dependencies tool_data os_type s = (Ok true, s1) ∧
    handle_cloning_updating tool_data s1 = (Ok true, s2) ∧
    run_post_installation_commands tool_data s2 = (Ok true, s3) ∧
    s' = (handle_python_requirements tool_data s3).2.
Proof.
  split.
  - unfold install_tool. intros H.
    apply bind_inv_ok in H as (d & s1 & Hd & H).
    destruct d; simpl in H; [|discriminate].
    apply bind_inv_ok in H as (f & s2 & Hf & H).
    destruct f; simpl in H; [|discriminate].
    apply bind_inv_ok in H as (p & s3 & Hp & H).
    destruct p; simpl in H; [|discriminate].
    apply bind_inv_ok in H as ([] & s4 & Hr & H).
    unfold ret in H. injection H as <-.
    exists s1, s2, s3. rewrite Hr. auto.
  - intros (s1 & s2 & s3 & Hd & Hf & Hp & ->).
    unfold install_tool.
    rewrite (bind_ok _ _ _ _ _ Hd). simpl.
    rewrite (bind_ok _ _ _ _ _ Hf). simpl.
    rewrite (bind_ok _ _ _ _ _ Hp). simpl.
    pose proof (handle_python_requirements_unit tool_data s3) as Hu.
    destruct (handle_python_requirements tool_data s3) as [r s4] eqn:E.
    simpl in Hu. subst r. rewrite (bind_ok _ _ _ _ _ E). reflexivity.
Qed.

(** ** Remote catalog synchroniser: the flattened dictionaries *)

Lemma dict_get_set {V} (k k' : string) (v : V) (d : list (string * V)) :
  PyDict.get k (PyDict.set k' v d)
  = if String.eqb k' k then Some v else PyDict.get k d.
Proof.
  induction d as [|[k0 v0] rest IH]; simpl.
  - reflexivity.
  - destruct (String.eqb k0 k') eqn:E0; simpl.
    + apply String.eqb_eq in E0. subst k0.
      destruct (String.eqb k' k); reflexivity.
    + destruct (String.eqb k0 k) eqn:E1.
      * apply String.eqb_eq in E1. subst k0. rewrite String.eqb_sym, E0.
        reflexivity.
      * exact IH.
Qed.

Lemma dict_get_elem_of {V} (k : string) (v : V) (d : list (string * V)) :
  PyDict.get k d = Some v → (k, v) ∈ d.
Proof.
  induction d as [|[k0 v0] rest IH]; simpl; [discriminate|].
  destruct (String.eqb k0 k) eqn:E.
  - apply String.eqb_eq in E. intros [= ->]. subst. apply list_elem_of_here.
  - intros H. apply list_elem_of_further. auto.
Qed.

Lemma dict_set_elem_of {V} (k k' : string) (v v' : V) (d : list (string * V)) :
  (k, v) ∈ PyDict.set k' v' d → (k = k' ∧ v = v') ∨ (k, v) ∈ d.
Proof.
  induction d as [|[k0 v0] rest IH]; simpl.
  - intros H. apply list_elem_of_singleton in H. injection H as -> ->. by left.
  - destruct (String.eqb k0 k') eqn:E.
    + apply String.eqb_eq in E. subst k0.
      intros H. apply elem_of_cons in H as [H|H].
      * injection H as -> ->. by left.
      * right. by apply list_elem_of_further.
    + intros H. apply elem_of_cons in H as [H|H].
      * right. rewrite H. apply list_elem_of_here.
      * destruct (IH H) as [?|?]; [by left|right].
        by apply list_elem_of_further.
Qed.

Lemma flatten_tools_concat (tools_data : Catalog) :
  flatten_tools tools_data
  = foldl flatten_step [] (List.concat (map snd tools_data)).
Proof.
  unfold flatten_tools. generalize (@nil (string * Tool)) as acc.
  induction tools_data as [|[c ts] rest IH]; intros acc; simpl; [reflexivity|].
  rewrite foldl_app. apply IH.
Qed.

Lemma flatten_get_other (k : string) (l : list Tool) (acc : list (string * Tool)) :
  (∀ t, t ∈ l → name t ≠ k) →
  PyDict.get k (foldl flatten_step acc l) = PyDict.get k acc.
Proof.
  revert acc. induction l as [|x rest IH]; intros acc Hl; simpl; [reflexivity|].
  rewrite IH.
  - unfold flatten_step. rewrite dict_get_set.
    destruct (String.eqb (name x) k) eqn:E; [|reflexivity].
    apply String.eqb_eq in E. exfalso. apply (Hl x); [apply list_elem_of_here|done].
  - intros t Ht. apply Hl. by apply list_elem_of_further.
Qed.

Lemma flatten_get_some (k : string) (l : list Tool) (acc : list (string * Tool)) :
  (∃ t, t ∈ l ∧ name t = k) →
  ∃ t, t ∈ l ∧ name t = k ∧ PyDict.get k (foldl flatten_step acc l) = Some t.
Proof.
  revert acc. induction l as [|x rest IH]; intros acc (t & Ht & Hk); simpl.
  - by apply not_elem_of_nil in Ht.
  - destruct (decide (Exists (fun t' => name t' = k) rest)) as [Hex|Hno];
      rewrite Exists_exists in *.
    + destruct (IH (flatten_step acc x) Hex) as (t' & Hin & Hn & Hg).
      exists t'. split; [by apply list_elem_of_further|done].
    + assert (Hrest : ∀ t', t' ∈ rest → name t' ≠ k) by (intros t' ? ?; apply Hno; eauto).
      apply elem_of_cons in Ht as [->|Ht]; [|exfalso; eapply Hrest; eauto].
      exists x. split; [apply list_elem_of_here|split; [done|]].
      rewrite flatten_get_other by done.
      unfold flatten_step. rewrite dict_get_set, Hk, String.eqb_refl. reflexivity.
Qed.

Lemma flatten_mem (k : string) (l : list Tool) :
  PyDict.mem k (foldl flatten_step [] l) = true ↔ ∃ t, t ∈ l ∧ name t = k.
Proof.
  unfold PyDict.mem. split.
  - intros H. destruct (decide (Exists (fun t => name t = k) l)) as [?|Hno];
      rewrite Exists_exists in *; [done|].
    rewrite flatten_get_other in H; [discriminate|].
    intros t ? ?. apply Hno. eauto.
  - intros Hex. destruct (flatten_get_some k l [] Hex) as (t & _ & _ & ->).
    reflexivity.
Qed.

Lemma flatten_elem_of (l : list Tool) (acc : list (string * Tool)) (k : string)
    (t : Tool) :
  (k, t) ∈ foldl flatten_step acc l → (k, t) ∈ acc ∨ (t ∈ l ∧ k = name t).
Proof.
  revert acc. induction l as [|x rest IH]; intros acc; simpl; [by left|].
  intros H. destruct (IH _ H) as [Hacc|[Hin Hk]].
  - apply dict_set_elem_of in Hacc as [[-> ->]|?]; [|by left].
    right. split; [apply list_elem_of_here|done].
  - right. split; [by apply list_elem_of_further|done].
Qed.

Lemma flatten_unique_names (l : list Tool) (acc : list (string * Tool)) (t : Tool) :
  NoDup (map name l) → t ∈ l →
  PyDict.get (name t) (foldl flatten_step acc l) = Some t.
Proof.
  revert acc. induction l as [|x rest IH]; intros acc Hnd Ht; simpl.
  - by apply not_elem_of_nil in Ht.
  - simpl in Hnd. apply NoDup_cons in Hnd as [Hx Hnd].
    apply elem_of_cons in Ht as [->|Ht]; [|by apply IH].
    rewrite flatten_get_other.
    + unfold flatten_step. rewrite dict_get_set, String.eqb_refl. reflexivity.
    + intros t' Ht' Heq. apply Hx. rewrite <- Heq.
      apply list_elem_of_fmap. eauto.
Qed.

Lemma find_new_tools_elem_of local_flat remote_flat installed (t : Tool) :
  t ∈ find_new_tools local_flat remote_flat installed ↔
  ∃ item, item ∈ remote_flat ∧ is_new_tool local_flat installed item = true
          ∧ item.2 = t.
Proof.
  unfold find_new_tools.
  assert (Hgen : ∀ acc : list Tool,
    t ∈ foldl (fun new_tools item =>
                 if is_new_tool local_flat installed item
                 then (new_tools ++ [item.2])%list else new_tools) acc remote_flat
    ↔ t ∈ acc ∨ ∃ item, item ∈ remote_flat
                         ∧ is_new_tool local_flat installed item = true
                         ∧ item.2 = t).
  { induction remote_flat as [|x rest IH]; intros acc; simpl.
    - split; [by left|]. intros [?|(item & Hin & _)]; [done|].
      by apply not_elem_of_nil in Hin.
    - rewrite IH. split.
      + intros [Hacc|(item & Hin & Hnew & Heq)].
        * destruct (is_new_tool local_flat installed x) eqn:E; [|by left].
          apply elem_of_app in Hacc as [?|Hx]; [by left|].
          apply list_elem_of_singleton in Hx. right. exists x.
          split; [apply list_elem_of_here|done].
        * right. exists item. split; [by apply list_elem_of_further|done].
      + intros [Hacc|(item & Hin & Hnew & Heq)].
        * left. destruct (is_new_tool local_flat installed x); [|done].
          apply elem_of_app. by left.
        * apply elem_of_cons in Hin as [->|Hin].
          -- left. rewrite Hnew. apply elem_of_app. right.
             by apply list_elem_of_singleton.
          -- right. eauto. }
  rewrite Hgen. split; [|by right].
  intros [Hnil|?]; [|done]. by apply not_elem_of_nil in Hnil.
Qed.

(** The update scan catches every failure of the version-control calls:
    it always completes. *)
Lemma check_tool_update_completes local_flat acc tool_name (s : Sys World) :
  ∃ acc' s', check_tool_update local_flat acc tool_name s = (Ok acc', s').
Proof.
  unfold check_tool_update.
  destruct (PyDict.get tool_name local_flat) as [l|]; [|by eexists _, _].
  destruct (install_path l) as [p|]; [|by eexists _, _].
  destruct (github_url l) as [u|]; [|by eexists _, _].
  destruct (truthy (Some p) && truthy (Some u)); [|by eexists _, _].
  unfold bind, is_dir, run_argv, print, ret. cbn [world procs console].
  destruct (path_is_dir p (world s) && path_is_dir (path_join p ".git") (world s));
    [|by eexists _, _].
  destruct (spawn_argv _ (world s)) as [[out|err|] w1]; cbn [world emit];
    [|by eexists _, _|by eexists _, _].
  destruct (spawn_argv _ w1) as [[out2|err2|] w2]; cbn [world emit];
    [|by eexists _, _|by eexists _, _].
  destruct (_ || _); by eexists _, _.
Qed.

Lemma scan_updates_completes local_flat names acc (s : Sys World) :
  ∃ acc' s', scan_updates local_flat names acc s = (Ok acc', s').
Proof.
  revert acc s. induction names as [|n rest IH]; intros acc s; simpl.
  - by eexists _, _.
  - destruct (check_tool_update_completes local_flat acc n s) as (a1 & s1 & H1).
    rewrite (bind_ok _ _ _ _ _ H1). apply IH.
Qed.

(** C2. [check_for_tool_updates_and_new_tools] always completes, and
    its list of new tools holds only remote tools that declare both a
    source URL and an install path and whose name is neither installed
    nor present in the flattened local catalog; so a remote tool lacking
    the URL or the path is never reported as new, even when it is absent
    from the local catalog. Conversely, tool names being unique across
    the remote catalog, every remote tool meeting the four conditions is
    reported as new. *)
Theorem new_tools_exactly (local_tools_data remote_tools_data : Catalog)
    (installed_tools_names : gset string) (s : Sys World) :
  let all_remote := List.concat (map snd remote_tools_data) in
  let all_local := List.concat (map snd local_tools_data) in
  ∃ new_tools tools_to_update s',
    check_for_tool_updates_and_new_tools
      local_tools_data remote_tools_data installed_tools_names s
    = (Ok (new_tools, tools_to_update), s') ∧
    (∀ t, t ∈ new_tools →
          t ∈ all_remote
          ∧ truthy (github_url t) = true ∧ truthy (install_path t) = true
          ∧ (name t ∉ installed_tools_names)
          ∧ ∀ l, l ∈ all_local → name l ≠ name t) ∧
    (NoDup (map name all_remote) →
     ∀ t, t ∈ all_remote →
          truthy (github_url t) = true → truthy (install_path t) = true →
          name t ∉ installed_tools_names →
          (∀ l, l ∈ all_local → name l ≠ name t) →
          t ∈ new_tools).
Proof.
  intros all_remote all_local.
  unfold check_for_tool_updates_and_new_tools.
  destruct (nonempty remote_tools_data) eqn:Hne; cbn [negb].
  2:{ apply nonempty_false in Hne. subst all_remote. rewrite Hne. clear Hne.
      unfold bind, print, ret. eexists [], [], _. split; [reflexivity|].
      split.
      - intros t Ht. by apply not_elem_of_nil in Ht.
      - intros _ t Ht. by apply not_elem_of_nil in Ht. }
  unfold bind at 1. unfold print at 1. cbv beta iota.
  match goal with
  | |- context [scan_updates ?lf ?ns ?a] =>
      destruct (scan_updates_completes lf ns a
                  {| world := world s; procs := procs s;
                     console := console s ++ [nl +:+ "[*] Checking for updates to installed tools (this might take a moment)..."] |})
        as (upd & s' & Hscan)
  end.
  rewrite (bind_ok _ _ _ _ _ Hscan). unfold ret.
  eexists _, upd, s'. split; [reflexivity|].
  rewrite !flatten_tools_concat. fold all_remote. fold all_local.
  split.
  - intros t Ht. apply find_new_tools_elem_of in Ht as ([k t'] & Hin & Hnew & Heq).
    simpl in Heq. subst t'.
    apply flatten_elem_of in Hin as [Hnil|[Hin ->]];
      [by apply not_elem_of_nil in Hnil|].
    unfold is_new_tool in Hnew. simpl in Hnew.
    apply andb_true_iff in Hnew as [Hnew Hlocal].
    apply andb_true_iff in Hnew as [Hnew Hinst].
    apply andb_true_iff in Hnew as [Hurl Hpath].
    apply negb_true_iff in Hlocal, Hinst.
    apply bool_decide_eq_false in Hinst.
    repeat split; try assumption.
    intros l Hl Heq.
    assert (PyDict.mem (name t) (foldl flatten_step [] all_local) = true) as Hm
      by (apply flatten_mem; eauto).
    congruence.
  - intros Hnd t Hin Hurl Hpath Hinst Hlocal.
    apply find_new_tools_elem_of. exists (name t, t). split; [|split; [|done]].
    + apply dict_get_elem_of. by apply flatten_unique_names.
    + unfold is_new_tool. simpl. rewrite Hurl, Hpath. simpl.
      rewrite bool_decide_eq_false_2 by done. simpl.
      apply negb_true_iff. apply not_true_is_false.
      intros Hm. apply flatten_mem in Hm as (l & Hl & Heq).
      by apply (Hlocal l).
Qed.

(** ** Remote catalog synchroniser: fetching *)

Lemma status_error_true (status : nat) :
  400 ≤ status < 600 → Nat.leb 400 status && Nat.ltb status 600 = true.
Proof.
  intros [H1 H2]. apply andb_true_iff. split.
  - by apply Nat.leb_le.
  - by apply Nat.ltb_lt.
Qed.

Lemma status_error_false (status : nat) :
  ¬ (400 ≤ status < 600) → Nat.leb 400 status && Nat.ltb status 600 = false.
Proof.
  intros Hn. apply not_true_is_false. intros H.
  apply andb_true_iff in H as [H1 H2].
  apply Nat.leb_le in H1. apply Nat.ltb_lt in H2. apply Hn. by split.
Qed.

(** C8, as amended. [get_remote_tools_data] sends the request with a
    timeout of 15 seconds. When the request fails (timeout, connection
    failure, or any other request failure, an HTTP error status
    included) it prints the line of that failure and returns [None]:
    the same value for every kind of failure, with no error kind in it,
    and without raising. The update-check branch of [main] then prints
    that the check could not be performed and completes, having spawned
    nothing else. Nothing is stated about a body that cannot be
    parsed. *)
Theorem fetch_failure_reported (remote_url tools_dir : string)
    (tools_data : Catalog) (s : Sys World) (line : string) :
  remote_url ≠ "" →
  fetch_fails remote_url (http_get remote_url 15 (world s)).1 line →
  let fetching :=
    nl +:+ "[*] Fetching latest tool definitions from " +:+ remote_url +:+ "..." in
  let after (lines : list string) :=
    {| world := (http_get remote_url 15 (world s)).2;
       procs := procs s ++ [EvHttpGet remote_url 15];
       console := console s ++ fetching :: lines |} in
  get_remote_tools_data remote_url s = (Ok None, after [line]) ∧
  check_updates_choice remote_url tools_dir tools_data s
  = (Ok tt, after [line; nl +:+ "[ERROR] Could not perform update check. See logs for details."]).
Proof.
  intros Hurl Hfail fetching after.
  assert (Hget : get_remote_tools_data remote_url s = (Ok None, after [line])).
  { unfold get_remote_tools_data.
    destruct (String.eqb remote_url "") eqn:E.
    { apply String.eqb_eq in E. contradiction. }
    unfold bind, print, requests_get, ret, emit. cbn [world procs console].
    subst after fetching.
    destruct (http_get remote_url 15 (world s)) as [r w]. simpl in Hfail.
    cbn [fst snd].
    destruct Hfail as [| |e|status text Hst];
      rewrite ?(status_error_true _ Hst);
      cbn [world procs console]; rewrite <- app_assoc; reflexivity. }
  split; [exact Hget|].
  unfold check_updates_choice. rewrite (bind_ok _ _ _ _ _ Hget).
  unfold print, after. cbn [world procs console].
  rewrite <- app_assoc. reflexivity.
Qed.

End HostProperties.

(** ** The properties on the simulated host *)

Lemma install_system_package_no_install_witness :
  install_system_package (HW := sim) "  " "macos" (start host_installed)
    = (Ok true, start host_installed) ∧
  install_system_package (HW := sim) nbsp "windows" (start host_installed)
    = (Ok true, start host_installed) ∧
  install_system_package (HW := sim) "python3" "debian_based_linux"
      (start host_installed)
    = (Ok true, {| world := host_installed;
                   procs := [EvArgv ["which"; "python3"]];
                   console := [] |}).
Proof.
  split; [|split].
  - apply (proj1 (install_system_package_no_install (HW := sim)
                    "  " "macos" (start host_installed))).
    apply strip_blank_iff. reflexivity.
  - apply (proj1 (install_system_package_no_install (HW := sim)
                    nbsp "windows" (start host_installed))).
    apply strip_blank_iff. reflexivity.
  - assert (Hname : ¬ blank "python3").
    { intros Hb. apply strip_blank_iff in Hb. vm_compute in Hb.
      discriminate Hb. }
    apply (proj2 (install_system_package_no_install (HW := sim)
                    "python3" "debian_based_linux" (start host_installed))
             Hname "/usr/bin/python3" host_installed).
    reflexivity.
Defined.

Lemma run_tool_no_command_witness :
  run_tool (HW := sim) sqlmap (start host_installed)
  = (Ok false, start host_installed).
Proof.
  apply (run_tool_no_command (HW := sim) sqlmap {[ "windows" := "python sqlmap.py" ]}).
  - reflexivity.
  - reflexivity.
  - reflexivity.
Defined.

Lemma get_installed_tools_names_scan_witness :
  get_installed_tools_names (HW := sim) "tools" (start host_fresh)
    = (Ok ∅, start host_fresh) ∧
  (∃ names : gset string,
    get_installed_tools_names (HW := sim) "tools" (start host_installed)
      = (Ok names, start host_installed) ∧
    ∀ n, n ∈ names ↔
         ∃ k, (n, k) ∈ tools_entries ∧
              (k = IsDir ∨
               (k = IsFile ∧ ∃ stem, stem ≠ "" ∧ n = stem +:+ ".txt"))) ∧
  get_installed_tools_names (HW := sim) "tools.lock" (start host_nikto)
    = (Raised NotADirectoryError, start host_nikto).
Proof.
  split; [|split].
  - apply (proj1 (get_installed_tools_names_scan (HW := sim) "tools"
                    (start host_fresh))).
    reflexivity.
  - apply (proj1 (proj2 (get_installed_tools_names_scan (HW := sim) "tools"
                           (start host_installed)))).
    reflexivity.
  - apply (proj2 (proj2 (get_installed_tools_names_scan (HW := sim)
                           "tools.lock" (start host_nikto)))).
    left. reflexivity.
Defined.

(** The claim as stated fails for a root that exists and is a regular
    file: the scan raises instead of returning a set of names. *)
Lemma get_installed_tools_names_root_is_file :
  fs_node (Host := sim) "tools.lock" host_nikto = Some File ∧
  get_installed_tools_names (HW := sim) "tools.lock" (start host_nikto)
    = (Raised NotADirectoryError, start host_nikto) ∧
  ¬ (∃ names s', get_installed_tools_names (HW := sim) "tools.lock"
                   (start host_nikto) = (Ok names, s')).
Proof.
  split; [reflexivity|]. split; [reflexivity|].
  intros (names & s' & H). discriminate H.
Qed.

Example get_installed_tools_names_example :
  (get_installed_tools_names (HW := sim) "tools" (start host_installed)).1
  = Ok ({[ "sqlmap"; "rockyou.txt" ]} : gset string).
Proof. vm_compute. reflexivity. Qed.

Lemma install_tool_pull_or_clone_witness :
  handle_cloning_updating (HW := sim) sqlmap
      {| world := host_installed; procs := [EvArgv ["which"; "python3"]];
         console := [] |}
    = (Ok true,
       {| world := host_installed;
          procs := [EvArgv ["which"; "python3"];
                    EvShell "git -C tools/sqlmap pull" None];
          console := [] |}) ∧
  handle_cloning_updating (HW := sim) sqlmap
      {| world := host_fresh; procs := [EvArgv ["which"; "python3"]];
         console := [] |}
    = (Ok true,
       {| world := {| sim_signals := linux_signals;
                      sim_fs := [("tools", Dir [])];
                      sim_on_path := ["python3"; "git"];
                      sim_failing := [];
                      sim_http := HttpResponse 200 "{" |};
          procs := [EvArgv ["which"; "python3"];
                    EvShell "git clone https://example/sqlmap tools/sqlmap" None];
          console := [] |}).
Proof.
  split.
  - exact (proj1 (install_tool_pull_or_clone (HW := sim) sqlmap "linux"
             "https://example/sqlmap" "tools/sqlmap" (start host_installed)
             {| world := host_installed; procs := [EvArgv ["which"; "python3"]];
                console := [] |}
             host_installed
             eq_refl ltac:(discriminate) eq_refl ltac:(discriminate)
             eq_refl eq_refl)).
  - exact (proj1 (install_tool_pull_or_clone (HW := sim) sqlmap "linux"
             "https://example/sqlmap" "tools/sqlmap" (start host_fresh)
             {| world := host_fresh; procs := [EvArgv ["which"; "python3"]];
                console := [] |}
             _
             eq_refl ltac:(discriminate) eq_refl ltac:(discriminate)
             eq_refl eq_refl)).
Defined.

Lemma install_tool_true_iff_witness :
  ∃ s', install_tool (HW := sim) sqlmap "linux" (start host_installed)
        = (Ok true, s').
Proof.
  eexists.
  apply (proj2 (install_tool_true_iff (HW := sim) sqlmap "linux"
                  (start host_installed) _)).
  exists {| world := host_installed; procs := [EvArgv ["which"; "python3"]];
            console := [] |}.
  exists {| world := host_installed;
            procs := [EvArgv ["which"; "python3"];
                      EvShell "git -C tools/sqlmap pull" None];
            console := [] |}.
  exists {| world := host_installed;
            procs := [EvArgv ["which"; "python3"];
                      EvShell "git -C tools/sqlmap pull" None];
            console := [] |}.
  split; [reflexivity|]. split; [reflexivity|]. split; reflexivity.
Defined.

(** The claim as stated fails: [requirements.txt] is present, the
    package installer is run and fails, and [install_tool] still returns
    true. *)
Lemma install_tool_ignores_requirements_failure :
  path_exists (HW := sim) "tools/sqlmap/requirements.txt" host_installed = true ∧
  (install_python_requirements (HW := sim) "tools/sqlmap"
     (start host_installed)).1 = Ok false ∧
  install_tool (HW := sim) sqlmap "linux" (start host_installed)
  = (Ok true,
     {| world := host_installed;
        procs := [EvArgv ["which"; "python3"];
                  EvShell "git -C tools/sqlmap pull" None;
                  EvArgv ["which"; "pip3"];
                  EvShell "pip3 install -r tools/sqlmap/requirements.txt" None];
        console := [] |}) ∧
  (install_tool (HW := sim) sqlmap "linux" (start host_installed)).1 ≠ Ok false.
Proof.
  split; [reflexivity|]. split; [reflexivity|]. split; [reflexivity|].
  discriminate.
Qed.

Lemma new_tools_exactly_witness :
  ∃ new_tools tools_to_update s',
    check_for_tool_updates_and_new_tools (HW := sim)
      local_catalog remote_catalog {[ "sqlmap" ]} (start host_installed)
    = (Ok (new_tools, tools_to_update), s') ∧
    new_scanner ∈ new_tools ∧ (manual_resource ∉ new_tools) ∧ (sqlmap ∉ new_tools).
Proof.
  destruct (new_tools_exactly (HW := sim) local_catalog remote_catalog
              {[ "sqlmap" ]} (start host_installed))
    as (new_tools & upd & s' & Hrun & Honly & Hall).
  exists new_tools, upd, s'. split; [exact Hrun|]. split; [|split].
  - apply Hall.
    + change (NoDup ["sqlmap"; "X"; "exploit-db"]).
      repeat (apply NoDup_cons; split;
              [rewrite ?elem_of_cons, elem_of_nil; intros Hx;
               intuition discriminate|]).
      apply NoDup_nil_2.
    + apply list_elem_of_further, list_elem_of_here.
    + reflexivity.
    + reflexivity.
    + (rewrite elem_of_singleton; discriminate).
    + (intros l Hl; apply list_elem_of_singleton in Hl; subst l; discriminate).
  - (intros Hin; destruct (Honly _ Hin) as (_ & Hurl & _); discriminate Hurl).
  - (intros Hin; destruct (Honly _ Hin) as (_ & _ & _ & Hinst & _);
    apply Hinst; by apply elem_of_singleton).
Defined.

Example new_tools_example :
  (check_for_tool_updates_and_new_tools (HW := sim)
     local_catalog remote_catalog {[ "sqlmap" ]} (start host_installed)).1
  = Ok ([new_scanner], []).
Proof. vm_compute. reflexivity. Qed.

Lemma fetch_failure_reported_witness :
  get_remote_tools_data (HW := sim) "https://example/tools.json"
      (start host_installed)
    = (Ok None,
       {| world := host_installed;
          procs := [EvHttpGet "https://example/tools.json" 15];
          console :=
            [nl +:+ "[*] Fetching latest tool definitions from https://example/tools.json...";
             "[ERROR] Request timed out while fetching remote tool data. Check your internet connection."] |}) ∧
  check_updates_choice (HW := sim) "https://example/tools.json" "tools"
      local_catalog (start host_installed)
    = (Ok tt,
       {| world := host_installed;
          procs := [EvHttpGet "https://example/tools.json" 15];
          console :=
            [nl +:+ "[*] Fetching latest tool definitions from https://example/tools.json...";
             "[ERROR] Request timed out while fetching remote tool data. Check your internet connection.";
             nl +:+ "[ERROR] Could not perform update check. See logs for details."] |}).
Proof.
  apply (fetch_failure_reported (HW := sim) "https://example/tools.json" "tools"
           local_catalog (start host_installed)).
  - discriminate.
  - apply fails_timeout.
Defined.

(** The claim as stated fails: a timeout and a connection failure give
    the same returned value, [None]; no error kind is returned. *)
Lemma fetch_failures_return_the_same :
  (http_get (Host := sim) "https://example/tools.json" 15 host_installed).1
    = HttpTimeout ∧
  (http_get (Host := sim) "https://example/tools.json" 15 host_bare).1
    = HttpConnectionError ∧
  (get_remote_tools_data (HW := sim) "https://example/tools.json"
     (start host_installed)).1 = Ok None ∧
  (get_remote_tools_data (HW := sim) "https://example/tools.json"
     (start host_bare)).1 = Ok None ∧
  ¬ ((get_remote_tools_data (HW := sim) "https://example/tools.json"
        (start host_installed)).1
     ≠ (get_remote_tools_data (HW := sim) "https://example/tools.json"
          (start host_bare)).1).
Proof.
  repeat (split; [reflexivity|]). intros Hdiff. apply Hdiff. reflexivity.
Qed.

(** * Further properties of the sources *)

Section MoreHostProperties.
Context {World : Type} {HW : Host World}.

(** ** [lib/os_utils.py] *)

Lemma check_command_exists_run (command_name : string) (s : Sys World) :
  check_command_exists command_name s
  = (Ok (proc_ok (spawn_argv ["which"; command_name] (world s)).1),
     after s (spawn_argv ["which"; command_name] (world s)).2
           [EvArgv ["which"; command_name]]).
Proof.
  unfold check_command_exists, bind, run_argv, ret, after, emit.
  destruct (spawn_argv ["which"; command_name] (world s)) as [[out|err|] w];
    reflexivity.
Qed.

Lemma after_after (s : Sys World) (w w' : World) (evs evs' : list Event) :
  after (after s w evs) w' evs' = after s w' (evs ++ evs').
Proof. unfold after. cbn [world procs console]. by rewrite app_assoc. Qed.

Lemma after_nil (s : Sys World) : after s (world s) [] = s.
Proof. unfold after. rewrite app_nil_r. by destruct s. Qed.

Lemma run_command_shell_outcome (command : Command) (cwd : option string)
    (s0 : Sys World) (w : World) (before : list Event) :
  run_command_in_os_utils command cwd (after s0 w before)
  = shell_outcome
      (match command with CmdStr c => c | CmdList l => PyStr.join_spaces l end)
      cwd w s0 before.
Proof.
  unfold run_command_in_os_utils, shell, shell_outcome, emit, after.
  cbn [world procs console].
  destruct (spawn_shell _ cwd w) as [b w']. cbn [fst snd].
  by rewrite app_assoc.
Qed.

(** The presence check only performs search-path lookups and always
    completes. *)
Lemma package_present_lookups (package_name : string) (s : Sys World) :
  ∃ b w lookups,
    package_present package_name s = (Ok b, after s w lookups)
    ∧ Forall is_which lookups.
Proof.
  assert (Hw : ∀ n, is_which (EvArgv ["which"; n])) by (intros n; by exists n).
  unfold package_present.
  destruct (str_in package_name special_commands).
  - unfold bind at 1. rewrite check_command_exists_run.
    destruct (proc_ok _).
    + eexists _, _, _. split; [reflexivity|]. repeat constructor; apply Hw.
    + destruct (String.eqb package_name "java").
      * unfold bind. rewrite check_command_exists_run.
        destruct (proc_ok _).
        -- unfold ret. rewrite after_after.
           eexists _, _, _. split; [reflexivity|]. repeat constructor; apply Hw.
        -- rewrite check_command_exists_run, !after_after.
           eexists _, _, _. split; [reflexivity|]. repeat constructor; apply Hw.
      * eexists _, _, _. split; [reflexivity|]. repeat constructor; apply Hw.
  - rewrite check_command_exists_run.
    eexists _, _, _. split; [reflexivity|]. repeat constructor; apply Hw.
Qed.

Lemma os_type_not_handled (os_type : string) :
  os_type ∉ auto_install_os_types →
  String.eqb os_type "termux" = false
  ∧ String.eqb os_type "debian_based_linux" = false
  ∧ String.eqb os_type "arch_based_linux" = false
  ∧ String.eqb os_type "windows" = false
  ∧ String.eqb os_type "macos" = false.
Proof.
  intros Hn. repeat split; apply String.eqb_neq; intros ->; apply Hn;
    unfold auto_install_os_types; rewrite !elem_of_cons; tauto.
Qed.

(** X1. On an OS type other than termux, debian-based, arch-based,
    windows and macos (so on generic linux and on an unsupported OS), a
    package that is not found is never installed:
    [install_system_package] returns false, and all it has spawned are
    the search-path lookups of the presence check. *)
Theorem install_system_package_unsupported_os (package_name os_type : string)
    (s s1 : Sys World) :
  PyStr.strip package_name ≠ "" →
  package_present package_name s = (Ok false, s1) →
  os_type ∉ auto_install_os_types →
  install_system_package package_name os_type s = (Ok false, s1)
  ∧ ∃ lookups, procs s1 = (procs s ++ lookups)%list ∧ Forall is_which lookups.
Proof.
  intros Hne Habsent Hos. split.
  - unfold install_system_package.
    destruct (String.eqb (PyStr.strip package_name) "") eqn:E.
    { apply String.eqb_eq in E. contradiction. }
    rewrite (bind_ok _ _ _ _ _ Habsent).
    unfold package_manager_commands.
    destruct (os_type_not_handled _ Hos) as (-> & -> & -> & -> & ->).
    reflexivity.
  - destruct (package_present_lookups package_name s) as (b & w & l & Hp & Hl).
    rewrite Habsent in Hp. injection Hp as _ ->. by exists l.
Qed.

(** X2. On termux, debian-based and arch-based hosts a package that is
    not found is installed by two commands, the package-list update and
    then the install command; the exit status of the update is ignored,
    and the result is the exit status of the install command. *)
Theorem install_system_package_update_not_fatal (package_name os_type
    update_cmd install_cmd : string) (s s1 : Sys World) :
  PyStr.strip package_name ≠ "" →
  package_present package_name s = (Ok false, s1) →
  (os_type, update_cmd, install_cmd) ∈
    [("termux", "pkg update -y", "pkg install -y " +:+ package_name);
     ("debian_based_linux", "sudo apt update -y",
      "sudo apt install -y " +:+ package_name);
     ("arch_based_linux", "sudo pacman -Sy --noconfirm",
      "sudo pacman -S --noconfirm " +:+ package_name)] →
  install_system_package package_name os_type s
  = shell_outcome install_cmd None
      (spawn_shell update_cmd None (world s1)).2 s1 [EvShell update_cmd None].
Proof.
  intros Hne Habsent Hos.
  unfold install_system_package.
  destruct (String.eqb (PyStr.strip package_name) "") eqn:E.
  { apply String.eqb_eq in E. contradiction. }
  rewrite (bind_ok _ _ _ _ _ Habsent).
  rewrite <- (after_nil s1) at 1.
  repeat (apply elem_of_cons in Hos as [Hos|Hos];
          [injection Hos as -> -> ->;
           unfold package_manager_commands; cbn [String.eqb Ascii.eqb Bool.eqb];
           unfold bind at 1; unfold ret at 1; cbn [nonempty];
           unfold bind; rewrite run_command_shell_outcome;
           unfold shell_outcome at 1, ret; cbn [app];
           rewrite run_command_shell_outcome; reflexivity|]).
  by apply not_elem_of_nil in Hos.
Qed.

(** X3. On windows a package that is not found is installed with
    Chocolatey when [which choco] succeeds, without looking for Winget;
    else with Winget (exact match on the id) when [which winget]
    succeeds; and when neither is found the result is false with no
    command run. No package-list update is ever run on windows; the
    result is the exit status of the single install command. *)
Theorem install_system_package_windows (package_name : string) (s s1 : Sys World) :
  PyStr.strip package_name ≠ "" →
  package_present package_name s = (Ok false, s1) →
  let choco := spawn_argv ["which"; "choco"] (world s1) in
  let winget := spawn_argv ["which"; "winget"] choco.2 in
  install_system_package package_name "windows" s
  = if proc_ok choco.1 then
      shell_outcome ("choco install -y " +:+ package_name) None choco.2 s1
                    [EvArgv ["which"; "choco"]]
    else if proc_ok winget.1 then
      shell_outcome ("winget install -e --id " +:+ package_name) None winget.2 s1
                    [EvArgv ["which"; "choco"]; EvArgv ["which"; "winget"]]
    else
      (Ok false, after s1 winget.2
                   [EvArgv ["which"; "choco"]; EvArgv ["which"; "winget"]]).
Proof.
  intros Hne Habsent choco winget.
  unfold install_system_package.
  destruct (String.eqb (PyStr.strip package_name) "") eqn:E.
  { apply String.eqb_eq in E. contradiction. }
  rewrite (bind_ok _ _ _ _ _ Habsent).
  unfold package_manager_commands. cbn [String.eqb Ascii.eqb Bool.eqb].
  unfold bind at 1. unfold bind at 1. rewrite check_command_exists_run.
  fold choco. destruct (proc_ok choco.1).
  - unfold ret at 1. cbn [nonempty]. unfold bind, ret.
    rewrite run_command_shell_outcome. reflexivity.
  - unfold bind at 1. rewrite check_command_exists_run, after_after.
    cbn [world after]. fold winget. destruct (proc_ok winget.1).
    + unfold ret at 1. cbn [nonempty]. unfold bind, ret.
      change {| world := winget.2;
                procs := procs s1 ++ [EvArgv ["which"; "choco"]] ++ [EvArgv ["which"; "winget"]];
                console := console s1 |}
        with (after s1 winget.2 [EvArgv ["which"; "choco"]; EvArgv ["which"; "winget"]]).
      rewrite run_command_shell_outcome. reflexivity.
    + reflexivity.
Qed.

(** X4. On macos a package that is not found is installed with Homebrew
    when [which brew] succeeds: [brew update], whose exit status is
    ignored, then [brew install], whose exit status is the result.
    Without Homebrew the result is false and no command is run. *)
Theorem install_system_package_macos (package_name : string) (s s1 : Sys World) :
  PyStr.strip package_name ≠ "" →
  package_present package_name s = (Ok false, s1) →
  let brew := spawn_argv ["which"; "brew"] (world s1) in
  install_system_package package_name "macos" s
  = if proc_ok brew.1 then
      shell_outcome ("brew install " +:+ package_name) None
        (spawn_shell "brew update" None brew.2).2 s1
        [EvArgv ["which"; "brew"]; EvShell "brew update" None]
    else (Ok false, after s1 brew.2 [EvArgv ["which"; "brew"]]).
Proof.
  intros Hne Habsent brew.
  unfold install_system_package.
  destruct (String.eqb (PyStr.strip package_name) "") eqn:E.
  { apply String.eqb_eq in E. contradiction. }
  rewrite (bind_ok _ _ _ _ _ Habsent).
  unfold package_manager_commands. cbn [String.eqb Ascii.eqb Bool.eqb].
  unfold bind at 1. unfold bind at 1. rewrite check_command_exists_run.
  fold brew. destruct (proc_ok brew.1).
  - unfold ret at 1. cbn [nonempty]. unfold bind at 1. unfold bind at 1.
    rewrite run_command_shell_outcome. unfold shell_outcome at 1, ret.
    unfold bind. cbn [app]. rewrite run_command_shell_outcome. reflexivity.
  - reflexivity.
Qed.

(** X5. [install_python_requirements] returns false and touches nothing
    when the tool directory has no [requirements.txt]. When the file is
    present it prefers [pip3], falls back to [pip] only when
    [which pip3] fails, and returns false without running an installer
    when neither is found; otherwise the result is the exit status of
    the one [install -r] command. *)
Theorem install_python_requirements_pip_choice (tool_path : string)
    (s : Sys World) :
  let req_file := path_join tool_path "requirements.txt" in
  let pip3 := spawn_argv ["which"; "pip3"] (world s) in
  let pip := spawn_argv ["which"; "pip"] pip3.2 in
  (path_exists req_file (world s) = false →
     install_python_requirements tool_path s = (Ok false, s)) ∧
  (path_exists req_file (world s) = true →
     install_python_requirements tool_path s
     = if proc_ok pip3.1 then
         shell_outcome ("pip3 install -r " +:+ path_str req_file) None pip3.2 s
                       [EvArgv ["which"; "pip3"]]
       else if proc_ok pip.1 then
         shell_outcome ("pip install -r " +:+ path_str req_file) None pip.2 s
                       [EvArgv ["which"; "pip3"]; EvArgv ["which"; "pip"]]
       else
         (Ok false, after s pip.2
                      [EvArgv ["which"; "pip3"]; EvArgv ["which"; "pip"]])).
Proof.
  intros req_file pip3 pip. unfold install_python_requirements.
  fold req_file.
  split; intros Hreq; unfold bind at 1; unfold exists_ at 1; rewrite Hreq.
  - reflexivity.
  - unfold bind at 1. rewrite check_command_exists_run. fold pip3.
    destruct (proc_ok pip3.1).
    + unfold bind, ret. cbn [app]. rewrite run_command_shell_outcome.
      reflexivity.
    + unfold bind at 1. unfold bind at 1.
      rewrite check_command_exists_run, after_after.
      cbn [world after]. fold pip. destruct (proc_ok pip.1).
      * unfold ret. cbn [app].
        change {| world := pip.2;
                  procs := procs s ++ [EvArgv ["which"; "pip3"]] ++ [EvArgv ["which"; "pip"]];
                  console := console s |}
          with (after s pip.2 [EvArgv ["which"; "pip3"]; EvArgv ["which"; "pip"]]).
        rewrite run_command_shell_outcome. reflexivity.
      * reflexivity.
Qed.

(** *** The OS dispatch of the package installer *)

Lemma package_manager_commands_completes (package_name os_type : string)
    (s : Sys World) :
  ∃ r s', package_manager_commands package_name os_type s = (Ok r, s').
Proof.
  unfold package_manager_commands.
  repeat (destruct (String.eqb os_type _); [by eexists _, _|]).
  destruct (String.eqb os_type "windows").
  { unfold bind at 1. rewrite check_command_exists_run.
    destruct (proc_ok _); [by eexists _, _|].
    unfold bind. rewrite check_command_exists_run.
    destruct (proc_ok _); by eexists _, _. }
  destruct (String.eqb os_type "macos"); [|by eexists _, _].
  unfold bind. rewrite check_command_exists_run.
  destruct (proc_ok _); by eexists _, _.
Qed.

(** ** [lib/tool_manager.py] *)

Lemma install_dependencies_app (os_type : string) (l1 l2 : list string)
    (s : Sys World) :
  install_dependencies os_type (l1 ++ l2) s
  = match install_dependencies os_type l1 s with
    | (Ok true, s1) => install_dependencies os_type l2 s1
    | stopped => stopped
    end.
Proof.
  revert s. induction l1 as [|d rest IH]; intros s; [reflexivity|].
  cbn [app install_dependencies]. unfold bind.
  destruct (install_system_package d os_type s) as [[[]|e] s1];
    [apply IH|reflexivity|reflexivity].
Qed.

(** X6. [install_tool] stops at the first dependency that cannot be
    ensured: when the dependencies before [dep] in the list resolved
    for the OS succeed and [dep] fails, [install_tool] returns false in
    the state reached right after [dep]; the later dependencies are not
    looked at, and nothing is fetched or run. *)
Theorem install_tool_stops_at_failed_dependency (tool_data : Tool)
    (os_type : string) (deps : gmap string (list string))
    (before after_ : list string) (dep : string) (s s1 s2 : Sys World) :
  dependencies tool_data = Some deps →
  default (default [] (deps !! "default")) (deps !! os_type)
    = (before ++ dep :: after_)%list →
  install_dependencies os_type before s = (Ok true, s1) →
  install_system_package dep os_type s1 = (Ok false, s2) →
  install_tool tool_data os_type s = (Ok false, s2).
Proof.
  intros Hdeps Hlist Hbefore Hdep.
  assert (Hcheck : check_system_dependencies tool_data os_type s = (Ok false, s2)).
  { unfold check_system_dependencies. rewrite Hdeps. cbv zeta. rewrite Hlist.
    rewrite install_dependencies_app, Hbefore.
    cbn [install_dependencies]. by rewrite (bind_ok _ _ _ _ _ Hdep). }
  unfold install_tool. by rewrite (bind_ok _ _ _ _ _ Hcheck).
Qed.

(** X7. For a tool without an install path (absent, null or empty),
    [install_tool] is exactly its dependency step: whatever source URL
    and post-install commands the tool declares, nothing is cloned, no
    hook is run and no requirements are installed. *)
Theorem install_tool_without_install_path (tool_data : Tool) (os_type : string)
    (s : Sys World) :
  truthy (install_path tool_data) = false →
  install_tool tool_data os_type s
  = check_system_dependencies tool_data os_type s.
Proof.
  intros Hpath.
  assert (Hfetch : ∀ s1, handle_cloning_updating tool_data s1 = (Ok true, s1)).
  { intros s1. unfold handle_cloning_updating.
    destruct (github_url tool_data) as [u|]; [|reflexivity].
    destruct (install_path tool_data) as [p|]; [|reflexivity].
    rewrite Hpath, andb_false_r. reflexivity. }
  assert (Hpost : ∀ s1, run_post_installation_commands tool_data s1 = (Ok true, s1)).
  { intros s1. unfold run_post_installation_commands.
    destruct (post_install_commands tool_data) as [[|c cs]|]; try reflexivity.
    destruct (install_path tool_data) as [p|]; [|reflexivity].
    rewrite Hpath. reflexivity. }
  assert (Hreq : ∀ s1, handle_python_requirements tool_data s1 = (Ok tt, s1)).
  { intros s1. unfold handle_python_requirements.
    destruct (install_path tool_data) as [p|]; [|reflexivity].
    rewrite Hpath. reflexivity. }
  unfold install_tool. unfold bind at 1.
  destruct (check_system_dependencies tool_data os_type s) as [[[]|e] s1];
    [|reflexivity|reflexivity].
  cbn [negb]. rewrite (bind_ok _ _ _ _ _ (Hfetch s1)). cbn [negb].
  rewrite (bind_ok _ _ _ _ _ (Hpost s1)). cbn [negb].
  rewrite (bind_ok _ _ _ _ _ (Hreq s1)). reflexivity.
Qed.

Lemma run_post_install_app (tool_full_path : string) (l1 l2 : list string)
    (s : Sys World) :
  run_post_install tool_full_path (l1 ++ l2) s
  = match run_post_install tool_full_path l1 s with
    | (Ok true, s1) => run_post_install tool_full_path l2 s1
    | stopped => stopped
    end.
Proof.
  revert s. induction l1 as [|c rest IH]; intros s; [reflexivity|].
  cbn [app run_post_install]. unfold bind.
  destruct (run_command_in_os_utils _ _ s) as [[[]|e] s1];
    [apply IH|reflexivity|reflexivity].
Qed.

Lemma run_post_install_events (tool_full_path : string) (l : list string)
    (s s1 : Sys World) :
  run_post_install tool_full_path l s = (Ok true, s1) →
  procs s1 = (procs s ++ map (post_install_event tool_full_path) l)%list
  ∧ console s1 = console s.
Proof.
  revert s. induction l as [|c rest IH]; intros s; cbn [run_post_install map].
  - intros [= <-]. by rewrite app_nil_r.
  - unfold bind.
    destruct (run_command_in_os_utils _ _ s) as [[[]|e] s0] eqn:Hc;
      [|discriminate|discriminate].
    intros Hrest. destruct (IH _ Hrest) as [-> ->].
    unfold run_command_in_os_utils, shell in Hc.
    destruct (spawn_shell _ _ (world s)) as [b w]. injection Hc as _ <-.
    cbn [procs console emit]. by rewrite <- app_assoc.
Qed.

(** X8. The post-install commands are run only when the install path
    exists on disk; otherwise the step succeeds without running
    anything. When it exists they run in catalog order, each with the
    placeholder replaced by the install path and with the install
    directory as working directory, and the first command that fails
    ends the step with false: the commands after it are not run. *)
Theorem post_install_stops_at_first_failure (tool_data : Tool)
    (install_path_str : string) (done_ rest : list string) (cmd : string)
    (s : Sys World) :
  install_path tool_data = Some install_path_str →
  install_path_str ≠ "" →
  post_install_commands tool_data = Some (done_ ++ cmd :: rest)%list →
  (path_exists install_path_str (world s) = false →
     run_post_installation_commands tool_data s = (Ok true, s)) ∧
  (path_exists install_path_str (world s) = true →
   ∀ s1, run_post_install install_path_str done_ s = (Ok true, s1) →
     (spawn_shell
        (PyStr.replace "{{install_path}}" (path_str install_path_str) cmd)
        (Some (path_str install_path_str)) (world s1)).1 = false →
     ∃ s2, run_post_installation_commands tool_data s = (Ok false, s2)
           ∧ procs s2
             = (procs s ++ map (post_install_event install_path_str)
                               (done_ ++ [cmd]))%list).
Proof.
  intros Hpath Hp Hcmds.
  assert (Hstep : run_post_installation_commands tool_data s
                  = if path_exists install_path_str (world s)
                    then run_post_install install_path_str (done_ ++ cmd :: rest) s
                    else (Ok true, s)).
  { unfold run_post_installation_commands. rewrite Hcmds, Hpath.
    rewrite (truthy_Some _ Hp).
    destruct (done_ ++ cmd :: rest)%list as [|c cs] eqn:E.
    { by destruct done_. }
    unfold bind, exists_. by destruct (path_exists install_path_str (world s)). }
  rewrite Hstep. split; intros ->; [reflexivity|].
  intros s1 Hdone Hfail.
  rewrite run_post_install_app, Hdone. cbn [run_post_install].
  unfold bind, run_command_in_os_utils, shell.
  destruct (spawn_shell _ _ (world s1)) as [b w] eqn:Hsp.
  cbn [fst] in Hfail. subst b. eexists. split; [reflexivity|].
  cbn [procs emit]. destruct (run_post_install_events _ _ _ _ Hdone) as [-> _].
  rewrite map_app, <- app_assoc. reflexivity.
Qed.

(** X9. A tool with a source URL and an install path whose parent
    directory cannot be created is not reported as a failed
    installation: once the dependency step has succeeded,
    [install_tool] raises the [OSError] of [mkdir] in the state the
    dependency step left, so nothing is fetched, no hook runs and no
    false is returned. *)
Theorem install_tool_mkdir_failure_raises (tool_data : Tool)
    (os_type repo_url install_path_str : string) (s s1 : Sys World) :
  github_url tool_data = Some repo_url → repo_url ≠ "" →
  install_path tool_data = Some install_path_str → install_path_str ≠ "" →
  check_system_dependencies tool_data os_type s = (Ok true, s1) →
  mkdir_parents (path_parent install_path_str) (world s1) = None →
  install_tool tool_data os_type s = (Raised OSError, s1).
Proof.
  intros Hurl Hu Hpath Hp Hdeps Hmk.
  unfold install_tool. rewrite (bind_ok _ _ _ _ _ Hdeps). cbn [negb].
  apply bind_raised.
  unfold handle_cloning_updating. rewrite Hurl, Hpath.
  rewrite (truthy_Some _ Hu), (truthy_Some _ Hp). cbn [andb].
  apply bind_raised. unfold mkdir. by rewrite Hmk.
Qed.

(** X10. Once a run command is resolved for the detected OS, [run_tool]
    depends on the install path only: without an install path it
    returns true and runs nothing (the entry is a web resource); with
    an install path that does not exist it returns false and runs
    nothing; otherwise it runs exactly the resolved command, as a shell
    command in the install directory, and returns its exit status. *)
Theorem run_tool_by_install_path (tool_data : Tool) (cmd : string) (s : Sys World) :
  resolve_run_command (run_command tool_data)
                      (get_os_type (host_signals (world s))) = Some cmd →
  (truthy (install_path tool_data) = false →
     run_tool tool_data s = (Ok true, s)) ∧
  (∀ install_path_str,
     install_path tool_data = Some install_path_str → install_path_str ≠ "" →
     run_tool tool_data s
     = if path_exists install_path_str (world s)
       then shell_outcome cmd (Some (path_str install_path_str)) (world s) s []
       else (Ok false, s)).
Proof.
  intros Hcmd.
  assert (Hrun : run_tool tool_data s
                 = match install_path tool_data with
                   | Some p =>
                       if truthy (Some p) then
                         bind (exists_ p) (fun present =>
                           if negb present then ret false
                           else run_command_in_os_utils (CmdStr cmd)
                                  (Some (path_str p))) s
                       else (Ok true, s)
                   | None => (Ok true, s)
                   end).
  { unfold run_tool. unfold bind at 1. unfold get_world. rewrite Hcmd.
    by destruct (install_path tool_data) as [p|]; [destruct (truthy (Some p))|]. }
  rewrite Hrun. split.
  - intros Hpath. destruct (install_path tool_data) as [p|]; [|reflexivity].
    by rewrite Hpath.
  - intros p -> Hp. rewrite (truthy_Some _ Hp).
    unfold bind, exists_. destruct (path_exists p (world s)); [|reflexivity].
    cbn [negb]. rewrite <- (after_nil s) at 1.
    apply (run_command_shell_outcome (CmdStr cmd)).
Qed.

(** X11. In an installation root that is a directory, an entry that is
    a regular file (and only that) counts as installed exactly when its
    name is a non-empty stem followed by [.txt]: a file named just
    [.txt], or with another or no extension, is not counted. *)
Theorem get_installed_tools_names_txt_files (tools_dir : string)
    (entries : list (string * EntryKind)) (n : string) (s : Sys World) :
  fs_node tools_dir (world s) = Some (Dir entries) →
  (n, IsFile) ∈ entries →
  (∀ k, (n, k) ∈ entries → k = IsFile) →
  ∃ names : gset string,
    get_installed_tools_names tools_dir s = (Ok names, s) ∧
    (n ∈ names ↔ ∃ stem, stem ≠ "" ∧ n = stem +:+ ".txt").
Proof.
  intros Hroot Hfile Honly.
  unfold get_installed_tools_names, bind, get_world. rewrite Hroot.
  eexists. split; [reflexivity|].
  rewrite scan_elem_of, <- suffix_txt_iff. unfold counts_as_installed.
  split.
  - intros [Hin|(k & Hin & [Hk|[_ Hs]])].
    + by apply not_elem_of_empty in Hin.
    + cbn in Hk. subst k. apply Honly in Hin. discriminate.
    + exact Hs.
  - intros Hs. right. exists IsFile. split; [exact Hfile|]. right. by split.
Qed.

(** ** [lib/update_checker.py] *)

(** One step of the update scan: it spawns only the two
    version-control commands, in the install directory of the local
    definition of the tool it was asked about, and appends at most that
    definition, which then has a source URL and an install path. *)
Lemma check_tool_update_step local_flat acc tool_name (s : Sys World) :
  ∃ acc' s' evs,
    check_tool_update local_flat acc tool_name s = (Ok acc', s')
    ∧ procs s' = (procs s ++ evs)%list
    ∧ Forall (fun ev => ∃ t, PyDict.get tool_name local_flat = Some t
                             ∧ truthy (github_url t) = true
                             ∧ git_query_of t ev) evs
    ∧ ∀ t, t ∈ acc' →
           t ∈ acc ∨ (PyDict.get tool_name local_flat = Some t
                      ∧ truthy (github_url t) = true
                      ∧ truthy (install_path t) = true).
Proof.
  assert (Hnone : ∃ acc' s' evs,
    (Ok acc, s) = (Ok acc', s') ∧ procs s' = (procs s ++ evs)%list
    ∧ Forall (fun ev => ∃ t, PyDict.get tool_name local_flat = Some t
                             ∧ truthy (github_url t) = true
                             ∧ git_query_of t ev) evs
    ∧ ∀ t, t ∈ acc' →
           t ∈ acc ∨ (PyDict.get tool_name local_flat = Some t
                      ∧ truthy (github_url t) = true
                      ∧ truthy (install_path t) = true)).
  { exists acc, s, []. rewrite app_nil_r. repeat split; [constructor|by left]. }
  unfold check_tool_update.
  destruct (PyDict.get tool_name local_flat) as [l|] eqn:Hget; [|exact Hnone].
  destruct (install_path l) as [p|] eqn:Hp; [|exact Hnone].
  destruct (github_url l) as [u|] eqn:Hu; [|exact Hnone].
  destruct (truthy (Some p) && truthy (Some u)) eqn:Htr; [|exact Hnone].
  apply andb_true_iff in Htr as [Htp Htu].
  unfold bind at 1. unfold is_dir at 1. unfold bind at 1. unfold is_dir at 1.
  destruct (path_is_dir p (world s) && path_is_dir (path_join p ".git") (world s));
    [|exact Hnone].
  set (git := ["git"; "-C"; path_str p]).
  assert (Hq1 : ∃ t, Some l = Some t ∧ truthy (github_url t) = true
                     ∧ git_query_of t (EvArgv (git ++ ["fetch"; "--all"]))).
  { exists l. rewrite Hu. repeat split; [exact Htu|].
    exists p. split; [exact Hp|by left]. }
  assert (Hq2 : ∃ t, Some l = Some t ∧ truthy (github_url t) = true
                     ∧ git_query_of t (EvArgv (git ++ ["status"; "-uno"]))).
  { exists l. rewrite Hu. repeat split; [exact Htu|].
    exists p. split; [exact Hp|by right]. }
  unfold bind, run_argv, print, ret, emit. cbn [world procs console].
  destruct (spawn_argv (git ++ ["fetch"; "--all"]) (world s)) as [[out1|err1|] w1];
    cbn [world procs console].
  2,3: eexists acc, _, [_]; split; [reflexivity|]; cbn [procs];
       split; [reflexivity|]; split; [by repeat constructor|by left].
  destruct (spawn_argv (git ++ ["status"; "-uno"]) w1) as [[out2|err2|] w2];
    cbn [world procs console].
  2,3: eexists acc, _, [_; _]; split; [reflexivity|]; cbn [procs];
       split; [by rewrite <- app_assoc|]; split; [by repeat constructor|by left].
  destruct (_ || _).
  - eexists _, _, [_; _]. split; [reflexivity|]. cbn [procs].
    split; [by rewrite <- app_assoc|]. split; [by repeat constructor|].
    intros t Ht. apply elem_of_app in Ht as [?|Ht]; [by left|].
    apply list_elem_of_singleton in Ht. subst t. right.
    rewrite Hu, Hp. by repeat split.
  - eexists acc, _, [_; _]. split; [reflexivity|]. cbn [procs].
    split; [by rewrite <- app_assoc|]. split; [by repeat constructor|by left].
Qed.

Lemma scan_updates_steps local_flat names acc (s : Sys World) :
  ∃ acc' s' evs,
    scan_updates local_flat names acc s = (Ok acc', s')
    ∧ procs s' = (procs s ++ evs)%list
    ∧ Forall (fun ev => ∃ tool_name t, tool_name ∈ names
                          ∧ PyDict.get tool_name local_flat = Some t
                          ∧ truthy (github_url t) = true
                          ∧ git_query_of t ev) evs
    ∧ ∀ t, t ∈ acc' →
           t ∈ acc ∨ ∃ tool_name, tool_name ∈ names
                      ∧ PyDict.get tool_name local_flat = Some t
                      ∧ truthy (github_url t) = true
                      ∧ truthy (install_path t) = true.
Proof.
  revert acc s. induction names as [|n rest IH]; intros acc s; simpl.
  - exists acc, s, []. rewrite app_nil_r. repeat split; [constructor|by left].
  - destruct (check_tool_update_step local_flat acc n s)
      as (a1 & s1 & e1 & H1 & Hp1 & Hq1 & Ha1).
    rewrite (bind_ok _ _ _ _ _ H1).
    destruct (IH a1 s1) as (a2 & s2 & e2 & H2 & Hp2 & Hq2 & Ha2).
    exists a2, s2, (e1 ++ e2)%list. split; [exact H2|].
    split; [by rewrite Hp2, Hp1, app_assoc|].
    split.
    { apply Forall_app. split.
      - eapply Forall_impl; [exact Hq1|]. intros ev (t & Hget & Hrest).
        exists n, t. split; [apply list_elem_of_here|by split].
      - eapply Forall_impl; [exact Hq2|]. intros ev (m & t & Hm & Hrest).
        exists m, t. split; [by apply list_elem_of_further|exact Hrest]. }
    intros t Ht. destruct (Ha2 t Ht) as [Hin|(m & Hm & Hrest)].
    + destruct (Ha1 t Hin) as [?|Hfound]; [by left|].
      right. exists n. split; [apply list_elem_of_here|exact Hfound].
    + right. exists m. split; [by apply list_elem_of_further|exact Hrest].
Qed.

(** X12. Every process the update check spawns is
    [git -C <path> fetch --all] or [git -C <path> status -uno] where
    [<path>] is the install path of a tool of the local catalog whose
    name is among the installed names and which declares a source URL:
    the check never clones, pulls, installs or runs a shell command,
    and it touches no directory other than those install paths. With an
    empty remote catalog it spawns nothing at all and reports no new
    tools and no updates, whatever is installed. *)
Theorem update_check_spawns_only_git_queries (local_tools_data
    remote_tools_data : Catalog) (installed_tools_names : gset string)
    (s s' : Sys World) (result : list Tool * list Tool) :
  check_for_tool_updates_and_new_tools
    local_tools_data remote_tools_data installed_tools_names s
  = (Ok result, s') →
  ∃ evs,
    procs s' = (procs s ++ evs)%list
    ∧ Forall (fun ev => ∃ t, t ∈ List.concat (map snd local_tools_data)
                             ∧ name t ∈ installed_tools_names
                             ∧ truthy (github_url t) = true
                             ∧ git_query_of t ev) evs
    ∧ (remote_tools_data = [] → evs = [] ∧ result = ([], [])).
Proof.
  unfold check_for_tool_updates_and_new_tools.
  destruct remote_tools_data as [|c cs]; cbn [nonempty negb].
  - unfold bind, print, ret. intros [= <- <-]. exists [].
    cbn [procs]. rewrite app_nil_r. repeat split. constructor.
  - unfold bind at 1. unfold print at 1. cbv beta iota.
    match goal with
    | |- context [bind (scan_updates ?lf ?ns ?a) _ ?st] =>
        destruct (scan_updates_steps lf ns a st)
          as (upd & s1 & evs & Hscan & Hp & Hq & _)
    end.
    rewrite (bind_ok _ _ _ _ _ Hscan). unfold ret. intros [= _ <-].
    exists evs. split; [exact Hp|]. split; [|discriminate].
    eapply Forall_impl; [exact Hq|].
    intros ev (n & t & Hn & Hget & Hu & Hev).
    apply elem_of_elements in Hn.
    apply dict_get_elem_of in Hget. rewrite flatten_tools_concat in Hget.
    apply flatten_elem_of in Hget as [Hnil|[Hin ->]];
      [by apply not_elem_of_nil in Hnil|].
    exists t. by repeat split.
Qed.

(** X13. Every tool reported as having an update is a tool of the local
    catalog whose name is among the installed names and which declares
    both a source URL and an install path; tools known only to the
    remote catalog, and installed entries unknown to the local catalog,
    are never reported. *)
Theorem tools_to_update_are_installed_local (local_tools_data
    remote_tools_data : Catalog) (installed_tools_names : gset string)
    (s s' : Sys World) (new_tools tools_to_update : list Tool) :
  check_for_tool_updates_and_new_tools
    local_tools_data remote_tools_data installed_tools_names s
  = (Ok (new_tools, tools_to_update), s') →
  ∀ t, t ∈ tools_to_update →
       t ∈ List.concat (map snd local_tools_data)
       ∧ name t ∈ installed_tools_names
       ∧ truthy (github_url t) = true ∧ truthy (install_path t) = true.
Proof.
  unfold check_for_tool_updates_and_new_tools.
  destruct (nonempty remote_tools_data); cbn [negb].
  2:{ unfold bind, print, ret. intros [= _ <- _] t Ht.
      by apply not_elem_of_nil in Ht. }
  unfold bind at 1. unfold print at 1. cbv beta iota.
  match goal with
  | |- context [bind (scan_updates ?lf ?ns ?a) _ ?st] =>
      destruct (scan_updates_steps lf ns a st)
        as (upd & s1 & evs & Hscan & _ & _ & Hupd)
  end.
  rewrite (bind_ok _ _ _ _ _ Hscan). unfold ret. intros [= _ <- _] t Ht.
  destruct (Hupd t Ht) as [Hnil|(n & Hn & Hget & Hu & Hp)];
    [by apply not_elem_of_nil in Hnil|].
  apply elem_of_elements in Hn.
  apply dict_get_elem_of in Hget. rewrite flatten_tools_concat in Hget.
  apply flatten_elem_of in Hget as [Hnil|[Hin ->]];
    [by apply not_elem_of_nil in Hnil|].
  by repeat split.
Qed.

Lemma dict_set_key_elem_of {V} (k0 k : string) (v : V) (d : list (string * V)) :
  k0 ∈ map fst (PyDict.set k v d) ↔ k0 = k ∨ k0 ∈ map fst d.
Proof.
  induction d as [|[k1 v1] rest IH]; simpl.
  - rewrite list_elem_of_singleton. split; [by left|].
    intros [?|Hn]; [done|]. by apply not_elem_of_nil in Hn.
  - destruct (String.eqb k1 k) eqn:E; simpl.
    + apply String.eqb_eq in E. subst k1. rewrite !elem_of_cons. tauto.
    + rewrite !elem_of_cons, IH. tauto.
Qed.

Lemma dict_set_NoDup {V} (k : string) (v : V) (d : list (string * V)) :
  NoDup (map fst d) → NoDup (map fst (PyDict.set k v d)).
Proof.
  induction d as [|[k1 v1] rest IH]; simpl; intros Hnd.
  - apply NoDup_singleton.
  - apply NoDup_cons in Hnd as [Hk1 Hnd].
    destruct (String.eqb k1 k) eqn:E; simpl.
    + by apply NoDup_cons.
    + apply String.eqb_neq in E. apply NoDup_cons. split; [|by apply IH].
      rewrite dict_set_key_elem_of. intros [?|?]; [by apply E|by apply Hk1].
Qed.

Lemma flatten_NoDup (l : list Tool) (acc : list (string * Tool)) :
  NoDup (map fst acc) → NoDup (map fst (foldl flatten_step acc l)).
Proof.
  revert acc. induction l as [|t rest IH]; intros acc Hnd; simpl; [done|].
  apply IH. by apply dict_set_NoDup.
Qed.

Lemma find_new_tools_filter local_flat remote_flat installed :
  find_new_tools local_flat remote_flat installed
  = map snd (List.filter (is_new_tool local_flat installed) remote_flat).
Proof.
  unfold find_new_tools.
  assert (Hgen : ∀ acc : list Tool,
    foldl (fun new_tools item =>
             if is_new_tool local_flat installed item
             then (new_tools ++ [item.2])%list else new_tools) acc remote_flat
    = (acc ++ map snd (List.filter (is_new_tool local_flat installed)
                                   remote_flat))%list).
  { induction remote_flat as [|x rest IH]; intros acc; simpl.
    - by rewrite app_nil_r.
    - rewrite IH. destruct (is_new_tool local_flat installed x); simpl; [|done].
      by rewrite <- app_assoc. }
  apply Hgen.
Qed.

Lemma filter_keys_NoDup {V} (f : string * V → bool) (d : list (string * V)) :
  NoDup (map fst d) → NoDup (map fst (List.filter f d)).
Proof.
  induction d as [|x rest IH]; simpl; intros Hnd; [done|].
  apply NoDup_cons in Hnd as [Hx Hnd].
  destruct (f x); simpl; [|by apply IH].
  apply NoDup_cons. split; [|by apply IH].
  intros Hin. apply Hx. apply list_elem_of_fmap in Hin as (y & -> & Hy).
  apply list_elem_of_fmap. exists y. split; [done|].
  apply list_elem_of_In. apply list_elem_of_In in Hy.
  by apply filter_In in Hy as [? _].
Qed.

(** X14. The list of new tools never names a tool twice, also when the
    remote catalog does: the remote catalog is flattened into a
    dictionary keyed by name before it is compared. *)
Theorem new_tools_names_unique (local_tools_data remote_tools_data : Catalog)
    (installed_tools_names : gset string) (s s' : Sys World)
    (new_tools tools_to_update : list Tool) :
  check_for_tool_updates_and_new_tools
    local_tools_data remote_tools_data installed_tools_names s
  = (Ok (new_tools, tools_to_update), s') →
  NoDup (map name new_tools).
Proof.
  unfold check_for_tool_updates_and_new_tools.
  destruct (nonempty remote_tools_data); cbn [negb].
  2:{ unfold bind, print, ret. intros [= <- _ _]. apply NoDup_nil_2. }
  unfold bind at 1. unfold print at 1. cbv beta iota.
  match goal with
  | |- context [bind (scan_updates ?lf ?ns ?a) _ ?st] =>
      destruct (scan_updates_completes lf ns a st) as (upd & s1 & Hscan)
  end.
  rewrite (bind_ok _ _ _ _ _ Hscan). unfold ret. intros [= <- _ _].
  rewrite find_new_tools_filter.
  set (remote_flat := flatten_tools remote_tools_data).
  assert (Hkeys : ∀ item, item ∈ remote_flat → item.1 = name item.2).
  { intros [k t] Hin. subst remote_flat. rewrite flatten_tools_concat in Hin.
    apply flatten_elem_of in Hin as [Hnil|[_ ->]]; [|done].
    by apply not_elem_of_nil in Hnil. }
  assert (Hnd : NoDup (map fst remote_flat)).
  { subst remote_flat. rewrite flatten_tools_concat. apply flatten_NoDup.
    apply NoDup_nil_2. }
  set (f := is_new_tool (flatten_tools local_tools_data) installed_tools_names).
  pose proof (filter_keys_NoDup f remote_flat Hnd) as Hfilter.
  assert (Heq : map name (map snd (List.filter f remote_flat))
                = map fst (List.filter f remote_flat)).
  { rewrite map_map. apply map_ext_in. intros item Hin.
    apply filter_In in Hin as [Hin _]. symmetry. apply Hkeys.
    by apply list_elem_of_In. }
  by rewrite Heq.
Qed.

(** X15. Flattening a catalog keeps, for every name, the last tool
    definition carrying it (over all categories, in file order): a name
    no tool carries is absent, and a tool after which no other tool has
    the same name is the one found under its name, whatever came
    before. *)
Theorem flatten_tools_last_wins (tools_data : Catalog) :
  let all := List.concat (map snd tools_data) in
  (∀ k, (∀ t, t ∈ all → name t ≠ k) →
        PyDict.get k (flatten_tools tools_data) = None) ∧
  (∀ earlier t later,
     all = (earlier ++ t :: later)%list →
     (∀ t', t' ∈ later → name t' ≠ name t) →
     PyDict.get (name t) (flatten_tools tools_data) = Some t).
Proof.
  intros all. rewrite flatten_tools_concat. fold all. split.
  - intros k Hk. by rewrite flatten_get_other.
  - intros earlier t later -> Hlater.
    rewrite foldl_app. cbn [foldl]. rewrite flatten_get_other by exact Hlater.
    unfold flatten_step. by rewrite dict_get_set, String.eqb_refl.
Qed.

(** X16. With an empty remote URL [get_remote_tools_data] returns
    [None] without sending any request. With a URL, a response whose
    status is not in the 4xx-5xx range and whose body parses yields the
    parsed catalog; exactly one request is sent, with the 15-second
    timeout, and nothing but the progress line is printed. *)
Theorem get_remote_tools_data_success (remote_url : string) (status : nat)
    (text : string) (data : Catalog) (w : World) (s : Sys World) :
  get_remote_tools_data "" s
  = (Ok None,
     {| world := world s; procs := procs s;
        console := console s
          ++ ["[ERROR] Remote tools.json URL is not configured in settings.json."] |})
  ∧ (remote_url ≠ "" →
     http_get remote_url 15 (world s) = (HttpResponse status text, w) →
     ¬ (400 ≤ status < 600) →
     json5_loads text = Parsed data →
     get_remote_tools_data remote_url s
     = (Ok (Some data),
        {| world := w; procs := procs s ++ [EvHttpGet remote_url 15];
           console := console s
             ++ [nl +:+ "[*] Fetching latest tool definitions from "
                 +:+ remote_url +:+ "..."] |})).
Proof.
  split; [reflexivity|].
  intros Hurl Hget Hst Hparse. unfold get_remote_tools_data.
  destruct (String.eqb remote_url "") eqn:E.
  { apply String.eqb_eq in E. contradiction. }
  unfold bind, print, requests_get, ret, emit. cbn [world procs console].
  rewrite Hget, (status_error_false _ Hst), Hparse. reflexivity.
Qed.

(** X17. The update-check branch of [main] does not always end with a
    report. When a non-empty remote catalog was fetched and the
    installation root exists but is not a directory, listing the root
    raises [NotADirectoryError] before any version-control query. When
    the response is not an error status and its body cannot be parsed,
    the [ValueError] of the parser meets a handler that names
    [json5.JSON5Error], which the module does not have: the fetch, and
    with it the branch, raises [AttributeError] right after the request,
    and no line about a failed check is printed. *)
Theorem check_updates_choice_raises (REMOTE_TOOLS_JSON_URL TOOLS_DIR : string)
    (TOOLS_DATA : Catalog) (s : Sys World) :
  (∀ c cs s1,
     get_remote_tools_data REMOTE_TOOLS_JSON_URL s = (Ok (Some (c :: cs)), s1) →
     fs_node TOOLS_DIR (world s1) = Some File
     ∨ fs_node TOOLS_DIR (world s1) = Some Special →
     check_updates_choice REMOTE_TOOLS_JSON_URL TOOLS_DIR TOOLS_DATA s
     = (Raised NotADirectoryError, s1)) ∧
  (∀ status text msg w,
     REMOTE_TOOLS_JSON_URL ≠ "" →
     http_get REMOTE_TOOLS_JSON_URL 15 (world s) = (HttpResponse status text, w) →
     ¬ (400 ≤ status < 600) →
     json5_loads text = ParseValueError msg →
     let s1 :=
       {| world := w; procs := procs s ++ [EvHttpGet REMOTE_TOOLS_JSON_URL 15];
          console := console s
            ++ [nl +:+ "[*] Fetching latest tool definitions from "
                +:+ REMOTE_TOOLS_JSON_URL +:+ "..."] |} in
     get_remote_tools_data REMOTE_TOOLS_JSON_URL s = (Raised AttributeError, s1)
     ∧ check_updates_choice REMOTE_TOOLS_JSON_URL TOOLS_DIR TOOLS_DATA s
       = (Raised AttributeError, s1)).
Proof.
  split.
  - intros c cs s1 Hget Hroot. unfold check_updates_choice.
    rewrite (bind_ok _ _ _ _ _ Hget). apply bind_raised.
    unfold get_installed_tools_names, bind, get_world.
    by destruct Hroot as [-> | ->].
  - intros status text msg w Hurl Hget Hst Hparse s1.
    assert (Hfetch : get_remote_tools_data REMOTE_TOOLS_JSON_URL s
                     = (Raised AttributeError, s1)).
    { unfold get_remote_tools_data.
      destruct (String.eqb REMOTE_TOOLS_JSON_URL "") eqn:E.
      { apply String.eqb_eq in E. contradiction. }
      unfold bind, print, requests_get, raise, emit. cbn [world procs console].
      rewrite Hget, (status_error_false _ Hst), Hparse. reflexivity. }
    split; [exact Hfetch|].
    unfold check_updates_choice. by apply bind_raised.
Qed.

Lemma run_command_true_inv (command : Command) (cwd : option string)
    (s s' : Sys World) :
  run_command_in_os_utils command cwd s = (Ok true, s') →
  let cmd_str :=
    match command with CmdStr c => c | CmdList l => PyStr.join_spaces l end in
  procs s' = (procs s ++ [EvShell cmd_str cwd])%list
  ∧ spawn_shell cmd_str cwd (world s) = (true, world s').
Proof.
  unfold run_command_in_os_utils, shell.
  destruct (spawn_shell _ cwd (world s)) as [b w] eqn:Hsp.
  intros [= -> <-]. split; [reflexivity|]. first [exact Hsp|reflexivity].
Qed.

(** The OS dispatch chooses the install command of the package manager
    of that OS, possibly with its package-list update, and spawns only
    search-path lookups. *)
Lemma package_manager_commands_chosen (package_name os_type : string)
    (update_cmd install_cmd : list string) (s s1 : Sys World) :
  package_manager_commands package_name os_type s
  = (Ok (Some (update_cmd, install_cmd)), s1) →
  (os_type, PyStr.join_spaces install_cmd) ∈ install_commands package_name
  ∧ nonempty install_cmd = true
  ∧ (update_cmd = []
     ∨ (os_type, PyStr.join_spaces update_cmd) ∈ update_commands)
  ∧ ∃ lookups, procs s1 = (procs s ++ lookups)%list ∧ Forall is_which lookups.
Proof.
  assert (Hw : ∀ n, is_which (EvArgv ["which"; n])) by (intros n; by exists n).
  assert (Hin : ∀ (x : string * string) l, In x l → x ∈ l).
  { intros x l. apply list_elem_of_In. }
  unfold package_manager_commands.
  destruct (String.eqb os_type "termux") eqn:E1.
  { apply String.eqb_eq in E1. subst os_type. intros [= <- <- <-].
    split; [apply Hin; simpl; tauto|]. split; [reflexivity|].
    split; [right; apply Hin; simpl; tauto|].
    exists []. by rewrite app_nil_r. }
  destruct (String.eqb os_type "debian_based_linux") eqn:E2.
  { apply String.eqb_eq in E2. subst os_type. intros [= <- <- <-].
    split; [apply Hin; simpl; tauto|]. split; [reflexivity|].
    split; [right; apply Hin; simpl; tauto|].
    exists []. by rewrite app_nil_r. }
  destruct (String.eqb os_type "arch_based_linux") eqn:E3.
  { apply String.eqb_eq in E3. subst os_type. intros [= <- <- <-].
    split; [apply Hin; simpl; tauto|]. split; [reflexivity|].
    split; [right; apply Hin; simpl; tauto|].
    exists []. by rewrite app_nil_r. }
  destruct (String.eqb os_type "windows") eqn:E4.
  { apply String.eqb_eq in E4. subst os_type.
    unfold bind at 1. rewrite check_command_exists_run.
    destruct (proc_ok _).
    { intros [= <- <- <-].
      split; [apply Hin; simpl; tauto|]. split; [reflexivity|].
      split; [by left|]. eexists [_]. split; [reflexivity|].
      repeat constructor; apply Hw. }
    unfold bind. rewrite check_command_exists_run, after_after.
    destruct (proc_ok _); [|discriminate].
    intros [= <- <- <-].
    split; [apply Hin; simpl; tauto|]. split; [reflexivity|].
    split; [by left|]. eexists [_; _]. split; [reflexivity|].
    repeat constructor; apply Hw. }
  destruct (String.eqb os_type "macos") eqn:E5; [|discriminate].
  apply String.eqb_eq in E5. subst os_type.
  unfold bind. rewrite check_command_exists_run.
  destruct (proc_ok _); [|discriminate].
  intros [= <- <- <-].
  split; [apply Hin; simpl; tauto|]. split; [reflexivity|].
  split; [right; apply Hin; simpl; tauto|].
  eexists [_]. split; [reflexivity|]. repeat constructor; apply Hw.
Qed.

(** X18. [install_system_package] returns true only in three ways: the
    name is blank and nothing was done; the presence check found the
    package and nothing else was run; or the presence check did not
    find it and the last thing done was to run the install command of
    the package manager of that OS, as a shell command that exited with
    status 0, after nothing but search-path lookups for a package
    manager and the package-list update of that OS. A failed or missing
    package manager never yields true. *)
Theorem install_system_package_true_only_if (package_name os_type : string)
    (s s' : Sys World) :
  install_system_package package_name os_type s = (Ok true, s') →
  (blank package_name ∧ s' = s)
  ∨ package_present package_name s = (Ok true, s')
  ∨ ∃ s1 s2 install_cmd_str mid,
      package_present package_name s = (Ok false, s1)
      ∧ (os_type, install_cmd_str) ∈ install_commands package_name
      ∧ procs s2 = (procs s1 ++ mid)%list
      ∧ Forall (fun ev => is_which ev
                          ∨ ∃ update_cmd_str,
                              (os_type, update_cmd_str) ∈ update_commands
                              ∧ ev = EvShell update_cmd_str None) mid
      ∧ spawn_shell install_cmd_str None (world s2) = (true, world s')
      ∧ procs s' = (procs s2 ++ [EvShell install_cmd_str None])%list.
Proof.
  unfold install_system_package.
  destruct (String.eqb (PyStr.strip package_name) "") eqn:E.
  { apply String.eqb_eq, strip_blank_iff in E. intros [= <-]. by left. }
  destruct (package_present_lookups package_name s) as (b & w & l & Hp & _).
  rewrite (bind_ok _ _ _ _ _ Hp), Hp.
  destruct b; [intros [= <-]; right; by left|].
  destruct (package_manager_commands_completes package_name os_type (after s w l))
    as ([[update_cmd install_cmd]|] & s1 & Hc);
    rewrite (bind_ok _ _ _ _ _ Hc); [|discriminate].
  apply package_manager_commands_chosen
    in Hc as (Hinst & Hne & Hupd & lookups & Hpl & Hwl).
  rewrite Hne. intros Hrun. right; right.
  assert (Hmid : ∃ s2 mid,
    (if nonempty update_cmd
     then bind (run_command_in_os_utils (CmdList update_cmd) None) (fun _ => ret tt)
     else ret tt) s1 = (Ok tt, s2)
    ∧ procs s2 = (procs (after s w l) ++ mid)%list
    ∧ Forall (fun ev => is_which ev
                        ∨ ∃ update_cmd_str,
                            (os_type, update_cmd_str) ∈ update_commands
                            ∧ ev = EvShell update_cmd_str None) mid).
  { destruct update_cmd as [|u us]; cbn [nonempty].
    - exists s1, lookups. split; [reflexivity|]. split; [exact Hpl|].
      eapply Forall_impl; [exact Hwl|]. intros ev Hev. by left.
    - destruct Hupd as [Hnil|Hupd]; [discriminate|].
      unfold bind, run_command_in_os_utils, shell, ret.
      destruct (spawn_shell _ None (world s1)) as [b1 w1].
      eexists _, (lookups ++ [_])%list. split; [reflexivity|].
      cbn [procs emit]. split; [by rewrite Hpl, app_assoc|].
      apply Forall_app. split.
      + eapply Forall_impl; [exact Hwl|]. intros ev Hev. by left.
      + constructor; [|constructor]. right. eexists.
        split; [exact Hupd|reflexivity]. }
  destruct Hmid as (s2 & mid & Hstep & Hprocs & Hmid).
  rewrite (bind_ok _ _ _ _ _ Hstep) in Hrun.
  apply run_command_true_inv in Hrun as [Hlast Hspawn].
  exists (after s w l), s2, (PyStr.join_spaces install_cmd), mid.
  by repeat split.
Qed.

End MoreHostProperties.

(** ** [uht.py]: the compatibility filter *)

(** X20. Among the tools of a category, one whose [os_compat] is empty
    or absent is listed exactly when [skip_if_os_not_supported] is
    unset or false, on every OS; one whose [os_compat] is not empty is
    listed exactly when it names the OS or ["any"], whatever the flag
    is. So the flag only ever acts on tools without a compatibility
    list, which it hides everywhere. *)
Theorem skip_flag_only_acts_without_os_compat (OS_TYPE : string)
    (category_tools : list Tool) (tool : Tool) :
  tool ∈ category_tools →
  let os_compat_list := default [] (os_compat tool) in
  (os_compat_list = [] →
     (tool ∈ final_compatible_tools OS_TYPE category_tools ↔
      default false (skip_if_os_not_supported tool) = false)) ∧
  (os_compat_list ≠ [] →
     (tool ∈ final_compatible_tools OS_TYPE category_tools ↔
      OS_TYPE ∈ os_compat_list ∨ "any" ∈ os_compat_list)).
Proof.
  intros Hin os_compat_list.
  assert (Hlisted : tool ∈ final_compatible_tools OS_TYPE category_tools ↔
                    is_compatible OS_TYPE tool = true).
  { rewrite final_compatible_tools_filter, list_elem_of_In, filter_In,
      <- list_elem_of_In. tauto. }
  rewrite Hlisted. unfold is_compatible. fold os_compat_list. split.
  - intros ->. cbn. by destruct (default false (skip_if_os_not_supported tool)).
  - intros Hne. rewrite <- !str_in_elem_of.
    destruct (str_in OS_TYPE os_compat_list); [tauto|].
    destruct (str_in "any" os_compat_list); [tauto|].
    destruct os_compat_list; [done|]. cbn. split; [discriminate|].
    intros [?|?]; discriminate.
Qed.

(** X21. The compatibility filter keeps the catalog order and works
    tool by tool: the listing of two concatenated lists is the
    concatenation of their listings, the listing is a sublist of the
    category, and filtering a listing again changes nothing. *)
Theorem final_compatible_tools_order (OS_TYPE : string) (l1 l2 : list Tool) :
  final_compatible_tools OS_TYPE (l1 ++ l2)
    = (final_compatible_tools OS_TYPE l1 ++ final_compatible_tools OS_TYPE l2)%list
  ∧ sublist (final_compatible_tools OS_TYPE l1) l1
  ∧ final_compatible_tools OS_TYPE (final_compatible_tools OS_TYPE l1)
    = final_compatible_tools OS_TYPE l1.
Proof.
  rewrite !final_compatible_tools_filter. split; [apply List.filter_app|]. split.
  - induction l1 as [|t rest IH]; simpl; [constructor|].
    destruct (is_compatible OS_TYPE t); by constructor.
  - induction l1 as [|t rest IH]; simpl; [reflexivity|].
    destruct (is_compatible OS_TYPE t) eqn:E; simpl; [|exact IH].
    by rewrite E, IH.
Qed.

(** ** [lib/menu_handler.py] *)

Lemma menu_rows_unfinished (i : nat) (tools_list : list Tool) :
  (menu_rows i tools_list).2 = false ↔
  ∃ tool, tool ∈ tools_list ∧ truthy (install_path tool) = true.
Proof.
  revert i. induction tools_list as [|t rest IH]; intros i; simpl.
  - split; [discriminate|]. intros (t & Hin & _). by apply not_elem_of_nil in Hin.
  - unfold menu_status. destruct (truthy (install_path t)) eqn:Ht.
    + split; [|reflexivity]. intros _. exists t. split; [apply list_elem_of_here|done].
    + assert (Hrest : ∀ st, (let '(rows, finished) := menu_rows (S i) rest in
                              ((i + 1, name t, st) :: rows, finished)).2
                            = (menu_rows (S i) rest).2)
        by (intros st; by destruct (menu_rows (S i) rest)).
      destruct (negb (truthy (github_url t)) && negb false);
        rewrite Hrest, IH; split.
      all: try (intros (t' & Hin & Ht'); exists t';
                split; [by apply list_elem_of_further|done]).
      all: intros (t' & Hin & Ht'); apply elem_of_cons in Hin as [->|Hin];
           [congruence|eauto].
Qed.

Lemma menu_rows_never_installed (i : nat) (tools_list : list Tool) :
  ∀ row, row ∈ (menu_rows i tools_list).1 → row.2 ≠ Installed.
Proof.
  revert i. induction tools_list as [|t rest IH]; intros i row; simpl.
  - intros Hin. by apply not_elem_of_nil in Hin.
  - unfold menu_status. destruct (truthy (install_path t)).
    { intros Hin. by apply not_elem_of_nil in Hin. }
    specialize (IH (S i)).
    destruct (negb (truthy (github_url t)) && negb false);
      destruct (menu_rows (S i) rest) as [rows fin]; cbn [fst] in *;
      intros Hin; apply elem_of_cons in Hin as [->|Hin];
      first [discriminate|by apply IH].
Qed.

(** X22. [display_tool_menu] refers to [Path], a name its module never
    imports. So for a non-empty list it ends in a [NameError] exactly
    when some tool of the list has an install path, after printing only
    the rows of the tools before the first such tool; and no row it
    ever prints carries the status "Installed". Only a list of tools
    without install path reaches the prompt; a [KeyboardInterrupt]
    there counts as the choice ["0"]. *)
Theorem display_tool_menu_name_error (tools_list : list Tool)
    (typed : option string) :
  tools_list ≠ [] →
  ((∃ tool, tool ∈ tools_list ∧ truthy (install_path tool) = true) ↔
   ∃ rows, display_tool_menu tools_list typed = MenuNameError rows) ∧
  ((∀ tool, tool ∈ tools_list → truthy (install_path tool) = false) →
   ∃ rows, display_tool_menu tools_list typed
           = MenuChoice rows (match typed with
                              | Some line => PyStr.strip line
                              | None => "0"
                              end)
           ∧ List.length rows = List.length tools_list) ∧
  (∀ rows,
     (display_tool_menu tools_list typed = MenuNameError rows
      ∨ ∃ choice, display_tool_menu tools_list typed = MenuChoice rows choice) →
     ∀ row, row ∈ rows → row.2 ≠ Installed).
Proof.
  intros Hne.
  assert (Hmenu : display_tool_menu tools_list typed
                  = if (menu_rows 0 tools_list).2
                    then MenuChoice (menu_rows 0 tools_list).1
                           (match typed with
                            | Some line => PyStr.strip line
                            | None => "0"
                            end)
                    else MenuNameError (menu_rows 0 tools_list).1).
  { unfold display_tool_menu. destruct tools_list as [|t rest]; [done|].
    by destruct (menu_rows 0 (t :: rest)) as [rows []]. }
  rewrite Hmenu. pose proof (menu_rows_unfinished 0 tools_list) as Hun.
  pose proof (menu_rows_never_installed 0 tools_list) as Hnever.
  split; [|split].
  - rewrite <- Hun. destruct (menu_rows 0 tools_list).2; split.
    + discriminate.
    + intros [rows ?]. discriminate.
    + intros _. by eexists.
    + reflexivity.
  - intros Hall. destruct (menu_rows 0 tools_list).2 eqn:Hfin.
    + eexists. split; [reflexivity|].
      clear Hmenu Hun Hnever Hfin Hne. generalize 0.
      induction tools_list as [|t rest IH]; intros i; [reflexivity|].
      cbn [menu_rows]. unfold menu_status.
      rewrite (Hall t) by apply list_elem_of_here.
      destruct (negb (truthy (github_url t)) && negb false);
        specialize (IH (fun t' H => Hall t' (list_elem_of_further _ _ _ H)) (S i));
        destruct (menu_rows (S i) rest); cbn [fst List.length] in *; by rewrite IH.
    + destruct (proj1 Hun eq_refl) as (t & Hin & Ht).
      rewrite (Hall t Hin) in Ht. discriminate.
  - intros rows Hrows.
    assert (rows = (menu_rows 0 tools_list).1) as ->; [|exact Hnever].
    destruct (menu_rows 0 tools_list).2;
      destruct Hrows as [H|[choice H]]; congruence.
Qed.

(** ** The further properties on the simulated hosts *)

Lemma install_system_package_unsupported_os_witness :
  install_system_package (HW := sim) "nmap" "linux" (start host_bare)
  = (Ok false, {| world := host_bare; procs := [EvArgv ["which"; "nmap"]];
                  console := [] |}).
Proof.
  apply (install_system_package_unsupported_os (HW := sim) "nmap" "linux"
           (start host_bare)).
  - discriminate.
  - reflexivity.
  - unfold auto_install_os_types. rewrite !elem_of_cons, elem_of_nil.
    intros H. intuition discriminate.
Defined.

Lemma install_system_package_update_not_fatal_witness :
  install_system_package (HW := sim) "nmap" "debian_based_linux" (start host_bare)
  = (Ok true,
     {| world := host_bare;
        procs := [EvArgv ["which"; "nmap"]; EvShell "sudo apt update -y" None;
                  EvShell "sudo apt install -y nmap" None];
        console := [] |})
  ∧ (spawn_shell (Host := sim) "sudo apt update -y" None host_bare).1 = false.
Proof.
  split; [|reflexivity].
  apply (install_system_package_update_not_fatal (HW := sim) "nmap"
           "debian_based_linux" "sudo apt update -y" "sudo apt install -y nmap"
           (start host_bare)
           {| world := host_bare; procs := [EvArgv ["which"; "nmap"]];
              console := [] |}).
  - discriminate.
  - reflexivity.
  - apply list_elem_of_further, list_elem_of_here.
Defined.

Lemma install_system_package_windows_witness :
  install_system_package (HW := sim) "nmap" "windows" (start host_choco_brew)
  = (Ok true,
     {| world := host_choco_brew;
        procs := [EvArgv ["which"; "nmap"]; EvArgv ["which"; "choco"];
                  EvShell "choco install -y nmap" None];
        console := [] |}).
Proof.
  apply (install_system_package_windows (HW := sim) "nmap"
           (start host_choco_brew)
           {| world := host_choco_brew; procs := [EvArgv ["which"; "nmap"]];
              console := [] |}).
  - discriminate.
  - reflexivity.
Defined.

Lemma install_system_package_macos_witness :
  install_system_package (HW := sim) "nmap" "macos" (start host_bare)
  = (Ok false,
     {| world := host_bare;
        procs := [EvArgv ["which"; "nmap"]; EvArgv ["which"; "brew"]];
        console := [] |}).
Proof.
  apply (install_system_package_macos (HW := sim) "nmap" (start host_bare)
           {| world := host_bare; procs := [EvArgv ["which"; "nmap"]];
              console := [] |}).
  - discriminate.
  - reflexivity.
Defined.

Lemma install_python_requirements_pip_choice_witness :
  install_python_requirements (HW := sim) "tools/sqlmap" (start host_fresh)
    = (Ok false, start host_fresh) ∧
  install_python_requirements (HW := sim) "tools/nikto" (start host_nikto)
    = (Ok true,
       {| world := host_nikto;
          procs := [EvArgv ["which"; "pip3"]; EvArgv ["which"; "pip"];
                    EvShell "pip install -r tools/nikto/requirements.txt" None];
          console := [] |}).
Proof.
  split.
  - apply (proj1 (install_python_requirements_pip_choice (HW := sim)
                    "tools/sqlmap" (start host_fresh))).
    reflexivity.
  - apply (proj2 (install_python_requirements_pip_choice (HW := sim)
                    "tools/nikto" (start host_nikto))).
    reflexivity.
Defined.

Lemma install_tool_stops_at_failed_dependency_witness :
  install_tool (HW := sim) nikto "debian_based_linux" (start host_nikto)
  = (Ok false,
     {| world := host_nikto;
        procs := [EvArgv ["which"; "perl"];
                  EvArgv ["which"; "libnet-ssleay-perl"];
                  EvShell "sudo apt update -y" None;
                  EvShell "sudo apt install -y libnet-ssleay-perl" None];
        console := [] |}).
Proof.
  apply (install_tool_stops_at_failed_dependency (HW := sim) nikto
           "debian_based_linux"
           {[ "default" := ["perl"];
              "debian_based_linux" := ["perl"; "libnet-ssleay-perl"] ]}
           ["perl"] [] "libnet-ssleay-perl" (start host_nikto)
           {| world := host_nikto; procs := [EvArgv ["which"; "perl"]];
              console := [] |}).
  - reflexivity.
  - reflexivity.
  - reflexivity.
  - reflexivity.
Defined.

Lemma install_tool_without_install_path_witness :
  install_tool (HW := sim) manual_resource "macos" (start host_bare)
  = (Ok true, start host_bare).
Proof.
  rewrite (install_tool_without_install_path (HW := sim) manual_resource "macos"
             (start host_bare) eq_refl).
  reflexivity.
Defined.

Lemma post_install_stops_at_first_failure_witness :
  ∃ s2, run_post_installation_commands (HW := sim) nikto (start host_nikto)
        = (Ok false, s2)
        ∧ procs s2
          = [EvShell "chmod +x tools/nikto/nikto.pl" (Some "tools/nikto");
             EvShell "make" (Some "tools/nikto")].
Proof.
  apply (proj2 (post_install_stops_at_first_failure (HW := sim) nikto
                  "tools/nikto" ["chmod +x {{install_path}}/nikto.pl"]
                  ["make install"] "make" (start host_nikto)
                  eq_refl ltac:(discriminate) eq_refl)
           eq_refl
           {| world := host_nikto;
              procs := [EvShell "chmod +x tools/nikto/nikto.pl" (Some "tools/nikto")];
              console := [] |}).
  - reflexivity.
  - reflexivity.
Defined.

Lemma install_tool_mkdir_failure_raises_witness :
  install_tool (HW := sim) locked_tool "linux" (start host_nikto)
  = (Raised OSError, start host_nikto).
Proof.
  apply (install_tool_mkdir_failure_raises (HW := sim) locked_tool "linux"
           "https://example/locked" "tools.lock/locked"
           (start host_nikto) (start host_nikto)).
  - reflexivity.
  - discriminate.
  - reflexivity.
  - discriminate.
  - reflexivity.
  - reflexivity.
Defined.

Lemma run_tool_by_install_path_witness :
  run_tool (HW := sim) manual_resource (start host_nikto)
    = (Ok true, start host_nikto) ∧
  run_tool (HW := sim) nikto (start host_nikto)
    = (Ok true,
       {| world := host_nikto;
          procs := [EvShell "perl nikto.pl -h" (Some "tools/nikto")];
          console := [] |}) ∧
  run_tool (HW := sim) nikto (start host_bare) = (Ok false, start host_bare).
Proof.
  split; [|split].
  - apply (proj1 (run_tool_by_install_path (HW := sim) manual_resource
                    "https://www.exploit-db.com" (start host_nikto) eq_refl)).
    reflexivity.
  - apply (proj2 (run_tool_by_install_path (HW := sim) nikto
                    "perl nikto.pl -h" (start host_nikto) eq_refl)
             "tools/nikto" eq_refl).
    discriminate.
  - apply (proj2 (run_tool_by_install_path (HW := sim) nikto
                    "perl nikto.pl -h" (start host_bare) eq_refl)
             "tools/nikto" eq_refl).
    discriminate.
Defined.

Lemma get_installed_tools_names_txt_files_witness :
  ∃ names : gset string,
    get_installed_tools_names (HW := sim) "tools" (start host_installed)
      = (Ok names, start host_installed) ∧
    (".txt" ∈ names ↔ ∃ stem, stem ≠ "" ∧ ".txt" = stem +:+ ".txt").
Proof.
  apply (get_installed_tools_names_txt_files (HW := sim) "tools" tools_entries
           ".txt" (start host_installed)).
  - reflexivity.
  - unfold tools_entries. rewrite !elem_of_cons. tauto.
  - unfold tools_entries. intros k Hk. rewrite !elem_of_cons, elem_of_nil in Hk.
    destruct Hk as [H|[H|[H|[H|[H|[]]]]]]; by inversion H.
Defined.

Lemma update_check_spawns_only_git_queries_witness :
  ∃ evs,
    [EvArgv ["git"; "-C"; "tools/sqlmap"; "fetch"; "--all"];
     EvArgv ["git"; "-C"; "tools/sqlmap"; "status"; "-uno"]]
    = ([] ++ evs)%list
    ∧ Forall (fun ev => ∃ t, t ∈ List.concat (map snd local_catalog)
                             ∧ name t ∈ ({[ "sqlmap"; "rockyou.txt" ]} : gset string)
                             ∧ truthy (github_url t) = true
                             ∧ git_query_of (HW := sim_behind) t ev) evs
    ∧ (remote_catalog = [] → evs = [] ∧ ([new_scanner], [sqlmap]) = ([], [])).
Proof.
  apply (update_check_spawns_only_git_queries (HW := sim_behind)
           local_catalog remote_catalog {[ "sqlmap"; "rockyou.txt" ]}
           (start host_repo)
           {| world := host_repo;
              procs := [EvArgv ["git"; "-C"; "tools/sqlmap"; "fetch"; "--all"];
                        EvArgv ["git"; "-C"; "tools/sqlmap"; "status"; "-uno"]];
              console := [nl +:+ "[*] Checking for updates to installed tools (this might take a moment)..."] |}
           ([new_scanner], [sqlmap])).
  vm_compute. reflexivity.
Defined.

Example update_scan_example :
  check_for_tool_updates_and_new_tools (HW := sim_behind)
    local_catalog remote_catalog {[ "sqlmap"; "rockyou.txt" ]} (start host_repo)
  = (Ok ([new_scanner], [sqlmap]),
     {| world := host_repo;
        procs := [EvArgv ["git"; "-C"; "tools/sqlmap"; "fetch"; "--all"];
                  EvArgv ["git"; "-C"; "tools/sqlmap"; "status"; "-uno"]];
        console := [nl +:+ "[*] Checking for updates to installed tools (this might take a moment)..."] |}).
Proof. vm_compute. reflexivity. Qed.

Lemma tools_to_update_are_installed_local_witness :
  sqlmap ∈ List.concat (map snd local_catalog)
  ∧ name sqlmap ∈ ({[ "sqlmap"; "rockyou.txt" ]} : gset string)
  ∧ truthy (github_url sqlmap) = true ∧ truthy (install_path sqlmap) = true.
Proof.
  apply (tools_to_update_are_installed_local (HW := sim_behind)
           local_catalog remote_catalog {[ "sqlmap"; "rockyou.txt" ]}
           (start host_repo)
           {| world := host_repo;
              procs := [EvArgv ["git"; "-C"; "tools/sqlmap"; "fetch"; "--all"];
                        EvArgv ["git"; "-C"; "tools/sqlmap"; "status"; "-uno"]];
              console := [nl +:+ "[*] Checking for updates to installed tools (this might take a moment)..."] |}
           [new_scanner] [sqlmap]).
  - vm_compute. reflexivity.
  - apply list_elem_of_here.
Defined.

Lemma new_tools_names_unique_witness :
  check_for_tool_updates_and_new_tools (HW := sim)
    local_catalog remote_duplicates ∅ (start host_bare)
  = (Ok ([new_scanner_mirror], []),
     {| world := host_bare; procs := [];
        console := [nl +:+ "[*] Checking for updates to installed tools (this might take a moment)..."] |})
  ∧ NoDup (map name [new_scanner_mirror]).
Proof.
  assert (Hrun : check_for_tool_updates_and_new_tools (HW := sim)
            local_catalog remote_duplicates ∅ (start host_bare)
          = (Ok ([new_scanner_mirror], []),
             {| world := host_bare; procs := [];
                console := [nl +:+ "[*] Checking for updates to installed tools (this might take a moment)..."] |}))
    by (vm_compute; reflexivity).
  split; [exact Hrun|].
  exact (new_tools_names_unique (HW := sim) _ _ _ _ _ _ _ Hrun).
Defined.

Lemma flatten_tools_last_wins_witness :
  PyDict.get "nikto" (flatten_tools remote_duplicates) = None ∧
  PyDict.get "X" (flatten_tools remote_duplicates) = Some new_scanner_mirror.
Proof.
  split.
  - apply (proj1 (flatten_tools_last_wins remote_duplicates) "nikto").
    intros t Ht. cbn in Ht. rewrite !elem_of_cons, elem_of_nil in Ht.
    destruct Ht as [->|[->|[->|[]]]]; discriminate.
  - apply (proj2 (flatten_tools_last_wins remote_duplicates)
             [new_scanner; sqlmap] new_scanner_mirror []).
    + reflexivity.
    + intros t Ht. by apply not_elem_of_nil in Ht.
Defined.

Lemma get_remote_tools_data_success_witness :
  get_remote_tools_data (HW := sim_ok) "https://example/tools.json"
    (start host_nikto)
  = (Ok (Some remote_catalog),
     {| world := host_nikto;
        procs := [EvHttpGet "https://example/tools.json" 15];
        console := [nl +:+ "[*] Fetching latest tool definitions from https://example/tools.json..."] |}).
Proof.
  apply (proj2 (get_remote_tools_data_success (HW := sim_ok)
                  "https://example/tools.json" 200 "{Web: []}" remote_catalog
                  host_nikto (start host_nikto))).
  - discriminate.
  - reflexivity.
  - lia.
  - reflexivity.
Defined.

Lemma check_updates_choice_raises_witness :
  check_updates_choice (HW := sim_ok) "https://example/tools.json" "tools.lock"
    local_catalog (start host_nikto)
  = (Raised NotADirectoryError,
     {| world := host_nikto;
        procs := [EvHttpGet "https://example/tools.json" 15];
        console := [nl +:+ "[*] Fetching latest tool definitions from https://example/tools.json..."] |})
  ∧ check_updates_choice (HW := sim) "https://example/tools.json" "tools"
      local_catalog (start host_fresh)
    = (Raised AttributeError,
       {| world := host_fresh;
          procs := [EvHttpGet "https://example/tools.json" 15];
          console := [nl +:+ "[*] Fetching latest tool definitions from https://example/tools.json..."] |}).
Proof.
  split.
  - apply (proj1 (check_updates_choice_raises (HW := sim_ok)
                    "https://example/tools.json" "tools.lock" local_catalog
                    (start host_nikto))
             ("Web", [sqlmap; new_scanner]) [("Resources", [manual_resource])]).
    + reflexivity.
    + left. reflexivity.
  - apply (proj2 (check_updates_choice_raises (HW := sim)
                    "https://example/tools.json" "tools" local_catalog
                    (start host_fresh))
             200 "{" "unexpected end of input" host_fresh).
    + discriminate.
    + reflexivity.
    + lia.
    + reflexivity.
Defined.

Lemma install_system_package_true_only_if_witness :
  let s' :=
    {| world := host_bare;
       procs := [EvArgv ["which"; "nmap"]; EvShell "sudo apt update -y" None;
                 EvShell "sudo apt install -y nmap" None];
       console := [] |} in
  (blank "nmap" ∧ s' = start host_bare)
  ∨ package_present (HW := sim) "nmap" (start host_bare) = (Ok true, s')
  ∨ ∃ s1 s2 install_cmd_str mid,
      package_present (HW := sim) "nmap" (start host_bare) = (Ok false, s1)
      ∧ ("debian_based_linux", install_cmd_str) ∈ install_commands "nmap"
      ∧ procs s2 = (procs s1 ++ mid)%list
      ∧ Forall (fun ev => is_which ev
                          ∨ ∃ update_cmd_str,
                              ("debian_based_linux", update_cmd_str) ∈ update_commands
                              ∧ ev = EvShell update_cmd_str None) mid
      ∧ spawn_shell (Host := sim) install_cmd_str None (world s2)
        = (true, world s')
      ∧ procs s' = (procs s2 ++ [EvShell install_cmd_str None])%list.
Proof.
  apply (install_system_package_true_only_if (HW := sim) "nmap"
           "debian_based_linux" (start host_bare)
           {| world := host_bare;
              procs := [EvArgv ["which"; "nmap"]; EvShell "sudo apt update -y" None;
                        EvShell "sudo apt install -y nmap" None];
              console := [] |}).
  reflexivity.
Defined.

Lemma skip_flag_only_acts_without_os_compat_witness :
  (universal_hidden ∉ final_compatible_tools "macos" [universal_hidden; nmap_skip])
  ∧ (nmap_skip ∈ final_compatible_tools "debian_based_linux"
                   [universal_hidden; nmap_skip]).
Proof.
  split.
  - intros Hin.
    apply (proj1 (skip_flag_only_acts_without_os_compat "macos"
                    [universal_hidden; nmap_skip] universal_hidden
                    (list_elem_of_here _ _)) eq_refl) in Hin.
    discriminate Hin.
  - apply (proj2 (skip_flag_only_acts_without_os_compat "debian_based_linux"
                    [universal_hidden; nmap_skip] nmap_skip
                    (list_elem_of_further _ _ _ (list_elem_of_here _ _)))).
    + discriminate.
    + left. apply list_elem_of_here.
Defined.

Lemma display_tool_menu_name_error_witness :
  (∃ rows, display_tool_menu [manual_resource; sqlmap; nikto] (Some "2")
           = MenuNameError rows) ∧
  (∃ rows, display_tool_menu [manual_resource; nmap_skip] (Some " 1 ")
           = MenuChoice rows "1" ∧ List.length rows = 2).
Proof.
  split.
  - apply (proj1 (proj1 (display_tool_menu_name_error
                           [manual_resource; sqlmap; nikto] (Some "2")
                           ltac:(discriminate)))).
    exists sqlmap. split; [|reflexivity].
    apply list_elem_of_further, list_elem_of_here.
  - apply (proj1 (proj2 (display_tool_menu_name_error
                           [manual_resource; nmap_skip] (Some " 1 ")
                           ltac:(discriminate)))).
    intros tool Ht. rewrite !elem_of_cons, elem_of_nil in Ht.
    destruct Ht as [->|[->|[]]]; reflexivity.
Defined.

Example display_tool_menu_example :
  display_tool_menu [manual_resource; sqlmap; nikto] (Some "2")
  = MenuNameError [(1, "exploit-db", ExternalManual)].
Proof. reflexivity. Qed.

